(** * create_template.py: scaffolding a course directory from a template

    A shallow embedding of [create_template] and of the library calls it
    makes, followed by the properties of the scaffolder.

    Conventions of the model.
    - A Python [str] is a [string] holding its UTF-8 bytes.  Case conversion
      is the one of the ASCII letters; bytes above 127 are left as they are
      (accented letters outside ASCII are outside the model: a theorem on
      what the conversion gives takes a name in ASCII, [is_ascii]).
    - The file system is a finite tree of directories and regular files.  A
      regular file carries the owner's read and write permission, which
      decide whether [open] succeeds (the process is an unprivileged owner);
      directories are always accessible.  There are no symbolic links, and
      [..] is a name like any other (a theorem on a place named apart from
      the target takes places without it, [Tree.no_parent_parts]).  A write either fails when the file
      is opened or goes through.
    - A computation threads the file system and the text printed so far and
      ends by returning a value or by raising an exception. *)

From Stdlib Require Import String Ascii List Bool Arith PeanoNat ZArith Lia.
From Stdlib Require Import Decimal DecimalString.
From Stdlib Require Import Sorted Permutation.
Import ListNotations.
Open Scope string_scope.
Set Warnings "-register-all".

(** ** Characters and strings *)

Module Str.

Definition nl : string := String "010"%char "".
Definition dq : string := String "034"%char "".
Definition sq : string := "'".

Definition is_lower (c : ascii) : bool :=
  let n := nat_of_ascii c in Nat.leb 97 n && Nat.leb n 122.

Definition is_upper (c : ascii) : bool :=
  let n := nat_of_ascii c in Nat.leb 65 n && Nat.leb n 90.

(** A cased character: one that has an upper and a lower form. *)
Definition is_cased (c : ascii) : bool := is_lower c || is_upper c.

Definition to_upper (c : ascii) : ascii :=
  if is_lower c then ascii_of_nat (nat_of_ascii c - 32) else c.

Definition to_lower (c : ascii) : ascii :=
  if is_upper c then ascii_of_nat (nat_of_ascii c + 32) else c.

(** Python's [str.isspace] on ASCII: space, tab, newline, vertical tab,
    form feed, carriage return and the four separators 28..31. *)
Definition is_space (c : ascii) : bool :=
  let n := nat_of_ascii c in
  Nat.eqb n 32 || (Nat.leb 9 n && Nat.leb n 13) || (Nat.leb 28 n && Nat.leb n 31).

Fixpoint map (f : ascii -> ascii) (s : string) : string :=
  match s with
  | EmptyString => EmptyString
  | String c s' => String (f c) (map f s')
  end.

(** [s.upper()] *)
Definition upper (s : string) : string := map to_upper s.

(** [s.replace(old, new)] for one-character [old] and [new]. *)
Definition replace (old new : ascii) (s : string) : string :=
  map (fun c => if Ascii.eqb c old then new else c) s.

(** [s.title()]: CPython walks the string once and remembers whether the
    previous character was cased; a character after a cased one is
    lower-cased, any other is title-cased. *)
Fixpoint title_from (previous_is_cased : bool) (s : string) : string :=
  match s with
  | EmptyString => EmptyString
  | String c s' =>
      String (if previous_is_cased then to_lower c else to_upper c)
             (title_from (is_cased c) s')
  end.

Definition title (s : string) : string := title_from false s.

(** The reading of title-casing by whitespace-delimited words: the first
    character of every word is capitalized, the rest of the word is
    lower-cased. *)
Fixpoint title_words_from (inside_word : bool) (s : string) : string :=
  match s with
  | EmptyString => EmptyString
  | String c s' =>
      String (if inside_word then to_lower c else to_upper c)
             (title_words_from (negb (is_space c)) s')
  end.

Definition title_words (s : string) : string := title_words_from false s.

Definition of_nat (n : nat) : string := NilZero.string_of_uint (Nat.to_uint n).
Definition of_Z (z : Z) : string := NilZero.string_of_int (Z.to_int z).

(** ["=" * 70] *)
Fixpoint repeat (s : string) (n : nat) : string :=
  match n with
  | O => EmptyString
  | S n' => s ++ repeat s n'
  end.

(** [sep.join(l)] *)
Definition join (sep : string) (l : list string) : string := String.concat sep l.

(** [sub in s] *)
Definition Substring (sub s : string) : Prop :=
  exists before after, s = before ++ sub ++ after.

Fixpoint contains_char (c : ascii) (s : string) : bool :=
  match s with
  | EmptyString => false
  | String d s' => Ascii.eqb c d || contains_char c s'
  end.

End Str.

(** The display title of lines 78 and 91:
    [output_dir.replace('-', ' ').replace('_', ' ').title()]. *)
Definition display_title (output_dir : string) : string :=
  Str.title (Str.replace "_" " " (Str.replace "-" " " output_dir)).

(** The display title as the prose describes it: separators to spaces, then
    every whitespace-delimited word capitalized. *)
Definition display_title_by_words (output_dir : string) : string :=
  Str.title_words (Str.replace "_" " " (Str.replace "-" " " output_dir)).

(** ** JSON values and [json.dump]

    A value as [json.load] returns it.  A Python [dict] keeps its keys in
    insertion order, so an object is an association list.  A [float] is
    carried by its [repr], which is what [json.dump] prints. *)

Inductive json : Type :=
| JNull
| JBool (b : bool)
| JInt (z : Z)
| JFloat (repr : string)
| JString (s : string)
| JArray (items : list json)
| JObject (members : list (string * json)).

Module Dict.

Fixpoint get {V : Type} (k : string) (d : list (string * V)) : option V :=
  match d with
  | [] => None
  | (k', v) :: d' => if String.eqb k' k then Some v else get k d'
  end.

(** [d[k] = v]: an existing key keeps its place, a new key goes last. *)
Fixpoint set {V : Type} (k : string) (v : V) (d : list (string * V))
  : list (string * V) :=
  match d with
  | [] => [(k, v)]
  | (k', v') :: d' =>
      if String.eqb k' k then (k', v) :: d' else (k', v') :: set k v d'
  end.

Definition keys {V : Type} (d : list (string * V)) : list string :=
  List.map fst d.

End Dict.

Module Json.

Definition hex_digit (n : N) : ascii :=
  match n with
  | 0 => "0" | 1 => "1" | 2 => "2" | 3 => "3" | 4 => "4" | 5 => "5"
  | 6 => "6" | 7 => "7" | 8 => "8" | 9 => "9" | 10 => "a" | 11 => "b"
  | 12 => "c" | 13 => "d" | 14 => "e" | _ => "f"
  end%N%char.

(** ['\\u{0:04x}'.format(n)] *)
Definition u_escape (n : N) : string :=
  "\u" ++ String (hex_digit (N.land (N.shiftr n 12) 15))
         (String (hex_digit (N.land (N.shiftr n 8) 15))
         (String (hex_digit (N.land (N.shiftr n 4) 15))
         (String (hex_digit (N.land n 15)) ""))).

(** The escape of one code point in [py_encode_basestring_ascii]. *)
Definition escape_code_point (n : N) : string :=
  if N.eqb n 92 then "\\"
  else if N.eqb n 34 then "\" ++ Str.dq
  else if N.eqb n 8 then "\b"
  else if N.eqb n 12 then "\f"
  else if N.eqb n 10 then "\n"
  else if N.eqb n 13 then "\r"
  else if N.eqb n 9 then "\t"
  else if N.leb 32 n && N.leb n 126 then String (ascii_of_N n) ""
  else if N.ltb n 65536 then u_escape n
  else
    let m := (n - 65536)%N in
    u_escape (N.lor 55296 (N.land (N.shiftr m 10) 1023))
    ++ u_escape (N.lor 56320 (N.land m 1023)).

Definition cont (c : ascii) : N := N.land (N_of_ascii c) 63.

(** The code points of a UTF-8 string, escaped one by one. *)
Fixpoint escape (s : string) : string :=
  match s with
  | EmptyString => EmptyString
  | String c s1 =>
      let b := N_of_ascii c in
      if N.ltb b 192 then escape_code_point b ++ escape s1
      else
        match s1 with
        | EmptyString => escape_code_point b
        | String c1 s2 =>
            if N.ltb b 224 then
              escape_code_point (N.lor (N.shiftl (N.land b 31) 6) (cont c1))
              ++ escape s2
            else
              match s2 with
              | EmptyString => escape_code_point b ++ escape s1
              | String c2 s3 =>
                  if N.ltb b 240 then
                    escape_code_point
                      (N.lor (N.shiftl (N.land b 15) 12)
                         (N.lor (N.shiftl (cont c1) 6) (cont c2)))
                    ++ escape s3
                  else
                    match s3 with
                    | EmptyString => escape_code_point b ++ escape s1
                    | String c3 s4 =>
                        escape_code_point
                          (N.lor (N.shiftl (N.land b 7) 18)
                             (N.lor (N.shiftl (cont c1) 12)
                                (N.lor (N.shiftl (cont c2) 6) (cont c3))))
                        ++ escape s4
                    end
              end
        end
  end.

(** [encode_basestring_ascii]: [ensure_ascii] is on by default. *)
Definition encode_string (s : string) : string := Str.dq ++ escape s ++ Str.dq.

(** The encoder of [json.dump] with an indent: items are separated by a
    comma and a newline, a key from its value by a colon and a space. *)
Fixpoint encode (indent : string) (level : nat) (v : json) : string :=
  let newline_indent := Str.nl ++ Str.repeat indent (S level) in
  match v with
  | JNull => "null"
  | JBool true => "true"
  | JBool false => "false"
  | JInt z => Str.of_Z z
  | JFloat repr => repr
  | JString s => encode_string s
  | JArray [] => "[]"
  | JArray items =>
      "[" ++ newline_indent
      ++ Str.join ("," ++ newline_indent)
           ((fix each (l : list json) : list string :=
               match l with
               | [] => []
               | x :: l' => encode indent (S level) x :: each l'
               end) items)
      ++ Str.nl ++ Str.repeat indent level ++ "]"
  | JObject [] => "{}"
  | JObject members =>
      "{" ++ newline_indent
      ++ Str.join ("," ++ newline_indent)
           ((fix each (l : list (string * json)) : list string :=
               match l with
               | [] => []
               | (k, x) :: l' =>
                   (encode_string k ++ ": " ++ encode indent (S level) x)
                   :: each l'
               end) members)
      ++ Str.nl ++ Str.repeat indent level ++ "}"
  end.

(** [json.dumps(v, indent=n)] *)
Definition dumps (indent : nat) (v : json) : string :=
  encode (Str.repeat " " indent) 0 v.

(** The text of one member of an object at nesting depth [level]. *)
Definition member_text (indent : string) (level : nat) (kv : string * json)
  : string :=
  encode_string (fst kv) ++ ": " ++ encode indent (S level) (snd kv).

End Json.

(** ** The file system *)

Record mode : Type := Mode { readable : bool; writable : bool }.

(** The mode of a file that [open(..., 'w')] creates. *)
Definition default_mode : mode := Mode true true.

Inductive node : Type :=
| File (m : mode) (data : string)
| Dir (entries : list (string * node)).

(** A place in the tree: the names from the root down. *)
Definition location : Type := list string.
Bind Scope list_scope with location.

(** What [stat] and a read tell about a place, without what lies below. *)
Inductive entry : Type :=
| EFile (m : mode) (data : string)
| EDir.

Module FS.

Fixpoint lookup (n : node) (p : location) : option node :=
  match p with
  | [] => Some n
  | x :: p' =>
      match n with
      | File _ _ => None
      | Dir es =>
          match Dict.get x es with
          | Some c => lookup c p'
          | None => None
          end
      end
  end.

Definition entry_of (n : node) : entry :=
  match n with
  | File m data => EFile m data
  | Dir _ => EDir
  end.

Definition stat (n : node) (p : location) : option entry :=
  option_map entry_of (lookup n p).

Definition exists_ (n : node) (p : location) : bool :=
  match lookup n p with Some _ => true | None => false end.

(** [graft n p new] puts [new] at [p], making the missing directories on
    the way as [os.makedirs] does; it fails when the way leads through a
    regular file. *)
Fixpoint graft (n : node) (p : location) (new : node) : option node :=
  match p with
  | [] => Some new
  | x :: p' =>
      match n with
      | File _ _ => None
      | Dir es =>
          let child := match Dict.get x es with Some c => c | None => Dir [] end in
          match graft child p' new with
          | Some child' => Some (Dir (Dict.set x child' es))
          | None => None
          end
      end
  end.

(** [strip_prefix p q] is what is left of [q] after [p], when [q] starts
    with [p]. *)
Fixpoint strip_prefix (p q : location) : option location :=
  match p, q with
  | [], _ => Some q
  | _ :: _, [] => None
  | x :: p', y :: q' => if String.eqb x y then strip_prefix p' q' else None
  end.

(** Whether the place [dst] lies below a directory that the source
    directory at [src], with the entries [es], already has. *)
Definition into_itself (es : list (string * node)) (src dst : location) : bool :=
  match strip_prefix src dst with
  | Some (x :: _) =>
      match Dict.get x es with
      | Some (Dir _) => true
      | _ => false
      end
  | _ => false
  end.

(** The names below a directory that contain a dot, at any depth: what
    [rglob('*.*')] yields, as places relative to the directory. *)
Fixpoint dotted (n : node) : list location :=
  match n with
  | File _ _ => []
  | Dir es =>
      (fix each (l : list (string * node)) : list location :=
         match l with
         | [] => []
         | (x, c) :: l' =>
             ((if Str.contains_char "." x then [[x]] else [])
              ++ List.map (cons x) (dotted c) ++ each l')%list
         end) es
  end.

End FS.

(** ** Paths

    A [pathlib.Path]: the parts as written, and whether it starts at the
    root.  Empty parts and [.] are dropped when the path is built. *)

Record Path : Type := MkPath { absolute : bool; parts : list string }.

Module P.

Fixpoint split (s : string) : list string :=
  match s with
  | EmptyString => [EmptyString]
  | String c s' =>
      if Ascii.eqb c "/" then EmptyString :: split s'
      else
        match split s' with
        | h :: t => String c h :: t
        | [] => [String c EmptyString]
        end
  end.

Definition kept (part : string) : bool :=
  negb (String.eqb part "" || String.eqb part ".").

(** [Path(s)] *)
Definition of_string (s : string) : Path :=
  MkPath (match s with String "/" _ => true | _ => false end)
         (List.filter kept (split s)).

(** [p / name] *)
Definition div (p : Path) (name : string) : Path :=
  MkPath (absolute p) (parts p ++ [name]).

(** [str(p)] *)
Definition str (p : Path) : string :=
  if absolute p then "/" ++ Str.join "/" (parts p)
  else match parts p with [] => "." | _ => Str.join "/" (parts p) end.

(** [p.name] *)
Definition name (p : Path) : string := List.last (parts p) "".

Fixpoint parts_leb (a b : list string) : bool :=
  match a, b with
  | [], _ => true
  | _ :: _, [] => false
  | x :: a', y :: b' =>
      match String.compare x y with
      | Lt => true
      | Gt => false
      | Eq => parts_leb a' b'
      end
  end.

Fixpoint insert (p : Path) (l : list Path) : list Path :=
  match l with
  | [] => [p]
  | q :: l' => if parts_leb (parts p) (parts q) then p :: l else q :: insert p l'
  end.

(** [sorted(l)] *)
Fixpoint sorted (l : list Path) : list Path :=
  match l with
  | [] => []
  | p :: l' => insert p (sorted l')
  end.

End P.

Notation "p // name" := (P.div p name) (at level 40, left associativity).

(** ** Exceptions *)

Inductive exn : Type :=
| OSError (errno : nat) (strerror filename : string)
| ShutilError (errors : list (string * string * string))
| DecodeError (msg : string)
| TypeError (msg : string)
| RecursionError (msg : string).

Definition FileNotFoundError := OSError 2 "No such file or directory".
Definition PermissionError := OSError 13 "Permission denied".
Definition FileExistsError := OSError 17 "File exists".
Definition NotADirectoryError := OSError 20 "Not a directory".
Definition IsADirectoryError := OSError 21 "Is a directory".

Module Exn.

(** [repr(s)] of a string without characters to escape: double quotes are
    chosen when the string holds a single quote and no double quote. *)
Definition repr (s : string) : string :=
  if Str.contains_char "'" s && negb (Str.contains_char "034" s)
  then Str.dq ++ s ++ Str.dq
  else Str.sq ++ s ++ Str.sq.

Definition os_error_str (errno : nat) (strerror filename : string) : string :=
  "[Errno " ++ Str.of_nat errno ++ "] " ++ strerror ++ ": " ++ repr filename.

(** [str(e)] *)
Definition str (e : exn) : string :=
  match e with
  | OSError errno strerror filename => os_error_str errno strerror filename
  | ShutilError errors =>
      "[" ++ Str.join ", "
               (List.map (fun '(src, dst, why) =>
                            "(" ++ repr src ++ ", " ++ repr dst ++ ", "
                            ++ repr why ++ ")") errors)
      ++ "]"
  | DecodeError msg => msg
  | TypeError msg => msg
  | RecursionError msg => msg
  end.

End Exn.

(** ** Computations *)

Record world : Type := World { fs : node; stdout : list string }.

Inductive result (A : Type) : Type :=
| Ok (a : A)
| Raise (e : exn).

Arguments Ok {A} a.
Arguments Raise {A} e.

Definition M (A : Type) : Type := world -> result A * world.

Definition ret {A : Type} (a : A) : M A := fun w => (Ok a, w).

Definition raise {A : Type} (e : exn) : M A := fun w => (Raise e, w).

Definition bind {A B : Type} (m : M A) (k : A -> M B) : M B :=
  fun w =>
    match m w with
    | (Ok a, w') => k a w'
    | (Raise e, w') => (Raise e, w')
    end.

(** [try: m  except Exception as e: handler(e)] *)
Definition try_except {A : Type} (m : M A) (handler : exn -> M A) : M A :=
  fun w =>
    match m w with
    | (Ok a, w') => (Ok a, w')
    | (Raise e, w') => handler e w'
    end.

Notation "x <- m ;; k" := (bind m (fun x => k))
  (at level 61, m at next level, right associativity).
Notation "m ;;; k" := (bind m (fun _ => k))
  (at level 61, right associativity).

(** [print(s)] *)
Definition print (s : string) : M unit :=
  fun w => (Ok tt, World (fs w) (stdout w ++ [s])).

Definition get_fs : M node := fun w => (Ok (fs w), w).

Definition put_fs (n : node) : M unit := fun w => (Ok tt, World n (stdout w)).

(** [for x in l: body(x)] *)
Fixpoint for_each {A : Type} (l : list A) (body : A -> M unit) : M unit :=
  match l with
  | [] => ret tt
  | x :: l' => body x ;;; for_each l' body
  end.

(** ** The process and its library calls *)

Section Process.

(** The working directory of the process. *)
Variable cwd : location.

(** What [shutil.copytree] ends with when the destination lies below a
    directory of its own source: it cannot make the destination, or it
    copies what it has just made, level after level, until the interpreter
    or the system stops it.  The exception it raises and the files it
    leaves are those of the run-time system. *)
Variable runaway : node -> Path -> Path -> exn * node.

(** [Path(__file__).parent]: the directory that holds the script. *)
Variable script_dir : Path.

(** [json.loads]: the value of a text, or the message of the exception the
    decoder raises. *)
Variable json_loads : string -> json + string.

(** Where a path leads: a relative path starts at the working directory. *)
Definition resolve (p : Path) : location :=
  if absolute p then parts p else (cwd ++ parts p)%list.

(** [p.absolute()] *)
Definition absolute_path (p : Path) : Path :=
  if absolute p then p else MkPath true (cwd ++ parts p).

(** [p.exists()] *)
Definition path_exists (p : Path) : M bool :=
  root <- get_fs ;;
  ret (FS.exists_ root (resolve p)).

(** [p.is_dir()] *)
Definition is_dir (p : Path) : M bool :=
  root <- get_fs ;;
  ret (match FS.lookup root (resolve p) with
       | Some (Dir _) => true
       | _ => false
       end).

(** [p.iterdir()] *)
Definition iterdir (p : Path) : M (list Path) :=
  root <- get_fs ;;
  match FS.lookup root (resolve p) with
  | Some (Dir es) => ret (List.map (fun e => p // fst e) es)
  | Some (File _ _) => raise (NotADirectoryError (P.str p))
  | None => raise (FileNotFoundError (P.str p))
  end.

(** [p.rglob('*.*')] *)
Definition rglob_dotted (p : Path) : M (list Path) :=
  root <- get_fs ;;
  match FS.lookup root (resolve p) with
  | Some n =>
      ret (List.map (fun rel => MkPath (absolute p) (parts p ++ rel)) (FS.dotted n))
  | None => ret []
  end.

(** [open(p, 'r')] followed by reading the whole file. *)
Definition read_text (p : Path) : M string :=
  root <- get_fs ;;
  match FS.lookup root (resolve p) with
  | Some (File m data) =>
      if readable m then ret data else raise (PermissionError (P.str p))
  | Some (Dir _) => raise (IsADirectoryError (P.str p))
  | None => raise (FileNotFoundError (P.str p))
  end.

(** [open(p, 'w')] followed by writing [data]: an existing file keeps its
    mode, a directory cannot be opened, a new file needs its directory. *)
Definition write_text (p : Path) (data : string) : M unit :=
  root <- get_fs ;;
  match FS.lookup root (resolve p) with
  | Some (File m _) =>
      if writable m then
        match FS.graft root (resolve p) (File m data) with
        | Some root' => put_fs root'
        | None => raise (NotADirectoryError (P.str p))
        end
      else raise (PermissionError (P.str p))
  | Some (Dir _) => raise (IsADirectoryError (P.str p))
  | None =>
      match FS.lookup root (removelast (resolve p)) with
      | Some (Dir _) =>
          match FS.graft root (resolve p) (File default_mode data) with
          | Some root' => put_fs root'
          | None => raise (NotADirectoryError (P.str p))
          end
      | Some (File _ _) => raise (NotADirectoryError (P.str p))
      | None => raise (FileNotFoundError (P.str p))
      end
  end.

(** [json.load(f)] on the text of the file. *)
Definition json_load (text : string) : M json :=
  match json_loads text with
  | inl v => ret v
  | inr msg => raise (DecodeError msg)
  end.

(** [data[key] = value] with a string key. *)
Definition setitem (data : json) (key : string) (value : json) : M json :=
  match data with
  | JObject d => ret (JObject (Dict.set key value d))
  | JArray _ => raise (TypeError "list indices must be integers or slices, not str")
  | JString _ => raise (TypeError "'str' object does not support item assignment")
  | JInt _ => raise (TypeError "'int' object does not support item assignment")
  | JFloat _ => raise (TypeError "'float' object does not support item assignment")
  | JBool _ => raise (TypeError "'bool' object does not support item assignment")
  | JNull => raise (TypeError "'NoneType' object does not support item assignment")
  end.

(** What [shutil.copytree] makes of one entry of the source.  [copy2]
    opens the source file before it creates the destination, so a file that
    cannot be read leaves nothing behind; the failure is recorded and the
    copy goes on with the next entry.  A directory is made in any case and
    the failures below it are passed up. *)
Fixpoint copy_node (src dst : Path) (n : node)
  : option node * list (string * string * string) :=
  match n with
  | File m data =>
      if readable m then (Some (File m data), [])
      else (None, [(P.str src, P.str dst,
                    Exn.str (PermissionError (P.str src)))])
  | Dir es =>
      let '(es', errors) :=
        (fix each (l : list (string * node))
           : list (string * node) * list (string * string * string) :=
           match l with
           | [] => ([], [])
           | (x, c) :: l' =>
               let '(c', e1) := copy_node (src // x) (dst // x) c in
               let '(l'', e2) := each l' in
               (match c' with Some k => (x, k) :: l'' | None => l'' end,
                (e1 ++ e2)%list)
           end) es in
      (Some (Dir es'), errors)
  end.

(** [shutil.copytree(src, dst)].  The source is listed, the destination is
    made with [os.makedirs] (it must not exist), every entry is copied, and
    the recorded failures are raised together at the end.  A directory is
    listed when its turn comes, so a destination below a directory of the
    source sends the copy into what it has just made ([runaway]); in every
    other case the copy reads the source as it was when the call began. *)
Definition copytree (src dst : Path) : M unit :=
  root <- get_fs ;;
  match FS.lookup root (resolve src) with
  | None => raise (FileNotFoundError (P.str src))
  | Some (File _ _) => raise (NotADirectoryError (P.str src))
  | Some (Dir es) =>
      if FS.exists_ root (resolve dst) then raise (FileExistsError (P.str dst))
      else if FS.into_itself es (resolve src) (resolve dst) then
        let '(e, root') := runaway root src dst in
        put_fs root' ;;; raise e
      else
        match copy_node src dst (Dir es) with
        | (Some copy, errors) =>
            match FS.graft root (resolve dst) copy with
            | None => raise (NotADirectoryError (P.str dst))
            | Some root' =>
                put_fs root' ;;;
                match errors with
                | [] => ret tt
                | _ :: _ => raise (ShutilError errors)
                end
            end
        | (None, errors) => raise (ShutilError errors)
        end
  end.

(** ** create_template *)

(** The lines of the README of lines 91 to 209; the text ends with a
    newline. *)
Definition readme_lines (output_dir : string) : list string :=
  [ "# " ++ display_title output_dir;
    "";
    "This Canvas course was created from the **canvas-course-template** with comprehensive CSS styling system.";
    "";
    "## 🎨 CSS Styling System";
    "";
    "This template includes a complete styling system for creating professional, visually appealing course content. All styles are defined in `css/canvas-course.css` and work seamlessly with Canvas LMS.";
    "";
    "### Available Components:";
    "";
    "**Info Boxes:**";
    "- `info-learning-goals` - Cyan box for learning objectives";
    "- `info-key-concept` - Indigo box for key concepts";
    "- `info-tip` - Yellow box for helpful tips";
    "- `info-note` - Orange box for important notes";
    "- `info-summary` - Gray box for summaries";
    "";
    "**Task Accordions:**";
    "- `task-practice` - Blue accordion for practice exercises";
    "- `task-portfolio` - Purple accordion for portfolio tasks";
    "- `task-quiz` - Teal/mint accordion for quiz tasks";
    "";
    "**Other Features:**";
    "- Canvas native tabs with color themes";
    "- Priority badges (MUST/SHOULD/COULD with MoSCoW method)";
    "- Good/bad example boxes with dashed borders";
    "- Styled tables and general accordions";
    "";
    "See the styling guide pages for complete examples and usage.";
    "";
    "## 📁 Folder Structure";
    "";
    "```";
    output_dir ++ "/";
    "├── wiki_content/                # HTML pages for your course";
    "│   ├── welcome_TEMPLATE.html    # Home page with customizable banner";
    "│   ├── styling-guide-*_TEMPLATE.html  # Documentation pages";
    "│   └── ...";
    "├── css/";
    "│   └── canvas-course.css        # Complete styling system";
    "├── web_resources/               # Files (PDFs, images, documents)";
    "├── quizzes/                     # Quiz definitions (JSON)";
    "├── assignments/                 # Assignment definitions (JSON)";
    "├── rubrics/                     # Rubrics (JSON format)";
    "├── course.json                  # Course metadata";
    "├── modules.json                 # Module organization";
    "└── README.md                    # This file";
    "```";
    "";
    "## 🚀 Working Locally";
    "";
    "1. **Edit pages**: Open HTML files in `wiki_content/` with your favorite editor";
    "2. **Preview**: Open HTML files directly in your browser - all links and styles work locally!";
    "3. **Add files**: Place PDFs, images, etc. in `web_resources/`";
    "4. **Create content**: Add quizzes, assignments, and rubrics as JSON files";
    "5. **Organize**: Update `modules.json` to organize all content into modules";
    "";
    "## 📄 Page Metadata";
    "";
    "Each page can have metadata in HTML comments at the top:";
    "";
    "```html";
    "<!-- CANVAS_META";
    "title: My Page Title";
    "home: true";
    "-->";
    "```";
    "";
    "Supported metadata:";
    "- `title`: Page title (defaults to filename)";
    "- `home`: Set to `true` to make this the course home page";
    "";
    "## 🔗 Linking";
    "";
    "### Link to files:";
    "```html";
    "<a href=" ++ Str.dq ++ "../web_resources/syllabus.pdf" ++ Str.dq ++ ">Syllabus</a>";
    "```";
    "";
    "### Link to other pages:";
    "```html";
    "<a href=" ++ Str.dq ++ "lesson-1.html" ++ Str.dq ++ ">Go to Lesson 1</a>";
    "```";
    "";
    "These links work locally for preview. When you export to IMSCC, they're automatically";
    "converted to Canvas format.";
    "";
    "## 📦 Export to IMSCC";
    "";
    "When ready to upload to Canvas:";
    "";
    "```bash";
    "python build_from_template.py " ++ output_dir;
    "```";
    "";
    "This will create an `.imscc` file that you can import into Canvas.";
    "";
    "## 🏷️ Template Files";
    "";
    "All example files are tagged with `_TEMPLATE` in their filenames for easy identification:";
    "";
    "- **Pages:** `welcome_TEMPLATE.html`, `styling-guide-*_TEMPLATE.html`";
    "- **Quizzes:** `*_TEMPLATE.json`";
    "- **Assignments:** `*_TEMPLATE.json` and `*_TEMPLATE.html`";
    "- **Rubrics:** `*_TEMPLATE.json`";
    "";
    "**To remove templates:** Delete all files containing `_TEMPLATE` when you're ready to add your own content.";
    "";
    "## 📚 Next Steps";
    "";
    "1. Open `wiki_content/welcome_TEMPLATE.html` in your browser to see the template";
    "2. Review the styling guide pages to see all available CSS components";
    "3. Customize the welcome page banner with your course colors";
    "4. Replace template content with your own course materials";
    "5. Delete `_TEMPLATE` files when ready";
    "6. Build and import to Canvas";
    "";
    "For complete documentation, see the styling guide pages in `wiki_content/`." ].

Definition readme_content (output_dir : string) : string :=
  Str.join Str.nl (readme_lines output_dir) ++ Str.nl.

Definition rule : string := Str.repeat "=" 70.

(** Lines 60 to 67: the listing of what was copied. *)
Definition list_copied (output_path : Path) : M unit :=
  print (Str.nl ++ "✅ Copied structure:") ;;;
  items <- iterdir output_path ;;
  for_each (P.sorted items) (fun item =>
    d <- is_dir item ;;
    if d then
      found <- rglob_dotted item ;;
      let file_count := List.length found in
      print ("   ✓ " ++ P.name item ++ "/ (" ++ Str.of_nat file_count ++ " files)")
    else
      print ("   ✓ " ++ P.name item)).

(** Lines 69 to 87: the update of course.json.  [course_data['title']] and
    [course_data['course_code']] in the two last messages read back the
    strings just stored. *)
Definition update_course_json (output_dir : string) (output_path : Path) : M unit :=
  let course_json_path := output_path // "course.json" in
  present <- path_exists course_json_path ;;
  if present then
    print (Str.nl ++ "⚙️  Updating course.json...") ;;;
    try_except
      (f <- read_text course_json_path ;;
       course_data <- json_load f ;;
       let title := display_title output_dir in
       let course_code := Str.upper output_dir in
       course_data <- setitem course_data "title" (JString title) ;;
       course_data <- setitem course_data "course_code" (JString course_code) ;;
       write_text course_json_path (Json.dumps 2 course_data) ;;;
       print ("   ✓ Updated title to: " ++ title) ;;;
       print ("   ✓ Updated course code to: " ++ course_code))
      (fun e => print ("   ⚠️  Could not update course.json: " ++ Exn.str e))
  else ret tt.

(** Lines 89 to 212: the README. *)
Definition update_readme (output_dir : string) (output_path : Path) : M unit :=
  print (Str.nl ++ "📖 Updating README...") ;;;
  let readme_path := output_path // "README.md" in
  write_text readme_path (readme_content output_dir) ;;;
  print "   ✓ README.md".

(** Lines 214 to 242: the closing messages. *)
Definition success_message (output_dir : string) (output_path : Path) : M unit :=
  print (Str.nl ++ rule) ;;;
  print "✅ Template Created Successfully!" ;;;
  print rule ;;;
  print (Str.nl ++ "📂 Location: " ++ P.str (absolute_path output_path)) ;;;
  print (Str.nl ++ "✨ What's Included:") ;;;
  print "   • Comprehensive CSS styling system (canvas-course.css)" ;;;
  print "   • Welcome page with customizable banner (home page)" ;;;
  print "   • 3 styling guide pages demonstrating all features" ;;;
  print "   • Example quiz and assignment" ;;;
  print "   • Detailed rubric example" ;;;
  print "   • Configuration files (course.json, modules.json)" ;;;
  print (Str.nl ++ "🎨 CSS Features:") ;;;
  print "   • Info boxes (learning-goals, key-concept, tip, note, summary)" ;;;
  print "   • Task accordions (practice, portfolio, quiz)" ;;;
  print "   • Canvas native tabs with color themes" ;;;
  print "   • Priority badges (MUST/SHOULD/COULD)" ;;;
  print "   • Good/bad example boxes" ;;;
  print "   • Styled tables and accordions" ;;;
  print (Str.nl ++ "🏷️  All template files tagged with '_TEMPLATE' for easy identification") ;;;
  print (Str.nl ++ "🚀 Next Steps:") ;;;
  print ("   1. cd " ++ output_dir) ;;;
  print "   2. Open wiki_content/welcome_TEMPLATE.html in your browser" ;;;
  print "   3. Review the styling guides and examples" ;;;
  print "   4. Customize the welcome page banner and content" ;;;
  print "   5. Delete _TEMPLATE files and add your content" ;;;
  print ("   6. Run: python build_from_template.py " ++ output_dir) ;;;
  print "   7. Import the generated IMSCC file into Canvas" ;;;
  print (Str.nl ++ "💡 Tip: Check the styling guides for complete CSS component reference!" ++ Str.nl).

(** [create_template(output_dir)] *)
Definition create_template (output_dir : string) : M bool :=
  let output_path := P.of_string output_dir in
  target_exists <- path_exists output_path ;;
  if target_exists then
    print ("❌ Error: Directory '" ++ output_dir ++ "' already exists!") ;;;
    print "   Please choose a different name or remove the existing directory." ;;;
    ret false
  else
    let template_source := script_dir // "canvas-course-template" in
    template_exists <- path_exists template_source ;;
    if negb template_exists then
      print ("❌ Error: Template directory not found at " ++ P.str template_source) ;;;
      print "   Please ensure canvas-course-template exists in the imscc-tools directory." ;;;
      ret false
    else
      print (Str.nl ++ rule) ;;;
      print ("Creating Course Template: " ++ output_dir) ;;;
      print rule ;;;
      print (Str.nl ++ "📋 Copying from: " ++ P.str template_source) ;;;
      print (Str.nl ++ "📁 Copying template files...") ;;;
      copied <- try_except
                  (copytree template_source output_path ;;; ret true)
                  (fun e => print ("❌ Error copying template: " ++ Exn.str e) ;;;
                            ret false) ;;
      if negb copied then ret false
      else
        list_copied output_path ;;;
        update_course_json output_dir output_path ;;;
        update_readme output_dir output_path ;;;
        success_message output_dir output_path ;;;
        ret true.

End Process.

(** ** A decoder to run the model

    A decoder for the JSON texts without escapes and without fractions or
    exponents: objects, arrays, plain strings, integers, [true], [false] and
    [null].  On these texts it returns the value [json.loads] returns; a
    repeated key keeps its first place and its last value, as in a [dict].
    On any other text it fails; its messages are cut short (the real decoder
    adds the line, the column and the offset). *)

Module RefJson.

Definition is_ws (c : ascii) : bool :=
  let n := nat_of_ascii c in
  Nat.eqb n 32 || Nat.eqb n 9 || Nat.eqb n 10 || Nat.eqb n 13.

Definition is_digit (c : ascii) : bool :=
  let n := nat_of_ascii c in Nat.leb 48 n && Nat.leb n 57.

Fixpoint skip_ws (s : string) : string :=
  match s with
  | String c s' => if is_ws c then skip_ws s' else s
  | EmptyString => s
  end.

(** The characters up to the closing quote. *)
Fixpoint scan_string (s : string) : option (string * string) :=
  match s with
  | EmptyString => None
  | String c s' =>
      if Ascii.eqb c "034" then Some (EmptyString, s')
      else if Ascii.eqb c "\" || Nat.ltb (nat_of_ascii c) 32 then None
      else
        match scan_string s' with
        | Some (body, rest) => Some (String c body, rest)
        | None => None
        end
  end.

Fixpoint scan_digits (acc : Z) (s : string) : Z * string :=
  match s with
  | String c s' =>
      if is_digit c
      then scan_digits (10 * acc + Z.of_nat (nat_of_ascii c - 48))%Z s'
      else (acc, s)
  | EmptyString => (acc, s)
  end.

Definition starts_fraction (s : string) : bool :=
  match s with
  | String c _ => Ascii.eqb c "." || Ascii.eqb c "e" || Ascii.eqb c "E"
  | EmptyString => false
  end.

(** An optional minus sign and a decimal numeral without leading zeros,
    not followed by a fraction or an exponent. *)
Definition scan_int (s : string) : option (Z * string) :=
  let '(negative, s1) :=
    match s with
    | String "-" s' => (true, s')
    | _ => (false, s)
    end in
  match s1 with
  | String c s2 =>
      if is_digit c then
        let '(z, rest) :=
          if Ascii.eqb c "0" then (0%Z, s2) else scan_digits 0 s1 in
        if starts_fraction rest then None
        else Some (if negative then (- z)%Z else z, rest)
      else None
  | EmptyString => None
  end.

Definition literal (word : string) (v : json) (s : string) : option (json * string) :=
  if String.prefix word s
  then Some (v, String.substring (String.length word)
                  (String.length s - String.length word) s)
  else None.

Fixpoint value (fuel : nat) (s : string) : option (json * string) :=
  match fuel with
  | O => None
  | S fuel' =>
      match skip_ws s with
      | String "{" s1 =>
          match skip_ws s1 with
          | String "}" s2 => Some (JObject [], s2)
          | _ =>
              match members fuel' [] s1 with
              | Some (d, rest) => Some (JObject d, rest)
              | None => None
              end
          end
      | String "[" s1 =>
          match skip_ws s1 with
          | String "]" s2 => Some (JArray [], s2)
          | _ =>
              match items fuel' s1 with
              | Some (l, rest) => Some (JArray l, rest)
              | None => None
              end
          end
      | String "034" s1 =>
          match scan_string s1 with
          | Some (body, rest) => Some (JString body, rest)
          | None => None
          end
      | String "t" _ => literal "true" (JBool true) (skip_ws s)
      | String "f" _ => literal "false" (JBool false) (skip_ws s)
      | String "n" _ => literal "null" JNull (skip_ws s)
      | s0 =>
          match scan_int s0 with
          | Some (z, rest) => Some (JInt z, rest)
          | None => None
          end
      end
  end

with items (fuel : nat) (s : string) : option (list json * string) :=
  match fuel with
  | O => None
  | S fuel' =>
      match value fuel' s with
      | Some (v, rest) =>
          match skip_ws rest with
          | String "," rest' =>
              match items fuel' rest' with
              | Some (l, rest'') => Some (v :: l, rest'')
              | None => None
              end
          | String "]" rest' => Some ([v], rest')
          | _ => None
          end
      | None => None
      end
  end

with members (fuel : nat) (acc : list (string * json)) (s : string)
  : option (list (string * json) * string) :=
  match fuel with
  | O => None
  | S fuel' =>
      match skip_ws s with
      | String "034" s1 =>
          match scan_string s1 with
          | Some (k, s2) =>
              match skip_ws s2 with
              | String ":" s3 =>
                  match value fuel' s3 with
                  | Some (v, rest) =>
                      match skip_ws rest with
                      | String "," rest' => members fuel' (Dict.set k v acc) rest'
                      | String "}" rest' => Some (Dict.set k v acc, rest')
                      | _ => None
                      end
                  | None => None
                  end
              | _ => None
              end
          | None => None
          end
      | _ => None
      end
  end.

Definition loads (s : string) : json + string :=
  match value (S (String.length s)) s with
  | Some (v, rest) =>
      match skip_ws rest with
      | EmptyString => inl v
      | _ => inr "Extra data"
      end
  | None => inr "Expecting value"
  end.

End RefJson.

(** ** What the statements speak of *)

(** A separator of the name becomes a space: what the two [replace] calls
    do to one character. *)
Definition to_space (c : ascii) : ascii :=
  if Ascii.eqb c "-" then " "%char
  else if Ascii.eqb c "_" then " "%char else c.

(** Whether position [i] of [s] comes right after a cased character. *)
Definition follows_cased (s : string) (i : nat) : bool :=
  match i with
  | O => false
  | S j =>
      match String.get j s with
      | Some c => Str.is_cased c
      | None => false
      end
  end.

Section Places.

Variable cwd : location.
Variable script_dir : Path.
Variable json_loads : string -> json + string.

(** The place of the target directory. *)
Definition target (output_dir : string) : location :=
  resolve cwd (P.of_string output_dir).

(** The place of the template. *)
Definition template : location :=
  resolve cwd (script_dir // "canvas-course-template").

(** The members that lines 78 and 79 leave in the object. *)
Definition updated_members (output_dir : string) (d : list (string * json))
  : list (string * json) :=
  Dict.set "course_code" (JString (Str.upper output_dir))
    (Dict.set "title" (JString (display_title output_dir)) d).

(** When the update of course.json goes through: the file can be read and
    written and its text decodes to an object.  The mode of the file and
    the members of the object are returned. *)
Definition rewritable (e : option entry) : option (mode * list (string * json)) :=
  match e with
  | Some (EFile m text) =>
      if readable m && writable m then
        match json_loads text with
        | inl (JObject d) => Some (m, d)
        | _ => None
        end
      else None
  | _ => None
  end.

(** What course.json is after the update, given what it was. *)
Definition course_json_after (output_dir : string) (e : option entry) : option entry :=
  match rewritable e with
  | Some (m, d) =>
      Some (EFile m (Json.dumps 2 (JObject (updated_members output_dir d))))
  | None => e
  end.

(** Whether [write_text] can write a file whose directory exists. *)
Definition can_write (e : option entry) : bool :=
  match e with
  | None => true
  | Some (EFile m _) => writable m
  | Some EDir => false
  end.

(** The exception of [write_text] at a place that cannot be written. *)
Definition write_error (e : option entry) (filename : string) : exn :=
  match e with
  | Some EDir => IsADirectoryError filename
  | _ => PermissionError filename
  end.

(** The mode of a file after [write_text]: the one it had, or the default
    one for a new file. *)
Definition mode_after (e : option entry) : mode :=
  match e with
  | Some (EFile m _) => m
  | _ => default_mode
  end.

(** What is printed before the copy starts. *)
Definition banner (output_dir : string) : list string :=
  [ Str.nl ++ rule;
    "Creating Course Template: " ++ output_dir;
    rule;
    Str.nl ++ "📋 Copying from: " ++ P.str (script_dir // "canvas-course-template");
    Str.nl ++ "📁 Copying template files..." ].

(** A key other than the two that the update sets. *)
Definition other_key (kv : string * json) : bool :=
  negb (String.eqb (fst kv) "title" || String.eqb (fst kv) "course_code").

End Places.

(** A place that [write_text] accepts: a regular file, or nothing yet in a
    directory that exists. *)
Definition file_place (n : node) (p : location) : Prop :=
  (exists m d, FS.lookup n p = Some (File m d))
  \/ (FS.lookup n p = None
      /\ exists es, FS.lookup n (removelast p) = Some (Dir es)).

(** Induction on a tree, with the property known of every entry of a
    directory. *)
Section NodeInduction.

Variable Q : node -> Prop.
Hypothesis on_file : forall m data, Q (File m data).
Hypothesis on_dir : forall es, Forall (fun e => Q (snd e)) es -> Q (Dir es).

Fixpoint node_induction (n : node) : Q n :=
  match n with
  | File m data => on_file m data
  | Dir es =>
      on_dir es
        ((fix each (l : list (string * node)) : Forall (fun e => Q (snd e)) l :=
            match l with
            | [] => Forall_nil _
            | e :: l' => Forall_cons e (node_induction (snd e)) (each l')
            end) es)
  end.

End NodeInduction.

(** A computation that returns, prints at most, and leaves the files. *)
Definition quiet {A : Type} (m : M A) : Prop :=
  forall w, exists a more, m w = (Ok a, World (fs w) (stdout w ++ more)).

(** ** Worlds to run the model on *)

Module Example.

Definition cwd : location := ["home"; "teacher"; "imscc-tools"].

Definition script_dir : Path := MkPath true ["home"; "teacher"; "imscc-tools"].

(** No run below copies into its own source; this stands where the
    run-time system would decide. *)
Definition runaway (root : node) (src dst : Path) : exn * node :=
  (RecursionError "maximum recursion depth exceeded", root).

Definition course_json_text : string :=
  "{" ++ Str.dq ++ "title" ++ Str.dq ++ ": " ++ Str.dq ++ "Template Course" ++ Str.dq
  ++ ", " ++ Str.dq ++ "course_code" ++ Str.dq ++ ": " ++ Str.dq ++ "TEMPLATE" ++ Str.dq
  ++ ", " ++ Str.dq ++ "credits" ++ Str.dq ++ ": 3}".

Definition full_template : node :=
  Dir [ ("course.json", File default_mode course_json_text);
        ("modules.json", File default_mode "[]");
        ("README.md", File default_mode "# Template");
        ("css", Dir [("canvas-course.css", File default_mode "body {}")]) ].

(** A template without README.md and without course.json. *)
Definition bare_template : node :=
  Dir [ ("modules.json", File default_mode "[]") ].

(** A template whose README.md is a directory. *)
Definition readme_dir_template : node :=
  Dir [ ("modules.json", File default_mode "[]");
        ("README.md", Dir []) ].

(** A template whose course.json is not JSON. *)
Definition malformed_template : node :=
  Dir [ ("course.json", File default_mode "not json");
        ("README.md", File default_mode "# Template") ].

(** A template whose course.json is not JSON and whose README.md is a
    directory. *)
Definition malformed_readme_dir_template : node :=
  Dir [ ("course.json", File default_mode "not json");
        ("README.md", Dir []) ].

(** A template with a file that its owner may not read. *)
Definition unreadable_template : node :=
  Dir [ ("a.txt", File default_mode "A");
        ("secret.txt", File (Mode false true) "S");
        ("b.txt", File default_mode "B") ].

Definition world_with (template_tree : node) : world :=
  World
    (Dir [("home",
           Dir [("teacher",
                 Dir [("imscc-tools",
                       Dir [("create_template.py", File default_mode "#!/usr/bin/env python3");
                            ("canvas-course-template", template_tree)])])])])
    [].

Definition run (output_dir : string) (template_tree : node) : result bool * world :=
  create_template cwd runaway script_dir RefJson.loads output_dir (world_with template_tree).

Definition in_target (output_dir : string) (rel : location) : location :=
  (target cwd output_dir ++ rel)%list.

Definition in_template (rel : location) : location :=
  (template cwd script_dir ++ rel)%list.

Definition good : world := world_with full_template.

Definition tpl : Path := script_dir // "canvas-course-template".

(** The members of the object in course.json of [full_template]. *)
Definition full_members : list (string * json) :=
  [ ("title", JString "Template Course");
    ("course_code", JString "TEMPLATE");
    ("credits", JInt 3) ].

(** The exception of a result that raised. *)
Definition raised {A : Type} (r : result A) : exn :=
  match r with
  | Raise e => e
  | Ok _ => TypeError ""
  end.

End Example.

(** ** The script: [main] *)

(** How [parser.parse_args()] ends: with the namespace that holds the
    directory, or with the exit that argparse asks for (after the help, or
    after a usage error). *)
Inductive parse_result : Type :=
| Namespace (directory : string)
| SystemExit (code : nat).

(** How the script ends: [main] returns, the interpreter is asked to exit,
    or an exception goes uncaught. *)
Inductive ending : Type :=
| Returns
| Exits (code : nat)
| Raises (e : exn).

Section Script.

Variable cwd : location.
Variable runaway : node -> Path -> Path -> exn * node.
Variable script_dir : Path.
Variable json_loads : string -> json + string.

(** [parser.parse_args()] on the command line: the lines it prints on the
    standard output, and how it ends. *)
Variable parse_args : list string -> list string * parse_result.

(** [main()]: the value of [create_template] is dropped. *)
Definition main (argv : list string) : world -> ending * world :=
  fun w =>
    let '(printed, args) := parse_args argv in
    let w1 := World (fs w) (stdout w ++ printed) in
    match args with
    | SystemExit code => (Exits code, w1)
    | Namespace directory =>
        match create_template cwd runaway script_dir json_loads directory w1 with
        | (Ok _, w2) => (Returns, w2)
        | (Raise e, w2) => (Raises e, w2)
        end
    end.

(** The line that the listing of lines 62 to 67 prints for one entry. *)
Definition listing_line (root : node) (item : Path) : string :=
  match FS.lookup root (resolve cwd item) with
  | Some (Dir es) =>
      "   ✓ " ++ P.name item ++ "/ ("
      ++ Str.of_nat (List.length (FS.dotted (Dir es))) ++ " files)"
  | _ => "   ✓ " ++ P.name item
  end.

End Script.

(** ** Trees as a file system has them *)

(** [a <= b] on paths, as [sorted] compares them. *)
Definition path_leb (a b : Path) : Prop := P.parts_leb (parts a) (parts b) = true.

Module Tree.

(** Whether every regular file of the tree can be read. *)
Fixpoint all_readable (n : node) : bool :=
  match n with
  | File m _ => readable m
  | Dir es =>
      (fix each (l : list (string * node)) : bool :=
         match l with
         | [] => true
         | (_, c) :: l' => all_readable c && each l'
         end) es
  end.

Fixpoint distinct (l : list string) : bool :=
  match l with
  | [] => true
  | x :: l' => negb (List.existsb (String.eqb x) l') && distinct l'
  end.

(** Whether no directory of the tree has two entries of one name. *)
Fixpoint well_formed (n : node) : bool :=
  match n with
  | File _ _ => true
  | Dir es =>
      distinct (List.map fst es)
      && (fix each (l : list (string * node)) : bool :=
            match l with
            | [] => true
            | (_, c) :: l' => well_formed c && each l'
            end) es
  end.

(** What a copy shows of a place of its source: a file that cannot be
    read is not there. *)
Definition visible (e : option entry) : option entry :=
  match e with
  | Some (EFile m _) => if readable m then e else None
  | _ => e
  end.

(** Whether [p] is a start of [q] that ends before [q] does. *)
Definition proper_prefix (p q : location) : Prop :=
  exists rest, rest <> [] /\ q = (p ++ rest)%list.

(** Whether no part of [p] is the name [..]: the places where going down
    the tree name by name is what the operating system does. *)
Definition no_parent_parts (p : location) : bool :=
  negb (List.existsb (String.eqb "..") p).

End Tree.

(** Induction on a value, with the property known of every item of an
    array and of every member of an object. *)
Section JsonInduction.

Variable Q : json -> Prop.
Hypothesis on_null : Q JNull.
Hypothesis on_bool : forall b, Q (JBool b).
Hypothesis on_int : forall z, Q (JInt z).
Hypothesis on_float : forall repr, Q (JFloat repr).
Hypothesis on_string : forall s, Q (JString s).
Hypothesis on_array : forall items, Forall Q items -> Q (JArray items).
Hypothesis on_object :
  forall members, Forall (fun kv => Q (snd kv)) members -> Q (JObject members).

Fixpoint json_induction (v : json) : Q v :=
  match v with
  | JNull => on_null
  | JBool b => on_bool b
  | JInt z => on_int z
  | JFloat repr => on_float repr
  | JString s => on_string s
  | JArray items =>
      on_array items
        ((fix each (l : list json) : Forall Q l :=
            match l with
            | [] => Forall_nil _
            | x :: l' => Forall_cons x (json_induction x) (each l')
            end) items)
  | JObject members =>
      on_object members
        ((fix each (l : list (string * json)) : Forall (fun kv => Q (snd kv)) l :=
            match l with
            | [] => Forall_nil _
            | kv :: l' => Forall_cons kv (json_induction (snd kv)) (each l')
            end) members)
  end.

End JsonInduction.

(** A string of characters below 128. *)
Fixpoint is_ascii (s : string) : bool :=
  match s with
  | EmptyString => true
  | String c s' => N.ltb (N_of_ascii c) 128 && is_ascii s'
  end.

(** Whether every float of a value is carried by an ASCII text. *)
Fixpoint floats_ascii (v : json) : bool :=
  match v with
  | JFloat repr => is_ascii repr
  | JArray items =>
      (fix each (l : list json) : bool :=
         match l with
         | [] => true
         | x :: l' => floats_ascii x && each l'
         end) items
  | JObject members =>
      (fix each (l : list (string * json)) : bool :=
         match l with
         | [] => true
         | (_, x) :: l' => floats_ascii x && each l'
         end) members
  | _ => true
  end.

(** ** More examples *)

Module Cases.

(** The members of a course.json that already carries the title and the
    course code of a course called my-course. *)
Definition settled_members : list (string * json) :=
  [ ("title", JString "My Course");
    ("course_code", JString "MY-COURSE");
    ("credits", JInt 3) ].

(** A template whose course.json is the dump of [settled_members]. *)
Definition settled_template : node :=
  Dir [ ("course.json", File default_mode (Json.dumps 2 (JObject settled_members)));
        ("README.md", File default_mode "# Template") ].

(** A template with directories, given out of the order of the names. *)
Definition listed_template : node :=
  Dir [ ("wiki_content",
         Dir [("welcome_TEMPLATE.html", File default_mode "<h1>Welcome</h1>");
              ("drafts", Dir [("notes", File default_mode "to do")])]);
        ("course.json", File default_mode "{}");
        ("css", Dir [("canvas-course.css", File default_mode "body {}")]);
        ("README.md", File default_mode "# Template") ].

(** A template whose course.json can be read and not written. *)
Definition read_only_template : node :=
  Dir [ ("course.json", File (Mode true false) Example.course_json_text) ].

(** A course.json with a field whose text is not in ASCII. *)
Definition accented_course_json_text : string :=
  "{" ++ Str.dq ++ "title" ++ Str.dq ++ ": " ++ Str.dq ++ "Template Course" ++ Str.dq
  ++ ", " ++ Str.dq ++ "teacher" ++ Str.dq ++ ": " ++ Str.dq ++ "Zoë" ++ Str.dq ++ "}".

Definition accented_members : list (string * json) :=
  [ ("title", JString "Template Course");
    ("teacher", JString "Zoë") ].

(** The text of the field teacher in [accented_course_json_text]. *)
Definition teacher_text : string :=
  Str.dq ++ "teacher" ++ Str.dq ++ ": " ++ Str.dq ++ "Zoë" ++ Str.dq.

(** The text of the field teacher in the dump. *)
Definition teacher_text_dumped : string :=
  Str.dq ++ "teacher" ++ Str.dq ++ ": " ++ Str.dq ++ "Zo\u00eb" ++ Str.dq.

Definition accented_template : node :=
  Dir [ ("course.json", File default_mode accented_course_json_text) ].

(** Whether [sub] occurs in [s]. *)
Fixpoint occurs (sub s : string) : bool :=
  String.prefix sub s
  || match s with
     | EmptyString => false
     | String _ s' => occurs sub s'
     end.

(** The text of a regular file. *)
Definition text_of (e : option entry) : string :=
  match e with
  | Some (EFile _ data) => data
  | _ => ""
  end.

(** The entries of a directory. *)
Definition entries_of (n : node) : list (string * node) :=
  match n with
  | Dir es => es
  | File _ _ => []
  end.

(** A stand-in for argparse with its one positional argument: the program
    name and one word that does not start with a hyphen give the
    namespace, anything else ends the program with status 2. *)
Definition parse_args (argv : list string) : list string * parse_result :=
  match argv with
  | [_; String c rest] =>
      if Ascii.eqb c "-" then ([], SystemExit 2)
      else ([], Namespace (String c rest))
  | _ => ([], SystemExit 2)
  end.

End Cases.

(** ** Lemmas on dictionaries and on the tree *)

Lemma dict_get_set_same {V : Type} (k : string) (v : V) d :
  Dict.get k (Dict.set k v d) = Some v.
Proof.
  induction d as [|[k' v'] d IH]; simpl.
  - now rewrite String.eqb_refl.
  - destruct (String.eqb k' k) eqn:E; simpl; rewrite E; auto.
Qed.

Lemma dict_get_set_other {V : Type} (k k0 : string) (v : V) d :
  k0 <> k -> Dict.get k0 (Dict.set k v d) = Dict.get k0 d.
Proof.
  intros Hne. induction d as [|[k' v'] d IH]; simpl.
  - destruct (String.eqb k k0) eqn:E; auto.
    apply String.eqb_eq in E. congruence.
  - destruct (String.eqb k' k) eqn:E; simpl.
    + apply String.eqb_eq in E. subst k'.
      destruct (String.eqb k k0) eqn:E0; auto.
      apply String.eqb_eq in E0. congruence.
    + now rewrite IH.
Qed.

Lemma dict_set_filter {V : Type} (keep : string * V -> bool) (k : string) (v : V) d :
  (forall x, keep (k, x) = false) ->
  List.filter keep (Dict.set k v d) = List.filter keep d.
Proof.
  intros Hk. induction d as [|[k' v'] d IH]; simpl.
  - now rewrite Hk.
  - destruct (String.eqb k' k) eqn:E; simpl.
    + apply String.eqb_eq in E. subst k'. now rewrite !Hk.
    + now rewrite IH.
Qed.

Lemma dict_set_keys {V : Type} (k : string) (v : V) d :
  Dict.keys (Dict.set k v d) =
  match Dict.get k d with
  | Some _ => Dict.keys d
  | None => (Dict.keys d ++ [k])%list
  end.
Proof.
  unfold Dict.keys. induction d as [|[k' v'] d IH]; simpl; auto.
  destruct (String.eqb k' k) eqn:E; simpl; auto.
  rewrite IH. now destruct (Dict.get k d).
Qed.

Lemma lookup_app n p q :
  FS.lookup n (p ++ q) =
  match FS.lookup n p with
  | Some k => FS.lookup k q
  | None => None
  end.
Proof.
  revert n. induction p as [|x p IH]; intros n; simpl; auto.
  destruct n as [m d|es]; auto.
  destruct (Dict.get x es); auto.
Qed.

Lemma lookup_below_file m d q :
  q <> [] -> FS.lookup (File m d) q = None.
Proof. destruct q; simpl; congruence. Qed.

Lemma lookup_graft n p new n' q :
  FS.graft n p new = Some n' ->
  FS.lookup n' (p ++ q) = FS.lookup new q.
Proof.
  revert n n'. induction p as [|x p IH]; intros n n' H; simpl in *.
  - now inversion H.
  - destruct n as [m d|es]; [discriminate|].
    destruct (FS.graft _ p new) as [c'|] eqn:G; [|discriminate].
    inversion H; subst n'; clear H.
    rewrite dict_get_set_same. eauto.
Qed.

Lemma file_place_child es x p c :
  file_place (Dir es) (x :: p) -> Dict.get x es = Some c -> file_place c p.
Proof.
  unfold file_place. simpl. intros Hp Ec. rewrite Ec in Hp.
  destruct Hp as [Hp|[Hn (es0 & Hd)]]; [now left|right].
  split; [exact Hn|].
  destruct p as [|z p]; [discriminate|].
  simpl in Hd. rewrite Ec in Hd. eauto.
Qed.

Lemma file_place_fresh es x p :
  file_place (Dir es) (x :: p) -> Dict.get x es = None -> p = [].
Proof.
  unfold file_place. simpl. intros Hp Ec. rewrite Ec in Hp.
  destruct Hp as [(m & d & Hp)|[_ (es0 & Hd)]]; [discriminate|].
  destruct p as [|z p]; [reflexivity|].
  simpl in Hd. rewrite Ec in Hd. discriminate.
Qed.

Lemma file_place_not_file m d x p : ~ file_place (File m d) (x :: p).
Proof.
  unfold file_place. simpl.
  intros [(m1 & d1 & Hp)|[_ (es0 & Hd)]]; [discriminate|].
  destruct p; simpl in Hd; discriminate.
Qed.

Lemma stat_graft_file n p m data n' q :
  file_place n p ->
  FS.graft n p (File m data) = Some n' ->
  q <> p ->
  FS.stat n' q = FS.stat n q.
Proof.
  unfold FS.stat.
  revert n n' q. induction p as [|x p IH]; intros n n' q Hp G Hq.
  - simpl in G. inversion G; subst n'; clear G.
    destruct Hp as [(m0 & d0 & E)|[E _]]; simpl in E; [|discriminate].
    inversion E; subst n.
    now rewrite !lookup_below_file.
  - destruct n as [m0 d0|es]; [discriminate|]. simpl in G.
    destruct (FS.graft _ p _) as [c'|] eqn:G'; [|discriminate].
    inversion G; subst n'; clear G.
    destruct q as [|y q]; [reflexivity|]. simpl.
    destruct (String.eqb x y) eqn:Exy.
    + apply String.eqb_eq in Exy. subst y.
      rewrite dict_get_set_same.
      assert (Hq' : q <> p) by congruence.
      destruct (Dict.get x es) as [c|] eqn:Ec.
      * apply (IH c c' q); auto.
        eapply file_place_child; eauto.
      * pose proof (file_place_fresh _ _ _ Hp Ec) as ->.
        simpl in G'. inversion G'; subst c'.
        now rewrite lookup_below_file.
    + rewrite dict_get_set_other; auto.
      intros ->. now rewrite String.eqb_refl in Exy.
Qed.

Lemma graft_file_place n p new :
  file_place n p -> exists n', FS.graft n p new = Some n'.
Proof.
  revert n. induction p as [|x p IH]; intros n Hp; simpl.
  - eauto.
  - destruct n as [m0 d0|es].
    + now apply file_place_not_file in Hp.
    + destruct (Dict.get x es) as [c|] eqn:Ec.
      * destruct (IH c) as [c' Hc']; [eapply file_place_child; eauto|].
        rewrite Hc'. eauto.
      * pose proof (file_place_fresh _ _ _ Hp Ec) as ->. simpl. eauto.
Qed.

Lemma copy_node_none src dst n errors :
  copy_node src dst n = (None, errors) -> errors <> [].
Proof.
  destruct n as [m data|es]; simpl.
  - destruct (readable m); intros H; inversion H; discriminate.
  - match goal with |- context [let '(_, _) := ?e in _] => destruct e end.
    discriminate.
Qed.

Lemma copy_node_exact n :
  forall src dst copy, copy_node src dst n = (Some copy, []) -> copy = n.
Proof.
  induction n as [m data|es IH] using node_induction; intros src dst copy; simpl.
  - destruct (readable m); intros H; inversion H; reflexivity.
  - match goal with
    | |- context [let '(_, _) := ?e in _] => destruct e as [es' errors] eqn:E
    end.
    intros H; inversion H; subst; clear H. f_equal.
    revert es' E. induction IH as [|[x c] l Hc Hl IHl]; intros es' E.
    + now inversion E.
    + simpl in Hc.
      destruct (copy_node (src // x) (dst // x) c) as [c' e1] eqn:Ec.
      match type of E with
      | context [let '(_, _) := ?e in _] => destruct e as [l'' e2] eqn:El
      end.
      inversion E as [[E1 E2]]; clear E.
      apply app_eq_nil in E2. destruct E2; subst e1 e2.
      destruct c' as [k|].
      * apply Hc in Ec. subst k. f_equal. now apply IHl.
      * now apply copy_node_none in Ec.
Qed.

Lemma stat_file n p m data :
  FS.stat n p = Some (EFile m data) <-> FS.lookup n p = Some (File m data).
Proof.
  unfold FS.stat. destruct (FS.lookup n p) as [[m0 d0|es]|]; simpl; split;
    intros H; inversion H; reflexivity.
Qed.

Lemma stat_dir n p :
  FS.stat n p = Some EDir <-> exists es, FS.lookup n p = Some (Dir es).
Proof.
  unfold FS.stat. destruct (FS.lookup n p) as [[m0 d0|es]|]; simpl; split;
    intros H; try discriminate; try (destruct H; discriminate); eauto.
Qed.

Lemma stat_none n p : FS.stat n p = None <-> FS.lookup n p = None.
Proof.
  unfold FS.stat. destruct (FS.lookup n p); simpl; split; congruence.
Qed.

Lemma exists_stat n p : FS.exists_ n p = false <-> FS.stat n p = None.
Proof.
  unfold FS.exists_, FS.stat. destruct (FS.lookup n p); simpl; split; congruence.
Qed.

Lemma removelast_snoc {A : Type} (l : list A) (x : A) :
  removelast (l ++ [x]) = l.
Proof. rewrite removelast_app by discriminate. simpl. apply app_nil_r. Qed.

(** ** Lemmas on strings *)

Lemma str_append_assoc (a b c : string) : (a ++ b) ++ c = a ++ (b ++ c).
Proof. induction a as [|x a IH]; simpl; congruence. Qed.

Lemma str_append_nil_r (a : string) : a ++ "" = a.
Proof. induction a as [|x a IH]; simpl; congruence. Qed.

Lemma substring_refl (s : string) : Str.Substring s s.
Proof. exists "", "". simpl. now rewrite str_append_nil_r. Qed.

Lemma substring_trans (a b c : string) :
  Str.Substring a b -> Str.Substring b c -> Str.Substring a c.
Proof.
  intros (p & q & ->) (p' & q' & ->).
  exists (p' ++ p), (q ++ q'). now rewrite !str_append_assoc.
Qed.

Lemma substring_left (a b c : string) :
  Str.Substring a b -> Str.Substring a (b ++ c).
Proof.
  intros H. apply (substring_trans a b); auto.
  exists "", c. reflexivity.
Qed.

Lemma substring_right (a b c : string) :
  Str.Substring a c -> Str.Substring a (b ++ c).
Proof.
  intros H. apply (substring_trans a c); auto.
  exists b, "". now rewrite str_append_nil_r.
Qed.

Lemma substring_join (sep l : string) (ls : list string) :
  In l ls -> Str.Substring l (Str.join sep ls).
Proof.
  unfold Str.join. induction ls as [|x ls IH]; intros H; [destruct H|].
  destruct H as [->|H].
  - destruct ls; simpl; [apply substring_refl|].
    apply substring_left, substring_refl.
  - destruct ls as [|y ls]; [destruct H|].
    change (String.concat sep (x :: y :: ls))
      with (x ++ sep ++ String.concat sep (y :: ls)).
    apply substring_right, substring_right. auto.
Qed.

Lemma str_map_length f s : String.length (Str.map f s) = String.length s.
Proof. induction s as [|c s IH]; simpl; congruence. Qed.

Lemma str_map_get f s i :
  String.get i (Str.map f s) = option_map f (String.get i s).
Proof.
  revert i. induction s as [|c s IH]; intros i; simpl; [reflexivity|].
  destruct i; simpl; auto.
Qed.

Lemma str_map_app f a b : Str.map f (a ++ b) = Str.map f a ++ Str.map f b.
Proof. induction a as [|c a IH]; simpl; congruence. Qed.

Lemma str_map_map f g s : Str.map f (Str.map g s) = Str.map (fun c => f (g c)) s.
Proof. induction s as [|c s IH]; simpl; congruence. Qed.

Lemma replace_separators s :
  Str.replace "_" " " (Str.replace "-" " " s) = Str.map to_space s.
Proof.
  unfold Str.replace. rewrite str_map_map.
  induction s as [|c s IH]; simpl; [reflexivity|]. rewrite IH. f_equal.
  unfold to_space. destruct (Ascii.eqb c "-"); reflexivity.
Qed.

Lemma to_space_cased c : Str.is_cased (to_space c) = Str.is_cased c.
Proof.
  unfold to_space.
  destruct (Ascii.eqb c "-") eqn:E1.
  - apply Ascii.eqb_eq in E1. now subst c.
  - destruct (Ascii.eqb c "_") eqn:E2; [|reflexivity].
    apply Ascii.eqb_eq in E2. now subst c.
Qed.

Lemma title_from_length b s :
  String.length (Str.title_from b s) = String.length s.
Proof. revert b. induction s as [|c s IH]; intros b; simpl; congruence. Qed.

Lemma title_from_get b s i :
  String.get i (Str.title_from b s) =
  option_map
    (fun c =>
       if match i with
          | O => b
          | S j => match String.get j s with
                   | Some p => Str.is_cased p
                   | None => false
                   end
          end
       then Str.to_lower c else Str.to_upper c)
    (String.get i s).
Proof.
  revert b i. induction s as [|c s IH]; intros b i; simpl; [reflexivity|].
  destruct i as [|i]; simpl; [reflexivity|].
  rewrite IH. destruct i; reflexivity.
Qed.

(** The text of an object with members: one member a line, each behind
    the indent of its depth. *)
Lemma encode_object indent level m ms :
  Json.encode indent level (JObject (m :: ms))
  = "{" ++ (Str.nl ++ Str.repeat indent (S level))
    ++ Str.join ("," ++ Str.nl ++ Str.repeat indent (S level))
         (List.map (Json.member_text indent level) (m :: ms))
    ++ Str.nl ++ Str.repeat indent level ++ "}".
Proof.
  assert (E : forall l,
             (fix each (l : list (string * json)) : list string :=
                match l with
                | [] => []
                | (k, x) :: l' =>
                    (Json.encode_string k ++ ": " ++ Json.encode indent (S level) x)
                    :: each l'
                end) l
             = List.map (Json.member_text indent level) l).
  { induction l as [|[k x] l IH]; [reflexivity|].
    rewrite IH. reflexivity. }
  change (Json.encode indent level (JObject (m :: ms)))
    with ("{" ++ (Str.nl ++ Str.repeat indent (S level))
          ++ Str.join ("," ++ Str.nl ++ Str.repeat indent (S level))
               ((fix each (l : list (string * json)) : list string :=
                   match l with
                   | [] => []
                   | (k, x) :: l' =>
                       (Json.encode_string k ++ ": "
                        ++ Json.encode indent (S level) x)
                       :: each l'
                   end) (m :: ms))
          ++ Str.nl ++ Str.repeat indent level ++ "}").
  now rewrite E.
Qed.

(** ** Lemmas on the library calls and on the steps *)

Ltac run :=
  unfold bind, ret, raise, print, get_fs, put_fs, try_except in *; simpl in *.

Arguments copy_node : simpl never.
Arguments readme_content : simpl never.
Arguments rule : simpl never.
Arguments Json.dumps : simpl never.
Arguments display_title : simpl never.
Arguments Str.upper : simpl never.
Arguments Exn.str : simpl never.
Arguments P.str : simpl never.
Arguments String.append : simpl never.
Arguments resolve : simpl never.

Section Steps.

Variable cwd : location.
Variable runaway : node -> Path -> Path -> exn * node.
Variable script_dir : Path.
Variable json_loads : string -> json + string.

Lemma resolve_div p x : resolve cwd (p // x) = (resolve cwd p ++ [x])%list.
Proof.
  unfold resolve, P.div. simpl. destruct (absolute p); auto.
  now rewrite app_assoc.
Qed.

(** [copytree] does not look at what was printed and prints nothing. *)
Lemma copytree_stdout src dst root :
  exists r root', forall out,
    copytree cwd runaway src dst (World root out) = (r, World root' out).
Proof.
  unfold copytree. run.
  destruct (FS.lookup root (resolve cwd src)) as [[m d|es]|]; eauto.
  destruct (FS.exists_ root (resolve cwd dst)); eauto.
  destruct (FS.into_itself es (resolve cwd src) (resolve cwd dst)).
  { destruct (runaway root src dst) as [e root']. eauto. }
  destruct (copy_node src dst (Dir es)) as [[copy|] errors]; eauto.
  destruct (FS.graft root (resolve cwd dst) copy); eauto.
  destruct errors; eauto.
Qed.

Lemma copytree_ok src dst w w' :
  copytree cwd runaway src dst w = (Ok tt, w') ->
  FS.exists_ (fs w) (resolve cwd dst) = false
  /\ stdout w' = stdout w
  /\ exists es, FS.lookup (fs w) (resolve cwd src) = Some (Dir es)
                /\ FS.graft (fs w) (resolve cwd dst) (Dir es) = Some (fs w').
Proof.
  unfold copytree. run.
  destruct (FS.lookup (fs w) (resolve cwd src)) as [[m d|es]|]; try discriminate.
  destruct (FS.exists_ (fs w) (resolve cwd dst)); try discriminate.
  destruct (FS.into_itself es (resolve cwd src) (resolve cwd dst)).
  { destruct (runaway (fs w) src dst) as [e root']. discriminate. }
  destruct (copy_node src dst (Dir es)) as [[copy|] errors] eqn:C; try discriminate.
  destruct (FS.graft (fs w) (resolve cwd dst) copy) eqn:G; try discriminate.
  destruct errors; try discriminate.
  intros H; inversion H; subst; clear H. simpl.
  apply copy_node_exact in C. subst copy. eauto.
Qed.

Lemma quiet_ret {A : Type} (a : A) : quiet (ret a).
Proof. intros [root out]. exists a, []. simpl. now rewrite app_nil_r. Qed.

Lemma quiet_print s : quiet (print s).
Proof. intros w. unfold print. eauto. Qed.

Lemma quiet_bind {A B : Type} (m : M A) (k : A -> M B) :
  quiet m -> (forall a, quiet (k a)) -> quiet (bind m k).
Proof.
  intros Hm Hk w. unfold bind.
  destruct (Hm w) as (a & more & ->).
  destruct (Hk a (World (fs w) (stdout w ++ more))) as (b & more' & ->).
  simpl. exists b, (more ++ more')%list. now rewrite app_assoc.
Qed.

Lemma quiet_for_each {A : Type} (l : list A) (body : A -> M unit) :
  (forall x, quiet (body x)) -> quiet (for_each l body).
Proof.
  intros Hb. induction l as [|x l IH]; simpl.
  - apply quiet_ret.
  - apply quiet_bind; auto.
Qed.

Lemma quiet_is_dir p : quiet (is_dir cwd p).
Proof.
  intros [root out]. unfold is_dir. run. eexists. exists [].
  now rewrite app_nil_r.
Qed.

Lemma quiet_rglob_dotted p : quiet (rglob_dotted cwd p).
Proof.
  intros [root out]. unfold rglob_dotted. run.
  destruct (FS.lookup root (resolve cwd p)); eexists; exists [];
    now rewrite app_nil_r.
Qed.

Lemma list_copied_quiet p w :
  FS.stat (fs w) (resolve cwd p) = Some EDir ->
  exists more, list_copied cwd p w = (Ok tt, World (fs w) (stdout w ++ more)).
Proof.
  intros H. apply stat_dir in H. destruct H as [es H].
  unfold list_copied.
  set (body := fun item : Path => _).
  assert (Hb : forall x, quiet (body x)).
  { intros x. unfold body. apply quiet_bind; [apply quiet_is_dir|].
    intros [|]; [|apply quiet_print].
    apply quiet_bind; [apply quiet_rglob_dotted|]. intros; apply quiet_print. }
  unfold bind at 1. unfold print at 1. simpl.
  unfold bind at 1. unfold iterdir. unfold bind at 1. unfold get_fs at 1. simpl.
  rewrite H. unfold ret at 1.
  match goal with
  | |- exists more, for_each ?l body ?w0 = _ =>
      destruct (quiet_for_each l body Hb w0) as ([] & more & E)
  end.
  rewrite E. simpl. rewrite <- app_assoc. eauto.
Qed.

Lemma success_message_quiet output_dir p : quiet (success_message cwd output_dir p).
Proof.
  unfold success_message.
  repeat (apply quiet_bind; [apply quiet_print|intros _]).
  apply quiet_print.
Qed.

Lemma write_text_ok p data w :
  can_write (FS.stat (fs w) (resolve cwd p)) = true ->
  (FS.stat (fs w) (resolve cwd p) = None ->
   FS.stat (fs w) (removelast (resolve cwd p)) = Some EDir) ->
  exists root',
    write_text cwd p data w = (Ok tt, World root' (stdout w))
    /\ FS.stat root' (resolve cwd p)
       = Some (EFile (mode_after (FS.stat (fs w) (resolve cwd p))) data)
    /\ forall q, q <> resolve cwd p -> FS.stat root' q = FS.stat (fs w) q.
Proof.
  intros Hc Hparent. unfold write_text. run.
  destruct (FS.lookup (fs w) (resolve cwd p)) as [[m d|es]|] eqn:L.
  - assert (S : FS.stat (fs w) (resolve cwd p) = Some (EFile m d))
      by now apply stat_file.
    rewrite S in *. simpl in Hc. rewrite Hc.
    assert (Hp : file_place (fs w) (resolve cwd p)) by (left; eauto).
    destruct (graft_file_place _ _ (File m data) Hp) as [root' G].
    rewrite G. exists root'. repeat split.
    + apply stat_file. rewrite <- (app_nil_r (resolve cwd p)).
      now rewrite (lookup_graft _ _ _ _ [] G).
    + intros q Hq. eapply stat_graft_file; eauto.
  - assert (S : FS.stat (fs w) (resolve cwd p) = Some EDir)
      by (apply stat_dir; eauto).
    rewrite S in Hc. discriminate.
  - assert (S : FS.stat (fs w) (resolve cwd p) = None) by now apply stat_none.
    rewrite S in *. specialize (Hparent eq_refl).
    apply stat_dir in Hparent. destruct Hparent as [es Hes]. rewrite Hes.
    assert (Hp : file_place (fs w) (resolve cwd p)) by (right; eauto).
    destruct (graft_file_place _ _ (File default_mode data) Hp) as [root' G].
    rewrite G. exists root'. repeat split.
    + apply stat_file. rewrite <- (app_nil_r (resolve cwd p)).
      now rewrite (lookup_graft _ _ _ _ [] G).
    + intros q Hq. eapply stat_graft_file; eauto.
Qed.

Lemma write_text_fail p data w :
  can_write (FS.stat (fs w) (resolve cwd p)) = false ->
  write_text cwd p data w
  = (Raise (write_error (FS.stat (fs w) (resolve cwd p)) (P.str p)), w).
Proof.
  intros Hc. unfold write_text. run. unfold FS.stat in *.
  destruct (FS.lookup (fs w) (resolve cwd p)) as [[m d|es]|]; simpl in *.
  - now rewrite Hc.
  - reflexivity.
  - discriminate.
Qed.

Lemma bind_ok {A B : Type} (m : M A) (k : A -> M B) w a w' :
  m w = (Ok a, w') -> bind m k w = k a w'.
Proof. intros H. unfold bind. now rewrite H. Qed.

Lemma bind_raise {A B : Type} (m : M A) (k : A -> M B) w e w' :
  m w = (Raise e, w') -> bind m k w = (Raise e, w').
Proof. intros H. unfold bind. now rewrite H. Qed.

Lemma try_ok {A : Type} (m : M A) handler w a w' :
  m w = (Ok a, w') -> try_except m handler w = (Ok a, w').
Proof. intros H. unfold try_except. now rewrite H. Qed.

Lemma try_raise {A : Type} (m : M A) handler w e w' :
  m w = (Raise e, w') -> try_except m handler w = handler e w'.
Proof. intros H. unfold try_except. now rewrite H. Qed.

Lemma path_exists_eq p w :
  path_exists cwd p w = (Ok (FS.exists_ (fs w) (resolve cwd p)), w).
Proof. reflexivity. Qed.

Lemma print_eq s w : print s w = (Ok tt, World (fs w) (stdout w ++ [s])).
Proof. reflexivity. Qed.

Lemma read_text_file p w m data :
  FS.stat (fs w) (resolve cwd p) = Some (EFile m data) ->
  readable m = true ->
  read_text cwd p w = (Ok data, w).
Proof.
  intros S R. apply stat_file in S. unfold read_text. run. now rewrite S, R.
Qed.

(** The exception that opening a place for reading raises, if any. *)
Lemma read_text_fail p w :
  FS.stat (fs w) (resolve cwd p) = Some EDir
  \/ (exists m data, FS.stat (fs w) (resolve cwd p) = Some (EFile m data)
                     /\ readable m = false) ->
  exists e, read_text cwd p w = (Raise e, w).
Proof.
  unfold read_text. run.
  intros [S|(m & data & S & R)].
  - apply stat_dir in S. destruct S as [es S]. rewrite S. eauto.
  - apply stat_file in S. rewrite S, R. eauto.
Qed.

Ltac step_with lem := erewrite bind_ok by (apply lem).
Ltac step_print := erewrite bind_ok by (apply print_eq).

Lemma update_course_json_absent output_dir p w :
  FS.stat (fs w) (resolve cwd p ++ ["course.json"]) = None ->
  update_course_json cwd json_loads output_dir p w = (Ok tt, w).
Proof.
  intros H. apply exists_stat in H.
  unfold update_course_json.
  step_with path_exists_eq. now rewrite resolve_div, H.
Qed.

Lemma exists_true n p e : FS.stat n p = Some e -> FS.exists_ n p = true.
Proof.
  unfold FS.stat, FS.exists_. destruct (FS.lookup n p); simpl; congruence.
Qed.

Lemma update_course_json_rewrites output_dir p w m d :
  rewritable json_loads (FS.stat (fs w) (resolve cwd p ++ ["course.json"]))
    = Some (m, d) ->
  exists root',
    update_course_json cwd json_loads output_dir p w
    = (Ok tt,
       World root'
         (stdout w
          ++ [Str.nl ++ "⚙️  Updating course.json...";
              "   ✓ Updated title to: " ++ display_title output_dir;
              "   ✓ Updated course code to: " ++ Str.upper output_dir]))
    /\ FS.stat root' (resolve cwd p ++ ["course.json"])
       = Some (EFile m (Json.dumps 2 (JObject (updated_members output_dir d))))
    /\ forall q, q <> (resolve cwd p ++ ["course.json"])%list ->
                 FS.stat root' q = FS.stat (fs w) q.
Proof.
  unfold rewritable. intros H.
  destruct (FS.stat _ _) as [[m0 text|]|] eqn:S; try discriminate.
  destruct (readable m0) eqn:R; try discriminate.
  destruct (writable m0) eqn:W; try discriminate. simpl in H.
  destruct (json_loads text) as [[| | | | | |d0]|] eqn:J; try discriminate.
  inversion H; subst m0 d0; clear H.
  pose (w1 := World (fs w) (stdout w ++ [Str.nl ++ "⚙️  Updating course.json..."])).
  destruct (write_text_ok (p // "course.json")
              (Json.dumps 2 (JObject (updated_members output_dir d))) w1)
    as (root' & Hw & Hs & Hf).
  { simpl. rewrite resolve_div, S. exact W. }
  { simpl. rewrite resolve_div, S. discriminate. }
  simpl in Hw, Hs, Hf. rewrite resolve_div in Hs, Hf. rewrite S in Hs.
  exists root'. split; [|split; assumption].
  unfold update_course_json.
  step_with path_exists_eq.
  rewrite resolve_div, (exists_true _ _ _ S).
  step_print.
  erewrite try_ok; [reflexivity|].
  erewrite bind_ok
    by (apply (read_text_file _ _ m text); [now rewrite resolve_div|exact R]).
  unfold json_load. rewrite J.
  unfold setitem.
  do 3 (erewrite bind_ok by reflexivity).
  erewrite bind_ok by (exact Hw).
  do 1 step_print. rewrite print_eq. simpl.
  now rewrite <- !app_assoc.
Qed.

Lemma update_course_json_warns output_dir p w entry0 :
  FS.stat (fs w) (resolve cwd p ++ ["course.json"]) = Some entry0 ->
  rewritable json_loads (Some entry0) = None ->
  exists e,
    update_course_json cwd json_loads output_dir p w
    = (Ok tt,
       World (fs w)
         (stdout w
          ++ [Str.nl ++ "⚙️  Updating course.json...";
              "   ⚠️  Could not update course.json: " ++ Exn.str e])).
Proof.
  intros S H.
  pose (w1 := World (fs w) (stdout w ++ [Str.nl ++ "⚙️  Updating course.json..."])).
  assert (S1 : FS.stat (fs w1) (resolve cwd (p // "course.json")) = Some entry0)
    by (simpl; now rewrite resolve_div).
  unfold update_course_json.
  step_with path_exists_eq.
  rewrite resolve_div, (exists_true _ _ _ S).
  step_print. fold w1.
  assert (Hwarn : forall body e,
             body w1 = (Raise e, w1) ->
             try_except body
               (fun e => print ("   ⚠️  Could not update course.json: " ++ Exn.str e))
               w1
             = (Ok tt,
                World (fs w)
                  (stdout w
                   ++ [Str.nl ++ "⚙️  Updating course.json...";
                       "   ⚠️  Could not update course.json: " ++ Exn.str e]))).
  { intros body e Hb. erewrite try_raise by exact Hb.
    rewrite print_eq. simpl. now rewrite <- app_assoc. }
  destruct entry0 as [m text|].
  - destruct (readable m) eqn:R.
    + simpl in H. rewrite R in H. simpl in H.
      destruct (json_loads text) as [v|msg] eqn:J.
      * destruct v as [| | | | | |d];
          try (eexists; apply Hwarn;
               erewrite bind_ok by (apply (read_text_file _ _ m text); assumption);
               unfold json_load; rewrite J;
               erewrite bind_ok by reflexivity;
               reflexivity).
        destruct (writable m) eqn:W; [discriminate|].
        pose proof (write_text_fail (p // "course.json")
                      (Json.dumps 2 (JObject (updated_members output_dir d))) w1)
          as He.
        rewrite S1 in He. specialize (He W).
        eexists. apply Hwarn.
        erewrite bind_ok by (apply (read_text_file _ _ m text); assumption).
        unfold json_load. rewrite J. unfold setitem.
        do 3 (erewrite bind_ok by reflexivity).
        erewrite bind_raise by (exact He). reflexivity.
      * eexists. apply Hwarn.
        erewrite bind_ok by (apply (read_text_file _ _ m text); assumption).
        unfold json_load. rewrite J. reflexivity.
    + destruct (read_text_fail (p // "course.json") w1) as [e He].
      { right. eauto. }
      exists e. apply Hwarn. erewrite bind_raise by (exact He). reflexivity.
  - destruct (read_text_fail (p // "course.json") w1) as [e He].
    { now left. }
    exists e. apply Hwarn. erewrite bind_raise by (exact He). reflexivity.
Qed.

(** The update never raises; it changes course.json at most, and in the
    way [course_json_after] tells. *)
Lemma update_course_json_spec output_dir p w :
  exists root' out,
    update_course_json cwd json_loads output_dir p w = (Ok tt, World root' out)
    /\ FS.stat root' (resolve cwd p ++ ["course.json"])
       = course_json_after json_loads output_dir
           (FS.stat (fs w) (resolve cwd p ++ ["course.json"]))
    /\ forall q, q <> (resolve cwd p ++ ["course.json"])%list ->
                 FS.stat root' q = FS.stat (fs w) q.
Proof.
  unfold course_json_after.
  destruct (rewritable json_loads _) as [[m d]|] eqn:Rw.
  - destruct (update_course_json_rewrites output_dir p w m d Rw)
      as (root' & E & S & F).
    eauto 6.
  - destruct (FS.stat (fs w) (resolve cwd p ++ ["course.json"])) as [e0|] eqn:S.
    + destruct (update_course_json_warns output_dir p w e0 S Rw) as [e E].
      rewrite E. exists (fs w). eexists. repeat split. now rewrite S.
    + rewrite (update_course_json_absent output_dir p w S).
      destruct w as [root out]. exists root, out. simpl in *. repeat split.
      now rewrite S.
Qed.

Lemma copytree_any_out src dst w r w1 :
  copytree cwd runaway src dst w = (r, w1) ->
  forall out, copytree cwd runaway src dst (World (fs w) out) = (r, World (fs w1) out).
Proof.
  destruct (copytree_stdout src dst (fs w)) as (r0 & root' & H).
  destruct w as [root out0]. simpl in *. rewrite H.
  intros E out. inversion E; subst. simpl. apply H.
Qed.

Abbreviation run_create := (create_template cwd runaway script_dir json_loads).
Abbreviation template_path := (script_dir // "canvas-course-template").

Lemma create_template_target_exists output_dir w :
  FS.exists_ (fs w) (target cwd output_dir) = true ->
  run_create output_dir w
  = (Ok false,
     World (fs w)
       (stdout w
        ++ ["❌ Error: Directory '" ++ output_dir ++ "' already exists!";
            "   Please choose a different name or remove the existing directory."])).
Proof.
  unfold target. intros H. unfold create_template.
  step_with path_exists_eq. rewrite H.
  step_print. step_print. unfold ret. simpl. now rewrite <- app_assoc.
Qed.

Lemma create_template_template_missing output_dir w :
  FS.exists_ (fs w) (target cwd output_dir) = false ->
  FS.exists_ (fs w) (template cwd script_dir) = false ->
  run_create output_dir w
  = (Ok false,
     World (fs w)
       (stdout w
        ++ ["❌ Error: Template directory not found at " ++ P.str template_path;
            "   Please ensure canvas-course-template exists in the imscc-tools directory."])).
Proof.
  unfold target, template. intros H1 H2. unfold create_template.
  step_with path_exists_eq. rewrite H1.
  step_with path_exists_eq. rewrite H2. cbv [negb].
  step_print. step_print. unfold ret. simpl. now rewrite <- app_assoc.
Qed.

(** The run up to the copy. *)
Lemma create_template_to_copy output_dir w r w1 :
  FS.exists_ (fs w) (target cwd output_dir) = false ->
  FS.exists_ (fs w) (template cwd script_dir) = true ->
  copytree cwd runaway template_path (P.of_string output_dir) w = (r, w1) ->
  run_create output_dir w =
  match r with
  | Raise e =>
      (Ok false,
       World (fs w1)
         (stdout w ++ banner script_dir output_dir
          ++ ["❌ Error copying template: " ++ Exn.str e]))
  | Ok _ =>
      (list_copied cwd (P.of_string output_dir) ;;;
       update_course_json cwd json_loads output_dir (P.of_string output_dir) ;;;
       update_readme cwd output_dir (P.of_string output_dir) ;;;
       success_message cwd output_dir (P.of_string output_dir) ;;;
       ret true)
        (World (fs w1) (stdout w ++ banner script_dir output_dir))
  end.
Proof.
  unfold target, template. intros H1 H2 C. unfold create_template.
  step_with path_exists_eq. rewrite H1.
  step_with path_exists_eq. rewrite H2. cbv [negb].
  do 5 step_print. simpl fs. simpl stdout.
  match goal with
  | |- context [World (fs w) ?o] =>
      pose proof (copytree_any_out _ _ _ _ _ C o) as C'
  end.
  destruct r as [[]|e].
  - erewrite bind_ok
      by (apply try_ok; erewrite bind_ok by (exact C'); reflexivity).
    cbv [negb]. unfold banner. do 2 f_equal.
    rewrite <- !app_assoc. reflexivity.
  - erewrite bind_ok
      by (erewrite try_raise by (erewrite bind_raise by (exact C'); reflexivity);
          step_print; reflexivity).
    cbv [negb]. unfold ret, banner. simpl fs. simpl stdout. do 2 f_equal.
    rewrite <- !app_assoc. reflexivity.
Qed.

Lemma copied_tree src dst w w1 :
  copytree cwd runaway src dst w = (Ok tt, w1) ->
  FS.stat (fs w) (resolve cwd src) = Some EDir
  /\ forall rel, FS.stat (fs w1) (resolve cwd dst ++ rel)
                 = FS.stat (fs w) (resolve cwd src ++ rel).
Proof.
  intros C. apply copytree_ok in C. destruct C as (_ & _ & es & L & G).
  split; [apply stat_dir; eauto|].
  intros rel. unfold FS.stat.
  now rewrite (lookup_graft _ _ _ _ rel G), lookup_app, L.
Qed.

Lemma snoc_inj {A : Type} (l : list A) (x y : A) :
  (l ++ [x])%list = (l ++ [y])%list -> x = y.
Proof. intros H. apply app_inv_head in H. now inversion H. Qed.

(** The run after a copy without failure: the state before the README is
    written, what the update of course.json did, and the two ways the run
    can end. *)
Lemma create_template_after_copy output_dir w w1 :
  FS.exists_ (fs w) (target cwd output_dir) = false ->
  FS.exists_ (fs w) (template cwd script_dir) = true ->
  copytree cwd runaway template_path (P.of_string output_dir) w = (Ok tt, w1) ->
  exists root3 out2 out3,
    (forall rel, rel <> ["course.json"] ->
                 FS.stat root3 (target cwd output_dir ++ rel)
                 = FS.stat (fs w) (template cwd script_dir ++ rel))
    /\ FS.stat root3 (target cwd output_dir ++ ["course.json"])
       = course_json_after json_loads output_dir
           (FS.stat (fs w) (template cwd script_dir ++ ["course.json"]))
    /\ (forall rel, FS.stat (fs w1) (target cwd output_dir ++ rel)
                    = FS.stat (fs w) (template cwd script_dir ++ rel))
    /\ update_course_json cwd json_loads output_dir (P.of_string output_dir)
         (World (fs w1) out2)
       = (Ok tt, World root3 out3)
    /\ if can_write (FS.stat (fs w) (template cwd script_dir ++ ["README.md"]))
       then
         exists root4 more,
           run_create output_dir w = (Ok true, World root4 (out3 ++ more))
           /\ FS.stat root4 (target cwd output_dir ++ ["README.md"])
              = Some (EFile
                        (mode_after
                           (FS.stat (fs w) (template cwd script_dir ++ ["README.md"])))
                        (readme_content output_dir))
           /\ forall q, q <> (target cwd output_dir ++ ["README.md"])%list ->
                        FS.stat root4 q = FS.stat root3 q
       else
         exists more,
           run_create output_dir w
           = (Raise (write_error
                       (FS.stat (fs w) (template cwd script_dir ++ ["README.md"]))
                       (P.str (P.of_string output_dir // "README.md"))),
              World root3 (out3 ++ more)).
Proof.
  intros H1 H2 C.
  rewrite (create_template_to_copy output_dir w (Ok tt) w1 H1 H2 C).
  destruct (copied_tree _ _ _ _ C) as [Td Tree].
  fold (target cwd output_dir) in Tree. fold (template cwd script_dir) in Tree, Td.
  set (p := P.of_string output_dir) in *.
  set (w2 := World (fs w1) (stdout w ++ banner script_dir output_dir)).
  destruct (list_copied_quiet p w2) as [more2 L].
  { simpl. change (resolve cwd p) with (target cwd output_dir).
    rewrite <- (app_nil_r (target cwd output_dir)), Tree, app_nil_r. exact Td. }
  set (out2 := (stdout w2 ++ more2)%list) in *.
  destruct (update_course_json_spec output_dir p (World (fs w2) out2))
    as (root3 & out3 & U & Ucj & Uframe).
  simpl in Ucj, Uframe.
  change (resolve cwd p) with (target cwd output_dir) in Ucj, Uframe.
  rewrite Tree in Ucj.
  exists root3, out2, out3.
  split; [|split; [exact Ucj|split; [exact Tree|split; [exact U|]]]].
  { intros rel Hrel. rewrite Uframe, Tree; auto.
    intros E. apply app_inv_head in E. contradiction. }
  assert (Rd : FS.stat root3 (target cwd output_dir ++ ["README.md"])
               = FS.stat (fs w) (template cwd script_dir ++ ["README.md"])).
  { rewrite Uframe, Tree; auto.
    intros E. apply snoc_inj in E. discriminate. }
  assert (Rt : FS.stat root3 (target cwd output_dir) = Some EDir).
  { rewrite Uframe.
    - rewrite <- (app_nil_r (target cwd output_dir)), Tree, app_nil_r. exact Td.
    - intros E. apply (f_equal (@List.length string)) in E.
      rewrite length_app in E. simpl in E. lia. }
  set (w3 := World root3 (out3 ++ [Str.nl ++ "📖 Updating README..."])).
  assert (Pre : forall (k : M bool),
             (list_copied cwd p ;;;
              update_course_json cwd json_loads output_dir p ;;;
              update_readme cwd output_dir p ;;; k) w2
             = (write_text cwd (p // "README.md") (readme_content output_dir) ;;;
                print "   ✓ README.md" ;;; k) w3).
  { intros k. erewrite bind_ok by (exact L).
    erewrite bind_ok by (exact U).
    unfold update_readme. unfold bind at 1. unfold bind at 1.
    rewrite print_eq. simpl fs. simpl stdout. fold w3. unfold bind.
    destruct (write_text cwd (p // "README.md") (readme_content output_dir) w3)
      as [[[]|e] w4]; [|reflexivity].
    rewrite print_eq. reflexivity. }
  rewrite Pre.
  destruct (can_write _) eqn:Cw.
  - destruct (write_text_ok (p // "README.md") (readme_content output_dir) w3)
      as (root4 & W & Ws & Wf).
    { simpl. rewrite resolve_div.
      change (resolve cwd p) with (target cwd output_dir). now rewrite Rd. }
    { simpl. rewrite resolve_div, removelast_snoc. intros _. exact Rt. }
    simpl in Ws, Wf. rewrite resolve_div in Ws, Wf.
    change (resolve cwd p) with (target cwd output_dir) in Ws, Wf. rewrite Rd in Ws.
    erewrite bind_ok by (exact W). step_print.
    match goal with
    | |- context [bind (success_message _ _ _) _ ?w0] =>
        destruct (success_message_quiet output_dir p w0) as ([] & more & Sm)
    end.
    erewrite bind_ok by (exact Sm). unfold ret.
    exists root4. eexists. split; [|split; [exact Ws|exact Wf]].
    simpl. rewrite <- !app_assoc. reflexivity.
  - pose proof (write_text_fail (p // "README.md") (readme_content output_dir) w3)
      as W.
    simpl in W. rewrite resolve_div in W.
    change (resolve cwd p) with (target cwd output_dir) in W.
    rewrite Rd in W. specialize (W Cw).
    erewrite bind_raise by (exact W).
    eexists. reflexivity.
Qed.

End Steps.

Ltac sort_out :=
  repeat match goal with
         | |- _ /\ _ => split
         | |- _ <-> _ => split
         | |- _ -> _ => intro
         | H : _ /\ _ |- _ => destruct H
         | H : _ \/ _ |- _ => destruct H
         | H : exists _, _ |- _ => destruct H
         end;
  try congruence; try solve [intuition (eauto 3)].

Lemma exists_of_stat n p :
  FS.exists_ n p = match FS.stat n p with Some _ => true | None => false end.
Proof. unfold FS.exists_, FS.stat. now destruct (FS.lookup n p). Qed.

(** The update neither makes nor removes course.json. *)
Lemma course_json_after_present json_loads output_dir e :
  match course_json_after json_loads output_dir e with
  | Some _ => true
  | None => false
  end
  = match e with Some _ => true | None => false end.
Proof.
  unfold course_json_after.
  destruct (rewritable json_loads e) as [[m d]|] eqn:R; [|reflexivity].
  destruct e; [reflexivity|discriminate].
Qed.

(** ** Properties of the scaffolder *)

Section Claims.

Variable cwd : location.
Variable runaway : node -> Path -> Path -> exn * node.
Variable script_dir : Path.
Variable json_loads : string -> json + string.

Abbreviation run_create := (create_template cwd runaway script_dir json_loads).
Abbreviation template_path := (script_dir // "canvas-course-template").
Abbreviation target_of := (target cwd).
Abbreviation template_at := (template cwd script_dir).

(** A run that returns [True] has passed both checks, copied without
    failure and could write the README. *)
Lemma create_template_true_inv output_dir w w' :
  run_create output_dir w = (Ok true, w') ->
  FS.exists_ (fs w) (target_of output_dir) = false
  /\ FS.exists_ (fs w) template_at = true
  /\ (exists w1, copytree cwd runaway template_path (P.of_string output_dir) w = (Ok tt, w1))
  /\ can_write (FS.stat (fs w) (template_at ++ ["README.md"])) = true.
Proof.
  intros H.
  destruct (FS.exists_ (fs w) (target_of output_dir)) eqn:E1.
  { rewrite (create_template_target_exists _ _ _ _ _ _ E1) in H. discriminate. }
  destruct (FS.exists_ (fs w) template_at) eqn:E2.
  2:{ rewrite (create_template_template_missing _ _ _ _ _ _ E1 E2) in H. discriminate. }
  destruct (copytree cwd runaway template_path (P.of_string output_dir) w) as [r w1] eqn:C.
  destruct r as [[]|e].
  2:{ rewrite (create_template_to_copy _ _ _ _ _ _ _ _ E1 E2 C) in H. discriminate. }
  repeat split; eauto.
  destruct (create_template_after_copy _ _ _ json_loads _ _ _ E1 E2 C)
    as (root3 & out2 & out3 & _ & _ & _ & _ & Hend).
  destruct (can_write _); [reflexivity|].
  destruct Hend as (more & Hr). rewrite Hr in H. discriminate.
Qed.

(** The files of the target when the run ends after a copy without
    failure, whether the README could be written or not. *)
Lemma create_template_final_tree output_dir w w1 :
  FS.exists_ (fs w) (target_of output_dir) = false ->
  FS.exists_ (fs w) template_at = true ->
  copytree cwd runaway template_path (P.of_string output_dir) w = (Ok tt, w1) ->
  (forall rel, rel <> ["course.json"] -> rel <> ["README.md"] ->
               FS.stat (fs (snd (run_create output_dir w))) (target_of output_dir ++ rel)
               = FS.stat (fs w) (template_at ++ rel))
  /\ FS.stat (fs (snd (run_create output_dir w))) (target_of output_dir ++ ["course.json"])
     = course_json_after json_loads output_dir
         (FS.stat (fs w) (template_at ++ ["course.json"]))
  /\ FS.stat (fs (snd (run_create output_dir w))) (target_of output_dir ++ ["README.md"])
     = if can_write (FS.stat (fs w) (template_at ++ ["README.md"]))
       then Some (EFile (mode_after (FS.stat (fs w) (template_at ++ ["README.md"])))
                    (readme_content output_dir))
       else FS.stat (fs w) (template_at ++ ["README.md"]).
Proof.
  intros E1 E2 C.
  destruct (create_template_after_copy _ _ _ json_loads _ _ _ E1 E2 C)
    as (root3 & out2 & out3 & Tree & Cj & _ & _ & Hend).
  assert (Hne : (target_of output_dir ++ ["course.json"])%list
                <> (target_of output_dir ++ ["README.md"])%list).
  { intros E. apply snoc_inj in E. discriminate. }
  destruct (can_write _).
  - destruct Hend as (root4 & out & Hr & Rd & Frame). rewrite Hr. simpl.
    split; [|split].
    + intros rel H1 H2. rewrite Frame; auto.
      intros E. apply app_inv_head in E. contradiction.
    + rewrite Frame; auto.
    + exact Rd.
  - destruct Hend as (more & Hr). rewrite Hr. simpl.
    split; [|split]; auto.
    apply Tree. discriminate.
Qed.

(** C1 (amended).  After a run that returns [True], started where the
    target did not exist and the template did, the target is a directory;
    every place in it other than course.json and README.md holds what the
    same place of the template holds, so the target has the files of the
    template and README.md besides; course.json is the rewritten file when
    the update went through and the copied one otherwise; README.md holds
    the generated text. *)
Theorem create_template_success_tree output_dir w w' :
  FS.exists_ (fs w) (target_of output_dir) = false ->
  FS.exists_ (fs w) template_at = true ->
  run_create output_dir w = (Ok true, w') ->
  FS.stat (fs w') (target_of output_dir) = Some EDir
  /\ (forall rel, rel <> ["course.json"] -> rel <> ["README.md"] ->
                  FS.stat (fs w') (target_of output_dir ++ rel)
                  = FS.stat (fs w) (template_at ++ rel))
  /\ (forall rel, rel <> ["README.md"] ->
                  FS.exists_ (fs w') (target_of output_dir ++ rel)
                  = FS.exists_ (fs w) (template_at ++ rel))
  /\ FS.exists_ (fs w') (target_of output_dir ++ ["README.md"]) = true
  /\ FS.stat (fs w') (target_of output_dir ++ ["course.json"])
     = course_json_after json_loads output_dir
         (FS.stat (fs w) (template_at ++ ["course.json"]))
  /\ FS.stat (fs w') (target_of output_dir ++ ["README.md"])
     = Some (EFile (mode_after (FS.stat (fs w) (template_at ++ ["README.md"])))
               (readme_content output_dir)).
Proof.
  intros _ _ H.
  destruct (create_template_true_inv _ _ _ H) as (E1 & E2 & [w1 C] & Cw).
  destruct (create_template_final_tree _ _ _ E1 E2 C) as (Tree & Cj & Rd).
  rewrite H, Cw in *. simpl in Tree, Cj, Rd.
  assert (Ex : forall a p b q, FS.stat a p = FS.stat b q ->
                               FS.exists_ a p = FS.exists_ b q).
  { intros a p b q. unfold FS.stat, FS.exists_.
    destruct (FS.lookup a p), (FS.lookup b q); simpl; congruence. }
  split; [|split; [exact Tree|split; [|split; [|split; assumption]]]].
  - rewrite <- (app_nil_r (target_of output_dir)), Tree by discriminate.
    rewrite app_nil_r. apply copied_tree in C. apply C.
  - intros rel Hrel.
    destruct (list_eq_dec string_dec rel ["course.json"]) as [->|Hcj].
    + rewrite !exists_of_stat, Cj. apply course_json_after_present.
    + apply Ex. auto.
  - eapply exists_true. exact Rd.
Qed.

(** C2.  When the target exists already, or the template does not, the run
    returns [False] and leaves every file as it was; all it does is print
    the two lines of the error at hand. *)
Theorem create_template_precondition_failure output_dir w :
  FS.exists_ (fs w) (target_of output_dir) = true
  \/ FS.exists_ (fs w) template_at = false ->
  run_create output_dir w
  = (Ok false,
     World (fs w)
       (stdout w
        ++ if FS.exists_ (fs w) (target_of output_dir)
           then ["❌ Error: Directory '" ++ output_dir ++ "' already exists!";
                 "   Please choose a different name or remove the existing directory."]
           else ["❌ Error: Template directory not found at " ++ P.str template_path;
                 "   Please ensure canvas-course-template exists in the imscc-tools directory."])).
Proof.
  intros H.
  destruct (FS.exists_ (fs w) (target_of output_dir)) eqn:E1.
  - apply (create_template_target_exists _ _ _ _ _ _ E1).
  - destruct H as [H|H]; [discriminate|].
    apply (create_template_template_missing _ _ _ _ _ _ E1 H).
Qed.

(** C3 (amended).  The run returns [False] exactly when the target exists,
    the template is missing or the copy raises.  When both checks pass and
    the copy does not raise, the run returns [True] if the README can be
    written, whatever becomes of course.json, and it raises the exception of
    the write otherwise. *)
Theorem create_template_return_value output_dir w :
  (fst (run_create output_dir w) = Ok false
   <-> (FS.exists_ (fs w) (target_of output_dir) = true
        \/ FS.exists_ (fs w) template_at = false
        \/ exists e w1,
             copytree cwd runaway template_path (P.of_string output_dir) w = (Raise e, w1)))
  /\ (fst (run_create output_dir w) = Ok true
      <-> (FS.exists_ (fs w) (target_of output_dir) = false
           /\ FS.exists_ (fs w) template_at = true
           /\ (exists w1,
                 copytree cwd runaway template_path (P.of_string output_dir) w = (Ok tt, w1))
           /\ can_write (FS.stat (fs w) (template_at ++ ["README.md"])) = true))
  /\ ((exists e, fst (run_create output_dir w) = Raise e)
      <-> (FS.exists_ (fs w) (target_of output_dir) = false
           /\ FS.exists_ (fs w) template_at = true
           /\ (exists w1,
                 copytree cwd runaway template_path (P.of_string output_dir) w = (Ok tt, w1))
           /\ can_write (FS.stat (fs w) (template_at ++ ["README.md"])) = false)).
Proof.
  destruct (FS.exists_ (fs w) (target_of output_dir)) eqn:E1.
  { rewrite (create_template_target_exists _ _ _ _ _ _ E1). simpl. sort_out. }
  destruct (FS.exists_ (fs w) template_at) eqn:E2.
  { destruct (copytree cwd runaway template_path (P.of_string output_dir) w)
      as [r w1] eqn:C.
    destruct r as [[]|e].
    - destruct (create_template_after_copy _ _ _ json_loads _ _ _ E1 E2 C)
        as (root3 & out2 & out3 & _ & _ & _ & _ & Hend).
      destruct (can_write _).
      + destruct Hend as (root4 & out & Hr & _). rewrite Hr. simpl. sort_out.
      + destruct Hend as (more & Hr). rewrite Hr. simpl. sort_out.
    - rewrite (create_template_to_copy _ _ _ _ _ _ _ _ E1 E2 C). simpl. sort_out. }
  rewrite (create_template_template_missing _ _ _ _ _ _ E1 E2). simpl. sort_out.
Qed.

(** C4 (amended).  For a name in ASCII, where the case conversion of the
    model is the one of Python: the display title has the length of the
    name; each of its characters is the character of the name at the same
    place, a separator taken as a space, in upper case when the place does
    not come right after a cased character and in lower case when it does;
    the name year9-programming gives the title Year9 Programming. *)
Theorem display_title_python_title output_dir :
  is_ascii output_dir = true ->
  String.length (display_title output_dir) = String.length output_dir
  /\ (forall i,
        String.get i (display_title output_dir)
        = option_map
            (fun c => if follows_cased output_dir i
                      then Str.to_lower (to_space c)
                      else Str.to_upper (to_space c))
            (String.get i output_dir))
  /\ display_title "year9-programming" = "Year9 Programming".
Proof.
  intros _. unfold display_title. rewrite replace_separators. unfold Str.title.
  split; [|split; [|reflexivity]].
  - now rewrite title_from_length, str_map_length.
  - intros i. rewrite title_from_get, str_map_get.
    destruct (String.get i output_dir) as [c|] eqn:G; simpl; [|reflexivity].
    f_equal. destruct i as [|j]; simpl; [reflexivity|].
    rewrite str_map_get.
    destruct (String.get j output_dir) as [q|]; simpl; [|reflexivity].
    now rewrite to_space_cased.
Qed.

(** The final course.json after a copy without failure. *)
Lemma course_json_final output_dir w w1 m d :
  FS.exists_ (fs w) (target_of output_dir) = false ->
  FS.exists_ (fs w) template_at = true ->
  copytree cwd runaway template_path (P.of_string output_dir) w = (Ok tt, w1) ->
  rewritable json_loads (FS.stat (fs w) (template_at ++ ["course.json"])) = Some (m, d) ->
  FS.stat (fs (snd (run_create output_dir w))) (target_of output_dir ++ ["course.json"])
  = Some (EFile m (Json.dumps 2 (JObject (updated_members output_dir d)))).
Proof.
  intros E1 E2 C R.
  destruct (create_template_final_tree _ _ _ E1 E2 C) as (_ & Cj & _).
  rewrite Cj. unfold course_json_after. now rewrite R.
Qed.

Lemma updated_members_get output_dir d :
  Dict.get "title" (updated_members output_dir d)
  = Some (JString (display_title output_dir))
  /\ Dict.get "course_code" (updated_members output_dir d)
     = Some (JString (Str.upper output_dir))
  /\ forall k, k <> "title" -> k <> "course_code" ->
               Dict.get k (updated_members output_dir d) = Dict.get k d.
Proof.
  unfold updated_members. split; [|split].
  - rewrite dict_get_set_other by discriminate. apply dict_get_set_same.
  - apply dict_get_set_same.
  - intros k H1 H2. now rewrite !dict_get_set_other.
Qed.

(** C5.  For a name in ASCII, where the case conversion of the model is
    the one of Python: when course.json is rewritten, its course_code is
    the name in upper case.  Upper-casing keeps the length and maps every
    character by itself; a character that is not a lower-case letter, a separator among
    them, stays as it is and where it is, with the text before it and the
    text after it upper-cased on their own; biology_101 gives the title
    Biology 101 and the code BIOLOGY_101. *)
Theorem course_code_upper output_dir w w1 m d :
  is_ascii output_dir = true ->
  FS.exists_ (fs w) (target_of output_dir) = false ->
  FS.exists_ (fs w) template_at = true ->
  copytree cwd runaway template_path (P.of_string output_dir) w = (Ok tt, w1) ->
  rewritable json_loads (FS.stat (fs w) (template_at ++ ["course.json"])) = Some (m, d) ->
  (FS.stat (fs (snd (run_create output_dir w)))
     (target_of output_dir ++ ["course.json"])
   = Some (EFile m (Json.dumps 2 (JObject (updated_members output_dir d))))
   /\ Dict.get "course_code" (updated_members output_dir d)
      = Some (JString (Str.upper output_dir)))
  /\ String.length (Str.upper output_dir) = String.length output_dir
  /\ (forall i, String.get i (Str.upper output_dir)
                = option_map Str.to_upper (String.get i output_dir))
  /\ (forall i c, String.get i output_dir = Some c ->
                  Str.is_lower c = false ->
                  String.get i (Str.upper output_dir) = Some c)
  /\ (forall before after,
        output_dir = before ++ "-" ++ after ->
        Str.upper output_dir = Str.upper before ++ "-" ++ Str.upper after)
  /\ (forall before after,
        output_dir = before ++ "_" ++ after ->
        Str.upper output_dir = Str.upper before ++ "_" ++ Str.upper after)
  /\ Str.upper "biology_101" = "BIOLOGY_101"
  /\ display_title "biology_101" = "Biology 101".
Proof.
  intros _ E1 E2 C R.
  assert (G : forall i, String.get i (Str.upper output_dir)
                        = option_map Str.to_upper (String.get i output_dir))
    by (intros i; apply str_map_get).
  assert (K : forall i c, String.get i output_dir = Some c ->
                          Str.is_lower c = false ->
                          String.get i (Str.upper output_dir) = Some c).
  { intros i c Hc Hl. rewrite G, Hc. simpl. unfold Str.to_upper. now rewrite Hl. }
  split; [|split; [apply str_map_length|split; [exact G|split; [exact K|]]]].
  - split.
    + eapply course_json_final; eauto.
    + apply updated_members_get.
  - split; [|split; [|split; reflexivity]];
      intros before after ->; unfold Str.upper; now rewrite !str_map_app.
Qed.

Lemma updated_members_keys output_dir d :
  Dict.keys (updated_members output_dir d)
  = ((Dict.keys d
      ++ match Dict.get "title" d with Some _ => [] | None => ["title"] end)
     ++ match Dict.get "course_code" d with Some _ => [] | None => ["course_code"] end)%list.
Proof.
  unfold updated_members. rewrite !dict_set_keys.
  rewrite dict_get_set_other by discriminate.
  destruct (Dict.get "title" d), (Dict.get "course_code" d);
    now rewrite ?app_nil_r.
Qed.

Lemma dumps_object_shape d :
  d <> [] ->
  Json.dumps 2 (JObject d)
  = "{" ++ Str.nl ++ "  "
    ++ Str.join ("," ++ Str.nl ++ "  ") (List.map (Json.member_text "  " 0) d)
    ++ Str.nl ++ "}".
Proof.
  destruct d as [|m ms]; [congruence|]. intros _.
  unfold Json.dumps. rewrite encode_object. reflexivity.
Qed.

Lemma dict_set_not_nil {V : Type} (k : string) (v : V) d : Dict.set k v d <> [].
Proof.
  destruct d as [|[k' v'] d]; simpl; [discriminate|].
  destruct (String.eqb k' k); discriminate.
Qed.

(** C6 (amended).  When course.json of the template is a file that can be
    read and written and decodes to an object, the file in the target is
    the dump, with an indent of two spaces, of the object with title and
    course_code set to the computed values.  Every other key has the
    decoded value it had (the bytes of its text are those of the dump, not
    those of the file that was read); the other members are the same in
    the same order, and so are their texts in the dump; a key that was
    present keeps its place and a new one comes last.
    The text has one member a line behind two spaces, between a line with
    the opening brace and a line with the closing one. *)
Theorem course_json_rewrite_frame output_dir w w1 m d :
  FS.exists_ (fs w) (target_of output_dir) = false ->
  FS.exists_ (fs w) template_at = true ->
  copytree cwd runaway template_path (P.of_string output_dir) w = (Ok tt, w1) ->
  rewritable json_loads (FS.stat (fs w) (template_at ++ ["course.json"])) = Some (m, d) ->
  let d' := updated_members output_dir d in
  FS.stat (fs (snd (run_create output_dir w))) (target_of output_dir ++ ["course.json"])
  = Some (EFile m (Json.dumps 2 (JObject d')))
  /\ Dict.get "title" d' = Some (JString (display_title output_dir))
  /\ Dict.get "course_code" d' = Some (JString (Str.upper output_dir))
  /\ (forall k, k <> "title" -> k <> "course_code" -> Dict.get k d' = Dict.get k d)
  /\ List.filter other_key d' = List.filter other_key d
  /\ List.map (Json.member_text "  " 0) (List.filter other_key d')
     = List.map (Json.member_text "  " 0) (List.filter other_key d)
  /\ Dict.keys d'
     = ((Dict.keys d
         ++ match Dict.get "title" d with Some _ => [] | None => ["title"] end)
        ++ match Dict.get "course_code" d with
           | Some _ => []
           | None => ["course_code"]
           end)%list
  /\ Json.dumps 2 (JObject d')
     = "{" ++ Str.nl ++ "  "
       ++ Str.join ("," ++ Str.nl ++ "  ") (List.map (Json.member_text "  " 0) d')
       ++ Str.nl ++ "}".
Proof.
  intros E1 E2 C R d'.
  destruct (updated_members_get output_dir d) as (Gt & Gc & Go).
  assert (F : List.filter other_key d' = List.filter other_key d)
    by (unfold d', updated_members; now rewrite !dict_set_filter).
  split; [eapply course_json_final; eauto|].
  split; [exact Gt|split; [exact Gc|split; [exact Go|]]].
  split; [exact F|split; [now rewrite F|]].
  split; [apply updated_members_keys|].
  apply dumps_object_shape. apply dict_set_not_nil.
Qed.

(** C7 (amended).  After a copy without failure, when the update of
    course.json does not go through (the file is absent, is a directory,
    cannot be read or written, is not JSON or is not an object), course.json
    of the target is what was copied.  When the file is absent the update
    step prints nothing and changes nothing; when it is present a warning
    with the text of the exception is printed.  The README step runs all
    the same: the run returns [True] and README.md holds the generated text
    when the README can be written, and the run raises otherwise. *)
Theorem course_json_failure_is_warning output_dir w w1 :
  FS.exists_ (fs w) (target_of output_dir) = false ->
  FS.exists_ (fs w) template_at = true ->
  copytree cwd runaway template_path (P.of_string output_dir) w = (Ok tt, w1) ->
  rewritable json_loads (FS.stat (fs w) (template_at ++ ["course.json"])) = None ->
  FS.stat (fs (snd (run_create output_dir w))) (target_of output_dir ++ ["course.json"])
  = FS.stat (fs w) (template_at ++ ["course.json"])
  /\ (FS.stat (fs w) (template_at ++ ["course.json"]) = None ->
      forall out,
        update_course_json cwd json_loads output_dir (P.of_string output_dir)
          (World (fs w1) out)
        = (Ok tt, World (fs w1) out))
  /\ (FS.stat (fs w) (template_at ++ ["course.json"]) <> None ->
      exists e,
        In ("   ⚠️  Could not update course.json: " ++ Exn.str e)
           (stdout (snd (run_create output_dir w))))
  /\ (can_write (FS.stat (fs w) (template_at ++ ["README.md"])) = true ->
      fst (run_create output_dir w) = Ok true
      /\ FS.stat (fs (snd (run_create output_dir w)))
           (target_of output_dir ++ ["README.md"])
         = Some (EFile (mode_after (FS.stat (fs w) (template_at ++ ["README.md"])))
                   (readme_content output_dir)))
  /\ (can_write (FS.stat (fs w) (template_at ++ ["README.md"])) = false ->
      exists e, fst (run_create output_dir w) = Raise e).
Proof.
  intros E1 E2 C R.
  destruct (create_template_final_tree _ _ _ E1 E2 C) as (_ & Cj & Rd).
  destruct (create_template_after_copy _ _ _ json_loads _ _ _ E1 E2 C)
    as (root3 & out2 & out3 & _ & _ & Tree & U & Hend).
  split; [|split; [|split; [|split]]].
  - rewrite Cj. unfold course_json_after. now rewrite R.
  - intros Habs out. apply update_course_json_absent. simpl.
    change (resolve cwd (P.of_string output_dir)) with (target_of output_dir).
    now rewrite Tree.
  - intros Hpres.
    destruct (FS.stat (fs w) (template_at ++ ["course.json"])) as [e0|] eqn:S;
      [|congruence].
    destruct (update_course_json_warns cwd json_loads output_dir
                (P.of_string output_dir) (World (fs w1) out2) e0) as [e W].
    { simpl. change (resolve cwd (P.of_string output_dir)) with (target_of output_dir).
      now rewrite Tree. }
    { exact R. }
    rewrite W in U. inversion U; subst root3 out3; clear U.
    exists e.
    assert (Hin : forall more,
               In ("   ⚠️  Could not update course.json: " ++ Exn.str e)
                  ((stdout (World (fs w1) out2)
                    ++ [Str.nl ++ "⚙️  Updating course.json...";
                        "   ⚠️  Could not update course.json: " ++ Exn.str e])
                   ++ more)).
    { intros more. apply in_or_app. left. apply in_or_app. right.
      right. left. reflexivity. }
    destruct (can_write _).
    + destruct Hend as (root4 & more & Hr & _). rewrite Hr. apply Hin.
    + destruct Hend as (more & Hr). rewrite Hr. apply Hin.
  - intros Cw. rewrite Cw in *. split; [|exact Rd].
    destruct Hend as (root4 & more & Hr & _). now rewrite Hr.
  - intros Cw. rewrite Cw in *.
    destruct Hend as (more & Hr). rewrite Hr. simpl. eauto.
Qed.

(** What a copy that raises leaves behind: nothing at all, or the
    destination with everything that could be copied, or what a copy into
    its own source leaves. *)
Lemma copytree_raise src dst w e w1 :
  copytree cwd runaway src dst w = (Raise e, w1) ->
  fs w1 = fs w
  \/ (exists es copy errors,
        FS.lookup (fs w) (resolve cwd src) = Some (Dir es)
        /\ copy_node src dst (Dir es) = (Some copy, errors)
        /\ errors <> []
        /\ e = ShutilError errors
        /\ FS.lookup (fs w1) (resolve cwd dst) = Some copy)
  \/ (exists es,
        FS.lookup (fs w) (resolve cwd src) = Some (Dir es)
        /\ FS.into_itself es (resolve cwd src) (resolve cwd dst) = true
        /\ (e, fs w1) = runaway (fs w) src dst).
Proof.
  unfold copytree. run.
  destruct (FS.lookup (fs w) (resolve cwd src)) as [[m d|es]|];
    try (intros H; inversion H; now left).
  destruct (FS.exists_ (fs w) (resolve cwd dst));
    try (intros H; inversion H; now left).
  destruct (FS.into_itself es (resolve cwd src) (resolve cwd dst)) eqn:I.
  { destruct (runaway (fs w) src dst) as [e0 root'] eqn:Rn.
    intros H; inversion H; subst; clear H. right. right.
    exists es. auto. }
  destruct (copy_node src dst (Dir es)) as [[copy|] errors] eqn:Cn;
    try (intros H; inversion H; now left).
  destruct (FS.graft (fs w) (resolve cwd dst) copy) as [root'|] eqn:G;
    try (intros H; inversion H; now left).
  destruct errors as [|err errors]; [discriminate|].
  intros H; inversion H; subst; clear H. right. left.
  exists es, copy, (err :: errors). simpl. repeat split; auto; try discriminate.
  rewrite <- (app_nil_r (resolve cwd dst)).
  now rewrite (lookup_graft _ _ _ _ [] G).
Qed.

(** C8.  When the copy raises, the run prints the text of the exception
    and returns [False]; the files are left exactly as the copy left them:
    untouched, or with the target holding what could be copied, or, after a
    copy into its own source, with whatever that copy made. *)
Theorem create_template_copy_failure output_dir w e w1 :
  FS.exists_ (fs w) (target_of output_dir) = false ->
  FS.exists_ (fs w) template_at = true ->
  copytree cwd runaway template_path (P.of_string output_dir) w = (Raise e, w1) ->
  run_create output_dir w
  = (Ok false,
     World (fs w1)
       (stdout w ++ banner script_dir output_dir
        ++ ["❌ Error copying template: " ++ Exn.str e]))
  /\ (fs w1 = fs w
      \/ (exists es copy errors,
            FS.lookup (fs w) template_at = Some (Dir es)
            /\ copy_node template_path (P.of_string output_dir) (Dir es)
               = (Some copy, errors)
            /\ errors <> []
            /\ e = ShutilError errors
            /\ FS.lookup (fs w1) (target_of output_dir) = Some copy)
      \/ (exists es,
            FS.lookup (fs w) template_at = Some (Dir es)
            /\ FS.into_itself es template_at (target_of output_dir) = true
            /\ (e, fs w1) = runaway (fs w) template_path (P.of_string output_dir))).
Proof.
  intros E1 E2 C. split.
  - apply (create_template_to_copy _ _ _ _ _ _ _ _ E1 E2 C).
  - apply (copytree_raise _ _ _ _ _ C).
Qed.

(** C9.  After a run that returns [True], README.md of the target holds
    the generated text, and the display title and the name as given are
    both substrings of that text. *)
Theorem readme_contains_title_and_name output_dir w w' :
  run_create output_dir w = (Ok true, w') ->
  (exists m, FS.stat (fs w') (target_of output_dir ++ ["README.md"])
             = Some (EFile m (readme_content output_dir)))
  /\ Str.Substring (display_title output_dir) (readme_content output_dir)
  /\ Str.Substring output_dir (readme_content output_dir).
Proof.
  intros H.
  destruct (create_template_true_inv _ _ _ H) as (E1 & E2 & [w1 C] & Cw).
  destruct (create_template_final_tree _ _ _ E1 E2 C) as (_ & _ & Rd).
  rewrite H, Cw in Rd. simpl in Rd.
  split; [eauto|]. unfold readme_content.
  split; apply substring_left.
  - apply (substring_trans _ ("# " ++ display_title output_dir)).
    + apply substring_right, substring_refl.
    + apply substring_join. left. reflexivity.
  - apply (substring_trans _ (output_dir ++ "/")).
    + apply substring_left, substring_refl.
    + apply substring_join. unfold readme_lines.
      repeat (first [left; reflexivity | right]).
Qed.

(** C10.  After a copy without failure, when README.md of the target is a
    directory or a file that may not be written, the write raises and the
    run ends with that exception: it returns neither [True] nor [False].
    The files stay as they were before the write: the copied tree, with
    course.json rewritten when the update went through. *)
Theorem readme_write_failure_propagates output_dir w w1 :
  FS.exists_ (fs w) (target_of output_dir) = false ->
  FS.exists_ (fs w) template_at = true ->
  copytree cwd runaway template_path (P.of_string output_dir) w = (Ok tt, w1) ->
  can_write (FS.stat (fs w) (template_at ++ ["README.md"])) = false ->
  let e := write_error (FS.stat (fs w) (template_at ++ ["README.md"]))
             (P.str (P.of_string output_dir // "README.md")) in
  (forall data w0,
      FS.stat (fs w0) (target_of output_dir ++ ["README.md"])
      = FS.stat (fs w) (template_at ++ ["README.md"]) ->
      write_text cwd (P.of_string output_dir // "README.md") data w0 = (Raise e, w0))
  /\ fst (run_create output_dir w) = Raise e
  /\ fst (run_create output_dir w) <> Ok true
  /\ fst (run_create output_dir w) <> Ok false
  /\ (forall rel, rel <> ["course.json"] ->
                  FS.stat (fs (snd (run_create output_dir w))) (target_of output_dir ++ rel)
                  = FS.stat (fs w) (template_at ++ rel))
  /\ FS.stat (fs (snd (run_create output_dir w))) (target_of output_dir ++ ["course.json"])
     = course_json_after json_loads output_dir
         (FS.stat (fs w) (template_at ++ ["course.json"])).
Proof.
  intros E1 E2 C Cw e.
  destruct (create_template_after_copy _ _ _ json_loads _ _ _ E1 E2 C)
    as (root3 & out2 & out3 & Tree & Cj & _ & _ & Hend).
  rewrite Cw in Hend. destruct Hend as (more & Hr).
  rewrite Hr. simpl.
  split; [|split; [reflexivity|split; [discriminate|split; [discriminate|]]]].
  - intros data w0 S.
    pose proof (write_text_fail cwd (P.of_string output_dir // "README.md") data w0)
      as W.
    rewrite resolve_div in W.
    change (resolve cwd (P.of_string output_dir)) with (target_of output_dir) in W.
    rewrite S in W. exact (W Cw).
  - split; assumption.
Qed.

End Claims.

(** ** The properties on the example worlds *)

Import Example.

(** C1, as first stated, fails on a template without README.md: the run
    returns [True] and the target has a file that the template has not. *)
Lemma create_template_adds_readme :
  FS.exists_ (fs (world_with bare_template)) (target cwd "my-course") = false
  /\ FS.exists_ (fs (world_with bare_template)) (template cwd script_dir) = true
  /\ fst (run "my-course" bare_template) = Ok true
  /\ ~ (forall rel,
          FS.exists_ (fs (snd (run "my-course" bare_template)))
            (in_target "my-course" rel)
          = FS.exists_ (fs (world_with bare_template)) (in_template rel)).
Proof.
  repeat split; try (vm_compute; reflexivity).
  intros H. specialize (H ["README.md"]). vm_compute in H. discriminate.
Qed.

(** The run on the full template: a copied file is the file of the
    template, and README.md is there. *)
Lemma create_template_success_tree_witness :
  FS.stat (fs (snd (run "my-course" full_template)))
    (in_target "my-course" ["css"; "canvas-course.css"])
  = FS.stat (fs good) (in_template ["css"; "canvas-course.css"])
  /\ FS.exists_ (fs (snd (run "my-course" full_template)))
       (in_target "my-course" ["README.md"]) = true.
Proof.
  assert (H1 : FS.exists_ (fs good) (target cwd "my-course") = false)
    by (vm_compute; reflexivity).
  assert (H2 : FS.exists_ (fs good) (template cwd script_dir) = true)
    by (vm_compute; reflexivity).
  assert (H3 : create_template cwd runaway script_dir RefJson.loads "my-course" good
               = (Ok true, snd (run "my-course" full_template)))
    by (vm_compute; reflexivity).
  destruct (create_template_success_tree cwd runaway script_dir RefJson.loads
              "my-course" good _ H1 H2 H3) as (_ & T & _ & R & _).
  split; [apply T; discriminate|exact R].
Defined.

(** A second run with the name of a directory that is there: here the
    template itself. *)
Lemma create_template_precondition_failure_witness :
  fst (create_template cwd runaway script_dir RefJson.loads "canvas-course-template" good)
  = Ok false
  /\ fs (snd (create_template cwd runaway script_dir RefJson.loads
                "canvas-course-template" good))
     = fs good.
Proof.
  assert (H : FS.exists_ (fs good) (target cwd "canvas-course-template") = true
              \/ FS.exists_ (fs good) (template cwd script_dir) = false)
    by (left; vm_compute; reflexivity).
  rewrite (create_template_precondition_failure cwd runaway script_dir RefJson.loads
             "canvas-course-template" good H).
  split; reflexivity.
Defined.

(** C3, as first stated, fails on a template whose README.md is a
    directory: both checks pass and the copy does not raise, yet the run
    does not return [True]. *)
Lemma create_template_raises_after_copy :
  FS.exists_ (fs (world_with readme_dir_template)) (target cwd "my-course") = false
  /\ FS.exists_ (fs (world_with readme_dir_template)) (template cwd script_dir) = true
  /\ fst (copytree cwd runaway tpl (P.of_string "my-course") (world_with readme_dir_template))
     = Ok tt
  /\ fst (run "my-course" readme_dir_template)
     = Raise (IsADirectoryError "my-course/README.md")
  /\ fst (run "my-course" readme_dir_template) <> Ok true.
Proof.
  repeat split; try (vm_compute; reflexivity).
  vm_compute. discriminate.
Qed.

(** The run on the full template returns [True]. *)
Lemma create_template_return_value_witness :
  fst (run "my-course" full_template) = Ok true.
Proof.
  apply (proj1 (proj2 (create_template_return_value cwd runaway script_dir RefJson.loads
                         "my-course" good))).
  repeat split; try (vm_compute; reflexivity).
  exists (snd (copytree cwd runaway tpl (P.of_string "my-course") good)).
  vm_compute. reflexivity.
Defined.

(** C4, as first stated, fails on a name with a letter after a digit: the
    letter starts no word, yet it is capitalized. *)
Lemma display_title_not_by_words :
  display_title "cs101a" = "Cs101A"
  /\ display_title_by_words "cs101a" = "Cs101a"
  /\ display_title "cs101a" <> display_title_by_words "cs101a".
Proof.
  repeat split; try (vm_compute; reflexivity).
  vm_compute. discriminate.
Qed.

(** The display title of year9-programming has the length of the name and
    starts with a capital letter. *)
Lemma display_title_python_title_witness :
  String.length (display_title "year9-programming") = 17
  /\ String.get 0 (display_title "year9-programming") = Some "Y"%char.
Proof.
  assert (A : is_ascii "year9-programming" = true) by reflexivity.
  destruct (display_title_python_title "year9-programming" A) as (L & G & _).
  split.
  - etransitivity; [exact L|]. reflexivity.
  - etransitivity; [exact (G 0)|]. vm_compute. reflexivity.
Defined.

(** C6, as first stated, fails in two ways.  With a course.json that can
    be read and not written, the file is at the root of the target and
    decodes to an object, the run returns [True], and the file is left as
    it was copied: the title is not set.  With a course.json that has a
    field in other characters than ASCII, the rewrite goes through and the
    text of that field is not the one it was: the dump escapes the
    character. *)
Lemma course_json_rewrite_not_bytewise :
  (fst (run "my-course" Cases.read_only_template) = Ok true
   /\ RefJson.loads course_json_text = inl (JObject full_members)
   /\ FS.stat (fs (snd (run "my-course" Cases.read_only_template)))
        (in_target "my-course" ["course.json"])
      = Some (EFile (Mode true false) course_json_text)
   /\ Dict.get "title" full_members <> Some (JString (display_title "my-course")))
  /\ (fst (run "my-course" Cases.accented_template) = Ok true
      /\ RefJson.loads Cases.accented_course_json_text
         = inl (JObject Cases.accented_members)
      /\ Cases.occurs Cases.teacher_text Cases.accented_course_json_text = true
      /\ Cases.occurs Cases.teacher_text
           (Cases.text_of
              (FS.stat (fs (snd (run "my-course" Cases.accented_template)))
                 (in_target "my-course" ["course.json"])))
         = false
      /\ Cases.occurs Cases.teacher_text_dumped
           (Cases.text_of
              (FS.stat (fs (snd (run "my-course" Cases.accented_template)))
                 (in_target "my-course" ["course.json"])))
         = true).
Proof.
  repeat split; try (vm_compute; reflexivity).
  vm_compute. discriminate.
Qed.

(** The run on the full template writes the course code MY-COURSE. *)
Lemma course_code_upper_witness :
  exists d',
    FS.stat (fs (snd (run "my-course" full_template)))
      (in_target "my-course" ["course.json"])
    = Some (EFile default_mode (Json.dumps 2 (JObject d')))
    /\ Dict.get "course_code" d' = Some (JString "MY-COURSE").
Proof.
  assert (H1 : FS.exists_ (fs good) (target cwd "my-course") = false)
    by (vm_compute; reflexivity).
  assert (H2 : FS.exists_ (fs good) (template cwd script_dir) = true)
    by (vm_compute; reflexivity).
  assert (H3 : copytree cwd runaway tpl (P.of_string "my-course") good
               = (Ok tt, snd (copytree cwd runaway tpl (P.of_string "my-course") good)))
    by (vm_compute; reflexivity).
  assert (H4 : rewritable RefJson.loads
                 (FS.stat (fs good) (template cwd script_dir ++ ["course.json"]))
               = Some (default_mode, full_members))
    by (vm_compute; reflexivity).
  assert (H0 : is_ascii "my-course" = true) by reflexivity.
  exists (updated_members "my-course" full_members).
  exact (proj1 (course_code_upper cwd runaway script_dir RefJson.loads "my-course" good
                  _ default_mode full_members H0 H1 H2 H3 H4)).
Defined.

(** The run on the full template: title and course_code are set, credits
    is kept. *)
Lemma course_json_rewrite_frame_witness :
  FS.stat (fs (snd (run "my-course" full_template)))
    (in_target "my-course" ["course.json"])
  = Some (EFile default_mode
            (Json.dumps 2
               (JObject [ ("title", JString "My Course");
                          ("course_code", JString "MY-COURSE");
                          ("credits", JInt 3) ]))).
Proof.
  assert (H1 : FS.exists_ (fs good) (target cwd "my-course") = false)
    by (vm_compute; reflexivity).
  assert (H2 : FS.exists_ (fs good) (template cwd script_dir) = true)
    by (vm_compute; reflexivity).
  assert (H3 : copytree cwd runaway tpl (P.of_string "my-course") good
               = (Ok tt, snd (copytree cwd runaway tpl (P.of_string "my-course") good)))
    by (vm_compute; reflexivity).
  assert (H4 : rewritable RefJson.loads
                 (FS.stat (fs good) (template cwd script_dir ++ ["course.json"]))
               = Some (default_mode, full_members))
    by (vm_compute; reflexivity).
  exact (proj1 (course_json_rewrite_frame cwd runaway script_dir RefJson.loads "my-course"
                  good _ default_mode full_members H1 H2 H3 H4)).
Defined.

(** C7, as first stated, fails on a template whose course.json is not JSON
    and whose README.md is a directory: the warning is printed and the
    README step runs, yet the run does not return [True]. *)
Lemma malformed_course_json_may_raise :
  FS.exists_ (fs (world_with malformed_readme_dir_template)) (target cwd "my-course")
  = false
  /\ FS.exists_ (fs (world_with malformed_readme_dir_template))
       (template cwd script_dir) = true
  /\ FS.stat (fs (world_with malformed_readme_dir_template))
       (in_template ["course.json"])
     = Some (EFile default_mode "not json")
  /\ (exists msg, RefJson.loads "not json" = inr msg)
  /\ fst (copytree cwd runaway tpl (P.of_string "my-course")
            (world_with malformed_readme_dir_template)) = Ok tt
  /\ (exists e,
        In ("   ⚠️  Could not update course.json: " ++ Exn.str e)
           (stdout (snd (run "my-course" malformed_readme_dir_template))))
  /\ fst (run "my-course" malformed_readme_dir_template)
     = Raise (IsADirectoryError "my-course/README.md")
  /\ fst (run "my-course" malformed_readme_dir_template) <> Ok true.
Proof.
  repeat split; try (vm_compute; reflexivity).
  - eexists. vm_compute. reflexivity.
  - exists (DecodeError "Expecting value").
    vm_compute. do 9 right. left. reflexivity.
  - vm_compute. discriminate.
Qed.

(** The run on a template whose course.json is not JSON: the file stays
    as copied and the run returns [True]. *)
Lemma course_json_failure_is_warning_witness :
  FS.stat (fs (snd (run "my-course" malformed_template)))
    (in_target "my-course" ["course.json"])
  = Some (EFile default_mode "not json")
  /\ fst (run "my-course" malformed_template) = Ok true.
Proof.
  assert (H1 : FS.exists_ (fs (world_with malformed_template))
                 (target cwd "my-course") = false)
    by (vm_compute; reflexivity).
  assert (H2 : FS.exists_ (fs (world_with malformed_template))
                 (template cwd script_dir) = true)
    by (vm_compute; reflexivity).
  assert (H3 : copytree cwd runaway tpl (P.of_string "my-course")
                 (world_with malformed_template)
               = (Ok tt, snd (copytree cwd runaway tpl (P.of_string "my-course")
                                (world_with malformed_template))))
    by (vm_compute; reflexivity).
  assert (H4 : rewritable RefJson.loads
                 (FS.stat (fs (world_with malformed_template))
                    (template cwd script_dir ++ ["course.json"]))
               = None)
    by (vm_compute; reflexivity).
  destruct (course_json_failure_is_warning cwd runaway script_dir RefJson.loads "my-course"
              (world_with malformed_template) _ H1 H2 H3 H4)
    as (Same & _ & _ & Good & _).
  split.
  - etransitivity; [exact Same|]. vm_compute. reflexivity.
  - apply Good. vm_compute. reflexivity.
Defined.

(** The run on a template with an unreadable file returns [False] and
    leaves the two other files in the target. *)
Lemma create_template_copy_failure_witness :
  fst (run "my-course" unreadable_template) = Ok false
  /\ FS.stat (fs (snd (run "my-course" unreadable_template)))
       (in_target "my-course" ["a.txt"])
     = Some (EFile default_mode "A")
  /\ FS.stat (fs (snd (run "my-course" unreadable_template)))
       (in_target "my-course" ["secret.txt"])
     = None
  /\ FS.stat (fs (snd (run "my-course" unreadable_template)))
       (in_target "my-course" ["b.txt"])
     = Some (EFile default_mode "B").
Proof.
  pose (w := world_with unreadable_template).
  pose (c := copytree cwd runaway tpl (P.of_string "my-course") w).
  assert (H1 : FS.exists_ (fs w) (target cwd "my-course") = false)
    by (vm_compute; reflexivity).
  assert (H2 : FS.exists_ (fs w) (template cwd script_dir) = true)
    by (vm_compute; reflexivity).
  assert (H3 : copytree cwd runaway tpl (P.of_string "my-course") w
               = (Raise (raised (fst c)), snd c))
    by (vm_compute; reflexivity).
  destruct (create_template_copy_failure cwd runaway script_dir RefJson.loads "my-course"
              w _ _ H1 H2 H3) as [E _].
  unfold run. fold w. rewrite E. simpl fst. simpl snd. simpl fs.
  repeat split; vm_compute; reflexivity.
Defined.

(** The README of my-course holds My Course and my-course. *)
Lemma readme_contains_title_and_name_witness :
  Str.Substring "My Course" (readme_content "my-course")
  /\ Str.Substring "my-course" (readme_content "my-course").
Proof.
  assert (H : create_template cwd runaway script_dir RefJson.loads "my-course" good
              = (Ok true, snd (run "my-course" full_template)))
    by (vm_compute; reflexivity).
  exact (proj2 (readme_contains_title_and_name cwd runaway script_dir RefJson.loads
                  "my-course" good _ H)).
Defined.

(** The run on a template whose README.md is a directory raises, and the
    copied files are in the target. *)
Lemma readme_write_failure_propagates_witness :
  fst (run "my-course" readme_dir_template)
  = Raise (IsADirectoryError "my-course/README.md")
  /\ FS.stat (fs (snd (run "my-course" readme_dir_template)))
       (in_target "my-course" ["modules.json"])
     = Some (EFile default_mode "[]").
Proof.
  pose (w := world_with readme_dir_template).
  assert (H1 : FS.exists_ (fs w) (target cwd "my-course") = false)
    by (vm_compute; reflexivity).
  assert (H2 : FS.exists_ (fs w) (template cwd script_dir) = true)
    by (vm_compute; reflexivity).
  assert (H3 : copytree cwd runaway tpl (P.of_string "my-course") w
               = (Ok tt, snd (copytree cwd runaway tpl (P.of_string "my-course") w)))
    by (vm_compute; reflexivity).
  assert (H4 : can_write (FS.stat (fs w) (template cwd script_dir ++ ["README.md"]))
               = false)
    by (vm_compute; reflexivity).
  destruct (readme_write_failure_propagates cwd runaway script_dir RefJson.loads "my-course"
              w _ H1 H2 H3 H4) as (_ & R & _ & _ & T & _).
  split.
  - etransitivity; [exact R|]. vm_compute. reflexivity.
  - etransitivity; [apply T; discriminate|]. vm_compute. reflexivity.
Defined.

(** ** More on the tree *)

Lemma strip_prefix_app p r : FS.strip_prefix p (p ++ r) = Some r.
Proof.
  induction p as [|x p IH]; simpl; [reflexivity|].
  now rewrite String.eqb_refl.
Qed.

Lemma strip_prefix_some p q r : FS.strip_prefix p q = Some r -> q = (p ++ r)%list.
Proof.
  revert q. induction p as [|x p IH]; intros q H; simpl in *.
  - now inversion H.
  - destruct q as [|y q]; [discriminate|].
    destruct (String.eqb x y) eqn:E; [|discriminate].
    apply String.eqb_eq in E. subst y. f_equal. auto.
Qed.

(** Putting a node at a place leaves what was elsewhere: a place that is
    not at or below the new node keeps what it held. *)
Lemma stat_graft_frame n p new n' q e :
  FS.graft n p new = Some n' ->
  FS.strip_prefix p q = None ->
  FS.stat n q = Some e ->
  FS.stat n' q = Some e.
Proof.
  unfold FS.stat.
  revert n n' q. induction p as [|x p IH]; intros n n' q G Hq S; simpl in *.
  - discriminate.
  - destruct n as [m0 d0|es]; [discriminate|].
    destruct (FS.graft _ p new) as [c'|] eqn:G'; [|discriminate].
    inversion G; subst n'; clear G.
    destruct q as [|y q]; [exact S|]. simpl in *.
    destruct (String.eqb x y) eqn:Exy.
    + apply String.eqb_eq in Exy. subst y. rewrite dict_get_set_same.
      destruct (Dict.get x es) as [c|] eqn:Ec; [|discriminate].
      eapply IH; eauto.
    + rewrite dict_get_set_other; auto.
      intros ->. now rewrite String.eqb_refl in Exy.
Qed.

(** The directories on the way to a new node are there afterwards. *)
Lemma stat_graft_parents n p new n' q :
  FS.graft n p new = Some n' ->
  Tree.proper_prefix q p ->
  FS.stat n' q = Some EDir.
Proof.
  unfold FS.stat. intros G (rest & Hrest & ->).
  revert n n' G. induction q as [|y q IH]; intros n n' G; simpl in *.
  - destruct rest as [|x rest]; [congruence|]. simpl in G.
    destruct n as [m0 d0|es]; [discriminate|].
    destruct (FS.graft _ rest new); [|discriminate].
    now inversion G.
  - destruct n as [m0 d0|es]; [discriminate|].
    destruct (FS.graft _ (q ++ rest) new) as [c'|] eqn:G'; [|discriminate].
    inversion G; subst n'; clear G. simpl.
    rewrite dict_get_set_same. eauto.
Qed.

(** A place below a regular file does not exist and cannot be made. *)
Lemma below_file n q rest m data :
  FS.lookup n q = Some (File m data) ->
  rest <> [] ->
  FS.lookup n (q ++ rest) = None
  /\ forall new, FS.graft n (q ++ rest) new = None.
Proof.
  revert n. induction q as [|y q IH]; intros n L Hrest; simpl in *.
  - inversion L; subst n. split.
    + now apply lookup_below_file.
    + intros new. destruct rest; [congruence|reflexivity].
  - destruct n as [m0 d0|es]; [discriminate|].
    destruct (Dict.get y es) as [c|] eqn:Ec; [|discriminate].
    destruct (IH c L Hrest) as [Hl Hg].
    split; [exact Hl|]. intros new. now rewrite Hg.
Qed.

(** Whether a node can be put at a place does not depend on the node. *)
Lemma graft_any n p a b n' :
  FS.graft n p a = Some n' -> exists n'', FS.graft n p b = Some n''.
Proof.
  revert n n'. induction p as [|x p IH]; intros n n' G; simpl in *.
  - eauto.
  - destruct n as [m0 d0|es]; [discriminate|].
    destruct (FS.graft _ p a) as [c'|] eqn:G'; [|discriminate].
    destruct (IH _ _ G') as [c'' ->]. eauto.
Qed.

Lemma not_below p q rest : FS.strip_prefix p q = None -> q <> (p ++ rest)%list.
Proof. intros H ->. now rewrite strip_prefix_app in H. Qed.

Lemma below_missing n p q e :
  FS.exists_ n p = false -> FS.stat n q = Some e -> FS.strip_prefix p q = None.
Proof.
  intros E S. destruct (FS.strip_prefix p q) as [r|] eqn:H; [|reflexivity].
  apply strip_prefix_some in H. subst q.
  unfold FS.stat in S. rewrite lookup_app in S.
  unfold FS.exists_ in E. destruct (FS.lookup n p); discriminate.
Qed.

(** ** More on the run *)

Section MoreRuns.

Variable cwd : location.
Variable runaway : node -> Path -> Path -> exn * node.
Variable script_dir : Path.
Variable json_loads : string -> json + string.

Abbreviation run_create := (create_template cwd runaway script_dir json_loads).
Abbreviation template_path := (script_dir // "canvas-course-template").
Abbreviation target_of := (target cwd).
Abbreviation template_at := (template cwd script_dir).

Lemma copy_node_dir_some src dst es errors :
  copy_node src dst (Dir es) <> (None, errors).
Proof.
  unfold copy_node. fold copy_node.
  match goal with |- context [let '(_, _) := ?e in _] => destruct e end.
  discriminate.
Qed.

(** The three ways of a copy: it stops on an error of the system before it
    makes anything, it puts what it could copy at the destination, or it
    runs into its own source. *)
Lemma copytree_cases src dst w r w1 :
  copytree cwd runaway src dst w = (r, w1) ->
  (fs w1 = fs w /\ exists errno strerror filename,
                     r = Raise (OSError errno strerror filename))
  \/ (exists es copy errors,
        FS.lookup (fs w) (resolve cwd src) = Some (Dir es)
        /\ FS.exists_ (fs w) (resolve cwd dst) = false
        /\ FS.into_itself es (resolve cwd src) (resolve cwd dst) = false
        /\ copy_node src dst (Dir es) = (Some copy, errors)
        /\ FS.graft (fs w) (resolve cwd dst) copy = Some (fs w1)
        /\ r = match errors with
               | [] => Ok tt
               | _ :: _ => Raise (ShutilError errors)
               end)
  \/ (exists es,
        FS.lookup (fs w) (resolve cwd src) = Some (Dir es)
        /\ FS.exists_ (fs w) (resolve cwd dst) = false
        /\ FS.into_itself es (resolve cwd src) (resolve cwd dst) = true).
Proof.
  unfold copytree. run.
  destruct (FS.lookup (fs w) (resolve cwd src)) as [[m d|es]|];
    try (intros H; inversion H; subst; left; split; [reflexivity|];
         unfold FileNotFoundError, NotADirectoryError; eauto).
  destruct (FS.exists_ (fs w) (resolve cwd dst)) eqn:E;
    try (intros H; inversion H; subst; left; split; [reflexivity|];
         unfold FileExistsError; eauto).
  destruct (FS.into_itself es (resolve cwd src) (resolve cwd dst)) eqn:I.
  { intros _. right. right. eauto. }
  destruct (copy_node src dst (Dir es)) as [[copy|] errors] eqn:Cn;
    [|now apply copy_node_dir_some in Cn].
  destruct (FS.graft (fs w) (resolve cwd dst) copy) as [root'|] eqn:G;
    try (intros H; inversion H; subst; left; split; [reflexivity|];
         unfold NotADirectoryError; eauto).
  intros H. right. left. exists es, copy, errors.
  destruct errors; inversion H; subst; simpl; repeat split; auto.
Qed.

Lemma not_into_itself es src dst :
  FS.strip_prefix src dst = None -> FS.into_itself es src dst = false.
Proof. unfold FS.into_itself. now intros ->. Qed.

(** The files when a run ends after a copy without failure, in terms of
    the files the copy left: course.json and README.md of the target apart,
    every place holds what the copy left there. *)
Lemma after_copy_frame output_dir w w1 :
  FS.exists_ (fs w) (target_of output_dir) = false ->
  FS.exists_ (fs w) template_at = true ->
  copytree cwd runaway template_path (P.of_string output_dir) w = (Ok tt, w1) ->
  forall q,
    q <> (target_of output_dir ++ ["course.json"])%list ->
    q <> (target_of output_dir ++ ["README.md"])%list ->
    FS.stat (fs (snd (run_create output_dir w))) q = FS.stat (fs w1) q.
Proof.
  intros E1 E2 C q Hcj Hrd.
  destruct (create_template_after_copy _ _ _ json_loads _ _ _ E1 E2 C)
    as (root3 & out2 & out3 & _ & _ & _ & U & Hend).
  destruct (update_course_json_spec cwd json_loads output_dir
              (P.of_string output_dir) (World (fs w1) out2))
    as (root3' & out3' & U' & _ & Frame).
  rewrite U in U'. inversion U'; subst root3' out3'; clear U'.
  simpl in Frame.
  destruct (can_write _).
  - destruct Hend as (root4 & more & Hr & _ & Frame4). rewrite Hr. simpl.
    rewrite Frame4 by exact Hrd. now apply Frame.
  - destruct Hend as (more & Hr). rewrite Hr. simpl. now apply Frame.
Qed.

(** X1.  Whatever the outcome of the run, a file or directory that was
    there before is there afterwards, with its kind, mode and content;
    this holds as soon as the target does not lie inside the template. *)
Theorem existing_places_kept output_dir w q e :
  FS.strip_prefix template_at (target_of output_dir) = None ->
  FS.stat (fs w) q = Some e ->
  FS.stat (fs (snd (run_create output_dir w))) q = Some e.
Proof.
  intros Hout S.
  destruct (FS.exists_ (fs w) (target_of output_dir)) eqn:E1.
  { now rewrite (create_template_target_exists _ _ _ _ _ _ E1). }
  destruct (FS.exists_ (fs w) template_at) eqn:E2.
  2:{ now rewrite (create_template_template_missing _ _ _ _ _ _ E1 E2). }
  pose proof (below_missing _ _ _ _ E1 S) as Hq.
  destruct (copytree cwd runaway template_path (P.of_string output_dir) w)
    as [r w1] eqn:C.
  assert (S1 : FS.stat (fs w1) q = Some e).
  { destruct (copytree_cases _ _ _ _ _ C)
      as [[Same _]|[(es & copy & errors & _ & _ & _ & _ & G & _)|(es & _ & _ & I)]].
    - now rewrite Same.
    - eapply stat_graft_frame; eauto.
    - fold template_at in I. fold (target_of output_dir) in I.
      now rewrite not_into_itself in I. }
  destruct r as [[]|err].
  - rewrite (after_copy_frame _ _ _ E1 E2 C); auto using not_below.
  - now rewrite (create_template_to_copy _ _ _ _ _ _ _ _ E1 E2 C).
Qed.

Lemma proper_prefix_not_child q p name :
  Tree.proper_prefix q p -> q <> (p ++ [name])%list.
Proof.
  intros (rest & Hrest & ->) E.
  apply (f_equal (@List.length string)) in E.
  rewrite !length_app in E. simpl in E.
  destruct rest; [congruence|simpl in E; lia].
Qed.

Lemma not_own_child {A : Type} (p : list A) (x : A) : p <> (p ++ [x])%list.
Proof.
  intros E. apply (f_equal (@List.length A)) in E.
  rewrite length_app in E. simpl in E. lia.
Qed.

(** After a copy without failure the target is there when the run ends. *)
Lemma target_made output_dir w w1 :
  FS.exists_ (fs w) (target_of output_dir) = false ->
  FS.exists_ (fs w) template_at = true ->
  copytree cwd runaway template_path (P.of_string output_dir) w = (Ok tt, w1) ->
  FS.stat (fs (snd (run_create output_dir w))) (target_of output_dir) = Some EDir.
Proof.
  intros E1 E2 C.
  rewrite (after_copy_frame _ _ _ E1 E2 C); auto using not_own_child.
  destruct (copied_tree _ _ _ _ _ _ C) as [Td Tree].
  specialize (Tree []). rewrite !app_nil_r in Tree.
  fold (target_of output_dir) in Tree. now rewrite Tree.
Qed.

(** A run that did not return [False] copied without failure. *)
Lemma not_false_copied output_dir w :
  fst (run_create output_dir w) <> Ok false ->
  FS.exists_ (fs w) (target_of output_dir) = false
  /\ FS.exists_ (fs w) template_at = true
  /\ exists w1,
       copytree cwd runaway template_path (P.of_string output_dir) w = (Ok tt, w1).
Proof.
  intros H.
  destruct (FS.exists_ (fs w) (target_of output_dir)) eqn:E1.
  { rewrite (create_template_target_exists _ _ _ _ _ _ E1) in H. now elim H. }
  destruct (FS.exists_ (fs w) template_at) eqn:E2.
  2:{ rewrite (create_template_template_missing _ _ _ _ _ _ E1 E2) in H.
      now elim H. }
  destruct (copytree cwd runaway template_path (P.of_string output_dir) w)
    as [r w1] eqn:C.
  destruct r as [[]|e]; [eauto|].
  rewrite (create_template_to_copy _ _ _ _ _ _ _ _ E1 E2 C) in H. now elim H.
Qed.

(** X2.  After a run that returned [True], or that raised when it wrote
    the README, a second run with the same name returns [False], says that
    the directory exists and changes no file. *)
Theorem second_run_refused output_dir w :
  fst (create_template cwd runaway script_dir json_loads output_dir w) <> Ok false ->
  let w' := snd (create_template cwd runaway script_dir json_loads output_dir w) in
  create_template cwd runaway script_dir json_loads output_dir w'
  = (Ok false,
     World (fs w')
       (stdout w'
        ++ ["❌ Error: Directory '" ++ output_dir ++ "' already exists!";
            "   Please choose a different name or remove the existing directory."])).
Proof.
  intros H w'.
  destruct (not_false_copied _ _ H) as (E1 & E2 & w1 & C).
  apply create_template_target_exists.
  eapply exists_true. unfold w'. apply (target_made _ _ _ E1 E2 C).
Qed.

(** X3.  When the copy fails on files it could not copy, the target is
    left behind as a directory, and a second run with the same name is
    refused for that reason: it returns [False] and changes no file. *)
Theorem partial_copy_blocks_rerun output_dir w errors :
  FS.exists_ (fs w) (target_of output_dir) = false ->
  FS.exists_ (fs w) template_at = true ->
  FS.strip_prefix template_at (target_of output_dir) = None ->
  fst (copytree cwd runaway template_path (P.of_string output_dir) w)
  = Raise (ShutilError errors) ->
  let w' := snd (run_create output_dir w) in
  fst (run_create output_dir w) = Ok false
  /\ FS.stat (fs w') (target_of output_dir) = Some EDir
  /\ run_create output_dir w'
     = (Ok false,
        World (fs w')
          (stdout w'
           ++ ["❌ Error: Directory '" ++ output_dir ++ "' already exists!";
               "   Please choose a different name or remove the existing directory."])).
Proof.
  intros E1 E2 Hout C w'.
  destruct (copytree cwd runaway template_path (P.of_string output_dir) w)
    as [r w1] eqn:Cr.
  simpl in C. subst r.
  assert (T : FS.stat (fs w1) (target_of output_dir) = Some EDir).
  { destruct (copytree_cases _ _ _ _ _ Cr)
      as [[_ (n & s1 & s2 & Hr)]
         |[(es & copy & errs & _ & _ & _ & Cn & G & _)|(es & _ & _ & I)]].
    - discriminate.
    - apply stat_dir.
      unfold copy_node in Cn. fold copy_node in Cn.
      match type of Cn with
      | context [let '(_, _) := ?e in _] => destruct e as [es' errs']
      end.
      inversion Cn; subst copy. exists es'. unfold target.
      rewrite <- (app_nil_r (resolve cwd (P.of_string output_dir))).
      now rewrite (lookup_graft _ _ _ _ [] G).
    - fold template_at in I. fold (target_of output_dir) in I.
      now rewrite not_into_itself in I. }
  assert (R : run_create output_dir w
              = (Ok false,
                 World (fs w1)
                   (stdout w ++ banner script_dir output_dir
                    ++ ["❌ Error copying template: "
                        ++ Exn.str (ShutilError errors)])))
    by apply (create_template_to_copy _ _ _ _ _ _ _ _ E1 E2 Cr).
  unfold w'. rewrite R. simpl fst. simpl snd.
  split; [reflexivity|split; [exact T|]].
  apply create_template_target_exists. simpl. eapply exists_true. exact T.
Qed.

(** X4.  After a run that returned [True], every directory on the way to
    the target is there: a name with slashes makes the directories it
    passes through. *)
Theorem parents_are_made output_dir w q :
  fst (run_create output_dir w) = Ok true ->
  Tree.proper_prefix q (target_of output_dir) ->
  FS.stat (fs (snd (run_create output_dir w))) q = Some EDir.
Proof.
  intros H Hq.
  destruct (not_false_copied output_dir w) as (E1 & E2 & w1 & C).
  { rewrite H. discriminate. }
  rewrite (after_copy_frame _ _ _ E1 E2 C); auto using proper_prefix_not_child.
  destruct (copytree_ok _ _ _ _ _ _ C) as (_ & _ & es & _ & G).
  eapply stat_graft_parents; eauto.
Qed.

(** X5.  When a place on the way to the target is a regular file, the run
    returns [False] and changes no file, whatever the template is. *)
Theorem target_below_file output_dir w q m data :
  Tree.proper_prefix q (target_of output_dir) ->
  FS.stat (fs w) q = Some (EFile m data) ->
  FS.strip_prefix template_at (target_of output_dir) = None ->
  fst (run_create output_dir w) = Ok false
  /\ fs (snd (run_create output_dir w)) = fs w.
Proof.
  intros (rest & Hrest & Ht) S Hout.
  apply stat_file in S.
  destruct (below_file _ _ _ _ _ S Hrest) as [L G]. rewrite <- Ht in L, G.
  assert (E1 : FS.exists_ (fs w) (target_of output_dir) = false)
    by (unfold FS.exists_; now rewrite L).
  destruct (FS.exists_ (fs w) template_at) eqn:E2.
  2:{ now rewrite (create_template_template_missing _ _ _ _ _ _ E1 E2). }
  destruct (copytree cwd runaway template_path (P.of_string output_dir) w)
    as [r w1] eqn:C.
  destruct (copytree_cases _ _ _ _ _ C)
    as [[Same (n & s1 & s2 & ->)]
       |[(es & copy & errs & _ & _ & _ & _ & G' & _)|(es & _ & _ & I)]].
  - now rewrite (create_template_to_copy _ _ _ _ _ _ _ _ E1 E2 C).
  - fold (target_of output_dir) in G'. rewrite G in G'. discriminate.
  - fold template_at in I. fold (target_of output_dir) in I.
    now rewrite not_into_itself in I.
Qed.

(** X6.  When the template is there as a regular file, the run prints the
    error of listing it, returns [False] and changes no file. *)
Theorem template_not_a_directory output_dir w m data :
  FS.exists_ (fs w) (target_of output_dir) = false ->
  FS.stat (fs w) template_at = Some (EFile m data) ->
  run_create output_dir w
  = (Ok false,
     World (fs w)
       (stdout w ++ banner script_dir output_dir
        ++ ["❌ Error copying template: [Errno 20] Not a directory: "
            ++ Exn.repr (P.str template_path)])).
Proof.
  intros E1 S.
  assert (E2 : FS.exists_ (fs w) template_at = true) by (eapply exists_true; eauto).
  apply stat_file in S.
  assert (C : copytree cwd runaway template_path (P.of_string output_dir) w
              = (Raise (NotADirectoryError (P.str template_path)), w)).
  { unfold copytree. run. fold template_at. now rewrite S. }
  rewrite (create_template_to_copy _ _ _ _ _ _ _ _ E1 E2 C). reflexivity.
Qed.

(** X7.  A name without parts (the empty name, a dot, dots and slashes)
    names the working directory: the run says that it exists, returns
    [False] and changes no file. *)
Theorem name_without_parts output_dir w :
  P.of_string output_dir = MkPath false [] ->
  FS.exists_ (fs w) cwd = true ->
  run_create output_dir w
  = (Ok false,
     World (fs w)
       (stdout w
        ++ ["❌ Error: Directory '" ++ output_dir ++ "' already exists!";
            "   Please choose a different name or remove the existing directory."])).
Proof.
  intros Hp Hc. apply create_template_target_exists.
  unfold target, resolve. rewrite Hp. simpl. now rewrite app_nil_r.
Qed.

(** A copy records no failure exactly when every file can be read. *)
Lemma copy_node_errors n :
  forall src dst, snd (copy_node src dst n) = [] <-> Tree.all_readable n = true.
Proof.
  induction n as [m data|es IH] using node_induction; intros src dst.
  - unfold copy_node. simpl. destruct (readable m); simpl; split; congruence.
  - unfold copy_node. fold copy_node. simpl Tree.all_readable.
    match goal with
    | |- context [let '(_, _) := ?e in _] => destruct e as [es' errors] eqn:E
    end.
    simpl. revert es' errors E.
    induction IH as [|[x c] l Hc Hl IHl]; intros es' errors E.
    + inversion E. tauto.
    + simpl in Hc.
      destruct (copy_node (src // x) (dst // x) c) as [c' e1] eqn:Ec.
      match type of E with
      | context [let '(_, _) := ?e in _] => destruct e as [l'' e2] eqn:El
      end.
      inversion E; subst; clear E.
      specialize (Hc (src // x) (dst // x)). rewrite Ec in Hc. simpl in Hc.
      specialize (IHl _ _ eq_refl).
      rewrite andb_true_iff, <- Hc, <- IHl.
      split.
      * intros H. apply app_eq_nil in H. exact H.
      * intros [-> ->]. reflexivity.
Qed.

Lemma graft_possible n p new :
  (forall q m data, Tree.proper_prefix q p -> FS.stat n q <> Some (EFile m data)) ->
  exists n', FS.graft n p new = Some n'.
Proof.
  revert n. induction p as [|x p IH]; intros n H; simpl.
  - eauto.
  - destruct n as [m0 d0|es].
    + exfalso. apply (H [] m0 d0); [|reflexivity].
      exists (x :: p). split; [discriminate|reflexivity].
    + destruct (IH (match Dict.get x es with Some c => c | None => Dir [] end))
        as [c' ->]; [|eauto].
      intros q m data (rest & Hrest & ->) S.
      apply (H (x :: q) m data).
      * exists rest. split; [exact Hrest|reflexivity].
      * unfold FS.stat in *. simpl.
        destruct (Dict.get x es) as [c|]; [exact S|].
        destruct q; simpl in S; discriminate.
Qed.

(** X8.  When the target can be made (it is not there, no place on the way
    to it is a regular file, it does not lie inside the template) and the
    template is a directory, the run returns [False] exactly when some file
    of the template cannot be read. *)
Theorem copy_fails_iff_unreadable output_dir w es :
  FS.exists_ (fs w) (target_of output_dir) = false ->
  (forall q m data, Tree.proper_prefix q (target_of output_dir) ->
                    FS.stat (fs w) q <> Some (EFile m data)) ->
  FS.strip_prefix template_at (target_of output_dir) = None ->
  FS.lookup (fs w) template_at = Some (Dir es) ->
  (fst (run_create output_dir w) = Ok false <-> Tree.all_readable (Dir es) = false).
Proof.
  intros E1 Hway Hout L.
  assert (E2 : FS.exists_ (fs w) template_at = true)
    by (unfold FS.exists_; now rewrite L).
  destruct (copytree cwd runaway template_path (P.of_string output_dir) w)
    as [r w1] eqn:C.
  destruct (copytree_cases _ _ _ _ _ C)
    as [[Same (n & s1 & s2 & Hr)]
       |[(es0 & copy & errs & L0 & _ & _ & Cn & G & Hr)|(es0 & _ & _ & I)]].
  - (* the copy cannot stop before it makes the target *)
    exfalso. clear Same. subst r. revert C. unfold copytree. run.
    fold template_at. fold (target_of output_dir). rewrite L, E1.
    rewrite not_into_itself by exact Hout.
    destruct (copy_node template_path (P.of_string output_dir) (Dir es))
      as [[copy|] errs] eqn:Cn; [|now apply copy_node_dir_some in Cn].
    destruct (graft_possible (fs w) (target_of output_dir) copy Hway) as [root' ->].
    destruct errs; discriminate.
  - fold template_at in L0. rewrite L in L0. inversion L0; subst es0; clear L0.
    pose proof (copy_node_errors (Dir es) template_path (P.of_string output_dir))
      as Hiff.
    rewrite Cn in Hiff. cbn [snd] in Hiff.
    destruct errs as [|err errs].
    + subst r.
      destruct (create_template_after_copy _ _ _ json_loads _ _ _ E1 E2 C)
        as (root3 & out2 & out3 & _ & _ & _ & _ & Hend).
      assert (Hne : fst (run_create output_dir w) <> Ok false).
      { destruct (can_write _).
        - destruct Hend as (root4 & more & -> & _). discriminate.
        - destruct Hend as (more & ->). discriminate. }
      split; [intros H; contradiction|].
      intros H. rewrite (proj1 Hiff eq_refl) in H. discriminate.
    + subst r. rewrite (create_template_to_copy _ _ _ _ _ _ _ _ E1 E2 C).
      cbn [fst]. split; [|reflexivity]. intros _.
      destruct (Tree.all_readable (Dir es)); [|reflexivity].
      destruct Hiff as [_ Hiff]. specialize (Hiff eq_refl). discriminate.
  - fold template_at in I. fold (target_of output_dir) in I.
    now rewrite not_into_itself in I.
Qed.

Lemma dict_get_absent {V : Type} (x : string) (l : list (string * V)) :
  List.existsb (String.eqb x) (List.map fst l) = false -> Dict.get x l = None.
Proof.
  induction l as [|[y v] l IH]; simpl; [reflexivity|].
  intros H. apply orb_false_iff in H. destruct H as [Hxy Hl].
  rewrite String.eqb_sym, Hxy. auto.
Qed.

(** What a copy holds at a place: what the source holds there, files that
    cannot be read apart. *)
Lemma copy_node_visible n :
  Tree.well_formed n = true ->
  forall src dst copy errors,
    copy_node src dst n = (Some copy, errors) ->
    forall rel, FS.stat copy rel = Tree.visible (FS.stat n rel).
Proof.
  induction n as [m data|es IH] using node_induction; intros Wf src dst copy errors.
  - unfold copy_node. destruct (readable m) eqn:R; [|discriminate].
    intros H; inversion H; subst; clear H. intros rel.
    destruct rel; unfold FS.stat; simpl; [now rewrite R|reflexivity].
  - unfold copy_node. fold copy_node.
    match goal with
    | |- context [let '(_, _) := ?e in _] => destruct e as [es' errs] eqn:E
    end.
    intros H; inversion H; subst; clear H.
    intros [|x rel]; [reflexivity|].
    unfold FS.stat. simpl FS.lookup.
    simpl in Wf. apply andb_true_iff in Wf. destruct Wf as [Hd Hw].
    revert es' errors E Hd Hw.
    induction IH as [|[y c] l Hc Hl IHl]; intros es' errors E Hd Hw.
    + inversion E. reflexivity.
    + simpl in Hc.
      destruct (copy_node (src // y) (dst // y) c) as [c' e1] eqn:Ec.
      match type of E with
      | context [let '(_, _) := ?e in _] => destruct e as [l'' e2] eqn:El
      end.
      inversion E; subst; clear E.
      simpl in Hd. apply andb_true_iff in Hd. destruct Hd as [Hy Hd].
      apply negb_true_iff in Hy.
      apply andb_true_iff in Hw. destruct Hw as [Hwc Hw].
      specialize (IHl _ _ eq_refl Hd Hw).
      simpl Dict.get at 2.
      destruct (String.eqb y x) eqn:Eyx.
      * apply String.eqb_eq in Eyx. subst y.
        destruct c' as [k|].
        -- simpl. rewrite String.eqb_refl.
           apply (Hc Hwc _ _ _ _ Ec rel).
        -- (* the entry is a file that cannot be read *)
           rewrite IHl, (dict_get_absent _ _ Hy). simpl.
           destruct c as [m0 d0|es0].
           ++ unfold copy_node in Ec. destruct (readable m0) eqn:R; [discriminate|].
              destruct rel; simpl; [now rewrite R|reflexivity].
           ++ now apply copy_node_dir_some in Ec.
      * destruct c' as [k|].
        -- simpl. rewrite Eyx. exact IHl.
        -- exact IHl.
Qed.

(** X9.  After a copy that failed on files it could not copy, the target
    holds every directory and every readable file of the template, with the
    mode and the content they have there, and nothing else; the template is
    taken with one entry a name in every directory, and the target outside
    it. *)
Theorem partial_copy_content output_dir w es errors :
  FS.exists_ (fs w) (target_of output_dir) = false ->
  FS.lookup (fs w) template_at = Some (Dir es) ->
  Tree.well_formed (Dir es) = true ->
  FS.strip_prefix template_at (target_of output_dir) = None ->
  fst (copytree cwd runaway template_path (P.of_string output_dir) w)
  = Raise (ShutilError errors) ->
  forall rel,
    FS.stat (fs (snd (run_create output_dir w))) (target_of output_dir ++ rel)
    = Tree.visible (FS.stat (fs w) (template_at ++ rel)).
Proof.
  intros E1 L Wf Hout C rel.
  assert (E2 : FS.exists_ (fs w) template_at = true)
    by (unfold FS.exists_; now rewrite L).
  destruct (copytree cwd runaway template_path (P.of_string output_dir) w)
    as [r w1] eqn:Cr.
  simpl in C. subst r.
  rewrite (create_template_to_copy _ _ _ _ _ _ _ _ E1 E2 Cr). cbn [snd fs].
  destruct (copytree_cases _ _ _ _ _ Cr)
    as [[_ (n & s1 & s2 & Hr)]
       |[(es0 & copy & errs & L0 & _ & _ & Cn & G & _)|(es0 & _ & _ & I)]].
  - discriminate.
  - fold template_at in L0. rewrite L in L0. inversion L0; subst es0; clear L0.
    unfold FS.stat at 1. unfold target.
    rewrite (lookup_graft _ _ _ _ rel G).
    change (option_map FS.entry_of (FS.lookup copy rel)) with (FS.stat copy rel).
    rewrite (copy_node_visible (Dir es) Wf _ _ _ _ Cn rel).
    unfold FS.stat. now rewrite lookup_app, L.
  - fold template_at in I. fold (target_of output_dir) in I.
    now rewrite not_into_itself in I.
Qed.

(** ** More on names, titles and codes *)

Ltac each_ascii c :=
  destruct c as [b0 b1 b2 b3 b4 b5 b6 b7];
  destruct b0, b1, b2, b3, b4, b5, b6, b7; reflexivity.

Lemma to_upper_twice c : Str.to_upper (Str.to_upper c) = Str.to_upper c.
Proof. each_ascii c. Qed.

Lemma to_lower_twice c : Str.to_lower (Str.to_lower c) = Str.to_lower c.
Proof. each_ascii c. Qed.

Lemma to_upper_lower c : Str.to_upper (Str.to_lower c) = Str.to_upper c.
Proof. each_ascii c. Qed.

Lemma to_upper_cased c : Str.is_cased (Str.to_upper c) = Str.is_cased c.
Proof. each_ascii c. Qed.

Lemma to_lower_cased c : Str.is_cased (Str.to_lower c) = Str.is_cased c.
Proof. each_ascii c. Qed.

Lemma to_upper_not_lower c : Str.is_lower (Str.to_upper c) = false.
Proof. each_ascii c. Qed.

Lemma to_space_twice c : to_space (to_space c) = to_space c.
Proof. each_ascii c. Qed.

Lemma to_space_upper c : to_space (Str.to_upper c) = Str.to_upper (to_space c).
Proof. each_ascii c. Qed.

Lemma to_space_lower c : to_space (Str.to_lower c) = Str.to_lower (to_space c).
Proof. each_ascii c. Qed.

Lemma no_separator_upper c :
  Ascii.eqb "-" (Str.to_upper (to_space c)) = false
  /\ Ascii.eqb "_" (Str.to_upper (to_space c)) = false.
Proof. split; each_ascii c. Qed.

Lemma no_separator_lower c :
  Ascii.eqb "-" (Str.to_lower (to_space c)) = false
  /\ Ascii.eqb "_" (Str.to_lower (to_space c)) = false.
Proof. split; each_ascii c. Qed.

Lemma str_map_ext f g s : (forall c, f c = g c) -> Str.map f s = Str.map g s.
Proof. intros H. induction s as [|c s IH]; simpl; congruence. Qed.

Lemma title_from_twice b s :
  Str.title_from b (Str.title_from b s) = Str.title_from b s.
Proof.
  revert b. induction s as [|c s IH]; intros b; simpl; [reflexivity|].
  destruct b.
  - now rewrite to_lower_twice, to_lower_cased, IH.
  - now rewrite to_upper_twice, to_upper_cased, IH.
Qed.

Lemma title_from_to_space b s :
  Str.map to_space (Str.title_from b s) = Str.title_from b (Str.map to_space s).
Proof.
  revert b. induction s as [|c s IH]; intros b; simpl; [reflexivity|].
  rewrite IH, to_space_cased.
  destruct b; now rewrite ?to_space_lower, ?to_space_upper.
Qed.

Lemma upper_title_from b s : Str.upper (Str.title_from b s) = Str.upper s.
Proof.
  unfold Str.upper. revert b.
  induction s as [|c s IH]; intros b; simpl; [reflexivity|].
  rewrite IH. destruct b; now rewrite ?to_upper_lower, ?to_upper_twice.
Qed.

Lemma contains_char_cons c d s :
  Str.contains_char c (String d s) = Ascii.eqb c d || Str.contains_char c s.
Proof. reflexivity. Qed.

Lemma title_from_cons b c s :
  Str.title_from b (String c s)
  = String (if b then Str.to_lower c else Str.to_upper c)
      (Str.title_from (Str.is_cased c) s).
Proof. reflexivity. Qed.

Lemma title_from_no_separator b s :
  Str.contains_char "-" (Str.title_from b (Str.map to_space s)) = false
  /\ Str.contains_char "_" (Str.title_from b (Str.map to_space s)) = false.
Proof.
  revert b. induction s as [|c s IH]; intros b; [split; reflexivity|].
  change (Str.map to_space (String c s))
    with (String (to_space c) (Str.map to_space s)).
  rewrite title_from_cons, !contains_char_cons.
  destruct (IH (Str.is_cased (to_space c))) as [H1 H2]. rewrite H1, H2.
  destruct (no_separator_upper c) as [U1 U2].
  destruct (no_separator_lower c) as [L1 L2].
  destruct b; rewrite ?U1, ?U2, ?L1, ?L2; split; reflexivity.
Qed.

(** X10.  For a name in ASCII, where the case conversion of the model is
    the one of Python: computing the display title of a display title
    changes nothing, and a display title holds neither a hyphen nor an
    underscore. *)
Theorem display_title_settled output_dir :
  is_ascii output_dir = true ->
  display_title (display_title output_dir) = display_title output_dir
  /\ Str.contains_char "-" (display_title output_dir) = false
  /\ Str.contains_char "_" (display_title output_dir) = false.
Proof.
  intros _. unfold display_title. rewrite !replace_separators. unfold Str.title.
  split; [|apply title_from_no_separator].
  rewrite title_from_to_space, str_map_map.
  rewrite (str_map_ext _ to_space) by apply to_space_twice.
  apply title_from_twice.
Qed.

(** X11.  For a name in ASCII, the course code and the display title are
    two spellings of one name: the title in upper case is the code with
    its separators turned into spaces.  The code holds no lower-case
    letter, and upper-casing it again changes nothing. *)
Theorem course_code_matches_title output_dir :
  is_ascii output_dir = true ->
  Str.upper (display_title output_dir) = Str.map to_space (Str.upper output_dir)
  /\ (forall i c, String.get i (Str.upper output_dir) = Some c ->
                  Str.is_lower c = false)
  /\ Str.upper (Str.upper output_dir) = Str.upper output_dir.
Proof.
  intros _. split; [|split].
  - unfold display_title. rewrite replace_separators. unfold Str.title.
    rewrite upper_title_from. unfold Str.upper. rewrite !str_map_map.
    apply str_map_ext. intros c. now rewrite to_space_upper.
  - intros i c. unfold Str.upper. rewrite str_map_get.
    destruct (String.get i output_dir) as [c0|]; simpl; [|discriminate].
    intros H; inversion H. apply to_upper_not_lower.
  - unfold Str.upper. rewrite str_map_map.
    apply str_map_ext. apply to_upper_twice.
Qed.

Lemma split_not_nil s : P.split s <> [].
Proof.
  destruct s as [|c s]; simpl; [discriminate|].
  destruct (Ascii.eqb c "/"); [discriminate|].
  destruct (P.split s); discriminate.
Qed.

Lemma split_slash s : P.split (s ++ "/") = (P.split s ++ [""])%list.
Proof.
  induction s as [|c s IH]; [reflexivity|].
  change (String c s ++ "/") with (String c (s ++ "/")).
  simpl. rewrite IH.
  destruct (Ascii.eqb c "/"); [reflexivity|].
  pose proof (split_not_nil s) as Hn.
  destruct (P.split s) as [|h t]; [congruence|reflexivity].
Qed.

Lemma title_from_slash b s :
  Str.title_from b (s ++ "/") = Str.title_from b s ++ "/".
Proof.
  revert b. induction s as [|c s IH]; intros b.
  - destruct b; reflexivity.
  - change (String c s ++ "/") with (String c (s ++ "/")).
    simpl. rewrite IH. reflexivity.
Qed.

(** X12.  A slash at the end of a name in ASCII does not change where
    the target is, but it stays in what is written: the display title and
    the course code both end with it. *)
Theorem trailing_slash output_dir :
  is_ascii output_dir = true ->
  output_dir <> "" ->
  target cwd (output_dir ++ "/") = target cwd output_dir
  /\ display_title (output_dir ++ "/") = display_title output_dir ++ "/"
  /\ Str.upper (output_dir ++ "/") = Str.upper output_dir ++ "/".
Proof.
  intros _ Hne. split; [|split].
  - unfold target. f_equal. unfold P.of_string. f_equal.
    + destruct output_dir as [|c s]; [congruence|reflexivity].
    + rewrite split_slash, filter_app. simpl. apply app_nil_r.
  - unfold display_title. rewrite !replace_separators, str_map_app.
    unfold Str.title. change (Str.map to_space "/") with "/".
    apply title_from_slash.
  - unfold Str.upper. now rewrite str_map_app.
Qed.

(** ** More on the update of course.json *)

Lemma dict_set_same {V : Type} (k : string) (v : V) d :
  Dict.get k d = Some v -> Dict.set k v d = d.
Proof.
  induction d as [|[k' v'] d IH]; simpl; [discriminate|].
  destruct (String.eqb k' k); intros H.
  - now inversion H.
  - now rewrite IH.
Qed.

(** Setting the two fields a second time changes nothing. *)
Lemma updated_members_twice output_dir d :
  updated_members output_dir (updated_members output_dir d)
  = updated_members output_dir d.
Proof.
  destruct (updated_members_get output_dir (updated_members output_dir d))
    as (_ & _ & _).
  destruct (updated_members_get output_dir d) as (Gt & Gc & _).
  unfold updated_members at 1.
  now rewrite (dict_set_same _ _ _ Gt), (dict_set_same _ _ _ Gc).
Qed.

(** A copy without failure has read every file of its source. *)
Lemma copied_is_readable src dst w w1 :
  copytree cwd runaway src dst w = (Ok tt, w1) ->
  exists es, FS.lookup (fs w) (resolve cwd src) = Some (Dir es)
             /\ Tree.all_readable (Dir es) = true.
Proof.
  intros C.
  destruct (copytree_cases _ _ _ _ _ C)
    as [[_ (n & s1 & s2 & Hr)]
       |[(es & copy & errs & L & _ & _ & Cn & _ & Hr)|(es & L & E & I)]].
  - discriminate.
  - exists es. split; [exact L|].
    apply (copy_node_errors (Dir es) src dst). rewrite Cn. cbn [snd].
    destruct errs; [reflexivity|discriminate].
  - exfalso. revert C. unfold copytree. run. rewrite L, E, I.
    destruct (runaway (fs w) src dst). discriminate.
Qed.

Lemma all_readable_entry es x m data :
  Tree.all_readable (Dir es) = true ->
  Dict.get x es = Some (File m data) ->
  readable m = true.
Proof.
  simpl. induction es as [|[y c] es IH]; simpl; [discriminate|].
  intros H G. apply andb_true_iff in H. destruct H as [Hc Hes].
  destruct (String.eqb y x).
  - inversion G; subst c. exact Hc.
  - auto.
Qed.

(** X13.  When course.json of the template is already the dump of an
    object that carries the computed title and course code, the run leaves
    a course.json that is the same as the one of the template, byte for
    byte; and setting the two fields twice is the same as setting them
    once. *)
Theorem settled_course_json_is_kept output_dir w w1 m d :
  FS.exists_ (fs w) (target_of output_dir) = false ->
  FS.exists_ (fs w) template_at = true ->
  copytree cwd runaway template_path (P.of_string output_dir) w = (Ok tt, w1) ->
  FS.stat (fs w) (template_at ++ ["course.json"])
  = Some (EFile m (Json.dumps 2 (JObject d))) ->
  writable m = true ->
  json_loads (Json.dumps 2 (JObject d)) = inl (JObject d) ->
  Dict.get "title" d = Some (JString (display_title output_dir)) ->
  Dict.get "course_code" d = Some (JString (Str.upper output_dir)) ->
  FS.stat (fs (snd (run_create output_dir w))) (target_of output_dir ++ ["course.json"])
  = FS.stat (fs w) (template_at ++ ["course.json"])
  /\ forall d0, updated_members output_dir (updated_members output_dir d0)
                = updated_members output_dir d0.
Proof.
  intros E1 E2 C S W J Gt Gc. split; [|intros d0; apply updated_members_twice].
  assert (R : readable m = true).
  { destruct (copied_is_readable _ _ _ _ C) as (es & L & Ha).
    pose proof S as S'. apply stat_file in S'.
    fold template_at in L. rewrite lookup_app, L in S'. simpl in S'.
    destruct (Dict.get "course.json" es) as [c|] eqn:Ec; [|discriminate].
    inversion S'; subst c. eapply all_readable_entry; eauto. }
  assert (Rw : rewritable json_loads
                 (FS.stat (fs w) (template_at ++ ["course.json"]))
               = Some (m, d)).
  { rewrite S. unfold rewritable. now rewrite R, W, J. }
  rewrite (course_json_final _ _ _ _ _ _ _ _ _ E1 E2 C Rw), S.
  unfold updated_members.
  now rewrite (dict_set_same _ _ _ Gt), (dict_set_same _ _ _ Gc).
Qed.

(** Putting a node at a place leaves every place that is neither on the
    way to it nor at or below it as it was, there or not. *)
Lemma stat_graft_elsewhere n p new n' q :
  FS.graft n p new = Some n' ->
  FS.strip_prefix p q = None ->
  FS.strip_prefix q p = None ->
  FS.stat n' q = FS.stat n q.
Proof.
  unfold FS.stat.
  revert n n' q. induction p as [|x p IH]; intros n n' q G Hq Hp; simpl in *.
  - discriminate.
  - destruct n as [m0 d0|es]; [discriminate|].
    destruct (FS.graft _ p new) as [c'|] eqn:G'; [|discriminate].
    inversion G; subst n'; clear G.
    destruct q as [|y q]; [discriminate|]. simpl in *.
    rewrite String.eqb_sym in Hp.
    destruct (String.eqb x y) eqn:Exy.
    + apply String.eqb_eq in Exy. subst y. rewrite dict_get_set_same.
      rewrite (IH _ _ _ G' Hq Hp).
      destruct (Dict.get x es) as [c|]; [reflexivity|].
      destruct q as [|z q]; [discriminate|reflexivity].
    + rewrite dict_get_set_other; auto.
      intros ->. now rewrite String.eqb_refl in Exy.
Qed.

(** X17.  Whatever the outcome of the run, it makes nothing but the target
    and the directories on the way to it: a place that was not there, that
    is not in the target and not on the way to it, is not there afterwards.
    The target, the template and the place are taken without a part [..],
    so that each is the place the operating system finds under its name. *)
Theorem nothing_else_made output_dir w q :
  Tree.no_parent_parts (target_of output_dir) = true ->
  Tree.no_parent_parts template_at = true ->
  Tree.no_parent_parts q = true ->
  FS.strip_prefix template_at (target_of output_dir) = None ->
  FS.stat (fs w) q = None ->
  FS.strip_prefix (target_of output_dir) q = None ->
  FS.strip_prefix q (target_of output_dir) = None ->
  FS.stat (fs (snd (run_create output_dir w))) q = None.
Proof.
  intros _ _ _ Hout S Hq Hp.
  destruct (FS.exists_ (fs w) (target_of output_dir)) eqn:E1.
  { now rewrite (create_template_target_exists _ _ _ _ _ _ E1). }
  destruct (FS.exists_ (fs w) template_at) eqn:E2.
  2:{ now rewrite (create_template_template_missing _ _ _ _ _ _ E1 E2). }
  destruct (copytree cwd runaway template_path (P.of_string output_dir) w)
    as [r w1] eqn:C.
  assert (S1 : FS.stat (fs w1) q = None).
  { destruct (copytree_cases _ _ _ _ _ C)
      as [[Same _]|[(es & copy & errors & _ & _ & _ & _ & G & _)|(es & _ & _ & I)]].
    - now rewrite Same.
    - fold (target_of output_dir) in G.
      now rewrite (stat_graft_elsewhere _ _ _ _ _ G Hq Hp).
    - fold template_at in I. fold (target_of output_dir) in I.
      now rewrite not_into_itself in I. }
  destruct r as [[]|err].
  - rewrite (after_copy_frame _ _ _ E1 E2 C); auto using not_below.
  - now rewrite (create_template_to_copy _ _ _ _ _ _ _ _ E1 E2 C).
Qed.

(** ** More on the listing *)

Lemma compare_refl s : String.compare s s = Eq.
Proof.
  pose proof (String.compare_antisym s s) as H.
  destruct (String.compare s s); simpl in H; congruence.
Qed.

Lemma parts_leb_total a b : P.parts_leb a b = false -> P.parts_leb b a = true.
Proof.
  revert b. induction a as [|x a IH]; intros [|y b]; simpl; try congruence.
  rewrite (String.compare_antisym x y).
  destruct (String.compare y x); simpl; auto; congruence.
Qed.

Lemma parts_leb_common l x y :
  P.parts_leb (l ++ [x]) (l ++ [y]) = String.leb x y.
Proof.
  induction l as [|z l IH]; simpl.
  - unfold String.leb. now destruct (String.compare x y).
  - now rewrite compare_refl.
Qed.

Lemma insert_permutation p l : Permutation (P.insert p l) (p :: l).
Proof.
  induction l as [|q l IH]; simpl; [reflexivity|].
  destruct (P.parts_leb (parts p) (parts q)); [reflexivity|].
  rewrite IH. apply perm_swap.
Qed.

Lemma sorted_permutation l : Permutation (P.sorted l) l.
Proof.
  induction l as [|p l IH]; simpl; [reflexivity|].
  rewrite insert_permutation. now constructor.
Qed.

Lemma insert_sorted p l : Sorted path_leb l -> Sorted path_leb (P.insert p l).
Proof.
  induction 1 as [|q l Hl IH Hq]; simpl.
  - repeat constructor.
  - destruct (P.parts_leb (parts p) (parts q)) eqn:E.
    + constructor; [now constructor|]. now constructor.
    + constructor; [exact IH|].
      apply parts_leb_total in E.
      destruct l as [|r l]; simpl.
      * now constructor.
      * destruct (P.parts_leb (parts p) (parts r)); constructor; auto.
        now inversion Hq.
Qed.

Lemma sorted_sorted l : Sorted path_leb (P.sorted l).
Proof.
  induction l as [|p l IH]; simpl; [constructor|]. now apply insert_sorted.
Qed.

Lemma name_div p x : P.name (p // x) = x.
Proof. unfold P.name, P.div. simpl. apply last_last. Qed.

(** Among the entries of one directory the order of the paths is the
    order of the names. *)
Lemma sorted_by_name p l :
  Forall (fun item => exists x, item = p // x) l ->
  Sorted path_leb l ->
  Sorted (fun a b => String.leb (P.name a) (P.name b) = true) l.
Proof.
  intros Hf Hs. induction Hs as [|q l Hl IH Hq]; [constructor|].
  inversion Hf as [|? ? [x ->] Hf']; subst.
  constructor; [auto|].
  destruct Hq as [|r l Hr]; constructor.
  inversion Hf' as [|? ? [y ->] _]; subst.
  rewrite !name_div. unfold path_leb in Hr. simpl in Hr.
  now rewrite parts_leb_common in Hr.
Qed.

Lemma listing_body item w :
  (d <- is_dir cwd item ;;
   if d then
     found <- rglob_dotted cwd item ;;
     let file_count := List.length found in
     print ("   ✓ " ++ P.name item ++ "/ (" ++ Str.of_nat file_count ++ " files)")
   else
     print ("   ✓ " ++ P.name item)) w
  = (Ok tt, World (fs w) (stdout w ++ [listing_line cwd (fs w) item])).
Proof.
  unfold is_dir, rglob_dotted, listing_line. unfold bind, get_fs, ret, print.
  cbv beta iota. cbn [fs stdout].
  destruct (FS.lookup (fs w) (resolve cwd item)) as [[m d|es]|] eqn:E;
    try reflexivity.
  rewrite E. cbn [fs stdout]. now rewrite length_map.
Qed.

Lemma for_each_lines (body : Path -> M unit) (line : node -> Path -> string) l :
  (forall item w, body item w = (Ok tt, World (fs w) (stdout w ++ [line (fs w) item]))) ->
  forall w,
    for_each l body w
    = (Ok tt, World (fs w) (stdout w ++ List.map (line (fs w)) l)).
Proof.
  intros Hb. induction l as [|item l IH]; intros w; simpl.
  - unfold ret. destruct w. simpl. now rewrite app_nil_r.
  - unfold bind. rewrite Hb, IH. simpl. now rewrite <- app_assoc.
Qed.

(** X14.  The listing prints its heading and then one line for every
    entry of the directory, and these lines come in the order of the
    names; it reads the files and changes none. *)
Theorem listing_in_name_order p w es :
  FS.lookup (fs w) (resolve cwd p) = Some (Dir es) ->
  let items := P.sorted (List.map (fun e => p // fst e) es) in
  list_copied cwd p w
  = (Ok tt,
     World (fs w)
       (stdout w
        ++ (Str.nl ++ "✅ Copied structure:")
           :: List.map (listing_line cwd (fs w)) items))
  /\ Permutation (List.map P.name items) (List.map fst es)
  /\ Sorted (fun a b => String.leb (P.name a) (P.name b) = true) items.
Proof.
  intros L items. split; [|split].
  - unfold list_copied.
    unfold bind at 1. rewrite print_eq.
    unfold bind at 1. unfold iterdir. unfold bind at 1. unfold get_fs at 1.
    cbn [fs stdout]. rewrite L. unfold ret at 1.
    rewrite (for_each_lines _ (listing_line cwd) _ listing_body).
    cbn [fs stdout]. now rewrite <- app_assoc.
  - unfold items. rewrite (Permutation_map P.name (sorted_permutation _)).
    rewrite map_map.
    erewrite map_ext; [reflexivity|]. intros e. apply name_div.
  - apply (sorted_by_name p); [|apply sorted_sorted].
    apply (Permutation_Forall (Permutation_sym (sorted_permutation _))).
    apply Forall_map. apply Forall_forall. intros e _. eauto.
Qed.

(** ** More on the script *)

Section Main.

Variable parse_args : list string -> list string * parse_result.

Abbreviation run_main := (main cwd runaway script_dir json_loads parse_args).

(** X15.  [main] drops the value of [create_template]: when the name given
    on the command line is refused (the target exists or the template is
    missing), [main] returns as it does after a success, and no file has
    changed. *)
Theorem main_hides_refusal argv w printed directory :
  parse_args argv = (printed, Namespace directory) ->
  FS.exists_ (fs w) (target_of directory) = true
  \/ FS.exists_ (fs w) template_at = false ->
  fst (run_main argv w) = Returns
  /\ fs (snd (run_main argv w)) = fs w.
Proof.
  intros Hp H.
  assert (R : exists out,
             run_create directory (World (fs w) (stdout w ++ printed))
             = (Ok false, World (fs w) out)).
  { destruct (FS.exists_ (fs w) (target_of directory)) eqn:E1.
    - eexists.
      apply (create_template_target_exists _ _ _ _ directory
               (World (fs w) (stdout w ++ printed))). exact E1.
    - destruct H as [H|H]; [discriminate|].
      eexists.
      apply (create_template_template_missing _ _ _ _ directory
               (World (fs w) (stdout w ++ printed))); assumption. }
  destruct R as [out R].
  unfold main. rewrite Hp, R. cbn [fst snd fs].
  split; reflexivity.
Qed.

End Main.

End MoreRuns.

(** ** More on the text of course.json *)

Lemma is_ascii_app a b : is_ascii (a ++ b) = is_ascii a && is_ascii b.
Proof.
  induction a as [|c a IH]; [reflexivity|].
  change (String c a ++ b) with (String c (a ++ b)).
  cbn [is_ascii]. rewrite IH. now rewrite andb_assoc.
Qed.

Lemma is_ascii_repeat s n : is_ascii s = true -> is_ascii (Str.repeat s n) = true.
Proof.
  intros H. induction n as [|n IH]; [reflexivity|].
  cbn [Str.repeat]. rewrite is_ascii_app, H, IH. reflexivity.
Qed.

Lemma is_ascii_join sep l :
  is_ascii sep = true -> Forall (fun s => is_ascii s = true) l ->
  is_ascii (Str.join sep l) = true.
Proof.
  intros Hs H. unfold Str.join. induction H as [|s l H1 H2 IH]; [reflexivity|].
  destruct l as [|s' l]; [exact H1|].
  change (is_ascii (s ++ sep ++ String.concat sep (s' :: l)) = true).
  rewrite !is_ascii_app, H1, Hs, IH. reflexivity.
Qed.

Lemma is_ascii_uint u : is_ascii (NilEmpty.string_of_uint u) = true.
Proof. induction u; cbn [NilEmpty.string_of_uint is_ascii]; auto. Qed.

Lemma is_ascii_of_Z z : is_ascii (Str.of_Z z) = true.
Proof.
  unfold Str.of_Z, NilZero.string_of_int, NilZero.string_of_uint.
  destruct (Z.to_int z) as [u|u]; destruct u; try reflexivity;
    cbn [is_ascii]; try apply is_ascii_uint;
    rewrite ?is_ascii_uint; reflexivity.
Qed.

Lemma hex_digit_ascii n : N.ltb (N_of_ascii (Json.hex_digit n)) 128 = true.
Proof.
  destruct n as [|p]; [reflexivity|].
  do 4 (destruct p as [p|p|]; try reflexivity).
Qed.

Lemma is_ascii_u_escape n : is_ascii (Json.u_escape n) = true.
Proof.
  unfold Json.u_escape. rewrite is_ascii_app. cbn [is_ascii].
  rewrite !hex_digit_ascii. reflexivity.
Qed.

Lemma is_ascii_escape_code_point n : is_ascii (Json.escape_code_point n) = true.
Proof.
  unfold Json.escape_code_point.
  repeat match goal with
         | |- context [if ?b then _ else _] => destruct b eqn:?; try reflexivity
         end;
    rewrite ?is_ascii_app, ?is_ascii_u_escape; try reflexivity.
  cbn [is_ascii].
  match goal with
  | H : (_ && _)%bool = true |- _ =>
      apply andb_true_iff in H; destruct H as [_ H]; apply N.leb_le in H
  end.
  rewrite N_ascii_embedding by lia.
  replace (N.ltb n 128) with true; [reflexivity|].
  symmetry. apply N.ltb_lt. lia.
Qed.

Lemma is_ascii_escape_bounded k :
  forall s, String.length s <= k -> is_ascii (Json.escape s) = true.
Proof.
  induction k as [|k IH]; intros s H.
  - destruct s; [reflexivity|simpl in H; lia].
  - destruct s as [|c s1]; [reflexivity|].
    cbn [String.length] in H.
    change (Json.escape (String c s1))
      with (let b := N_of_ascii c in
            if N.ltb b 192 then Json.escape_code_point b ++ Json.escape s1
            else
              match s1 with
              | EmptyString => Json.escape_code_point b
              | String c1 s2 =>
                  if N.ltb b 224 then
                    Json.escape_code_point
                      (N.lor (N.shiftl (N.land b 31) 6) (Json.cont c1))
                    ++ Json.escape s2
                  else
                    match s2 with
                    | EmptyString => Json.escape_code_point b ++ Json.escape s1
                    | String c2 s3 =>
                        if N.ltb b 240 then
                          Json.escape_code_point
                            (N.lor (N.shiftl (N.land b 15) 12)
                               (N.lor (N.shiftl (Json.cont c1) 6) (Json.cont c2)))
                          ++ Json.escape s3
                        else
                          match s3 with
                          | EmptyString =>
                              Json.escape_code_point b ++ Json.escape s1
                          | String c3 s4 =>
                              Json.escape_code_point
                                (N.lor (N.shiftl (N.land b 7) 18)
                                   (N.lor (N.shiftl (Json.cont c1) 12)
                                      (N.lor (N.shiftl (Json.cont c2) 6)
                                         (Json.cont c3))))
                              ++ Json.escape s4
                          end
                    end
              end).
    cbv zeta.
    assert (T : forall s', String.length s' <= String.length s1 ->
                           is_ascii (Json.escape s') = true)
      by (intros s' H'; apply IH; lia).
    clear IH H. revert T. generalize Json.escape as esc. intros esc T.
    destruct (N.ltb (N_of_ascii c) 192).
    { rewrite is_ascii_app, is_ascii_escape_code_point. apply T. lia. }
    destruct s1 as [|c1 s2]; [apply is_ascii_escape_code_point|].
    destruct (N.ltb (N_of_ascii c) 224).
    { rewrite is_ascii_app, is_ascii_escape_code_point. apply T.
      cbn [String.length]. lia. }
    destruct s2 as [|c2 s3].
    { rewrite is_ascii_app, is_ascii_escape_code_point. apply T. lia. }
    destruct (N.ltb (N_of_ascii c) 240).
    { rewrite is_ascii_app, is_ascii_escape_code_point. apply T.
      cbn [String.length]. lia. }
    destruct s3 as [|c3 s4].
    { rewrite is_ascii_app, is_ascii_escape_code_point. apply T. lia. }
    rewrite is_ascii_app, is_ascii_escape_code_point. apply T.
    cbn [String.length]. lia.
Qed.

Lemma is_ascii_escape s : is_ascii (Json.escape s) = true.
Proof. apply (is_ascii_escape_bounded (String.length s)). lia. Qed.

Lemma is_ascii_encode_string s : is_ascii (Json.encode_string s) = true.
Proof.
  unfold Json.encode_string. rewrite !is_ascii_app, is_ascii_escape. reflexivity.
Qed.

Lemma encode_array indent level x items :
  Json.encode indent level (JArray (x :: items))
  = "[" ++ (Str.nl ++ Str.repeat indent (S level))
    ++ Str.join ("," ++ Str.nl ++ Str.repeat indent (S level))
         (List.map (Json.encode indent (S level)) (x :: items))
    ++ Str.nl ++ Str.repeat indent level ++ "]".
Proof.
  assert (E : forall l,
             (fix each (l : list json) : list string :=
                match l with
                | [] => []
                | x :: l' => Json.encode indent (S level) x :: each l'
                end) l
             = List.map (Json.encode indent (S level)) l).
  { induction l as [|y l IH]; [reflexivity|]. rewrite IH. reflexivity. }
  rewrite <- E. reflexivity.
Qed.

Lemma floats_ascii_array l :
  floats_ascii (JArray l) = forallb floats_ascii l.
Proof.
  induction l as [|x l IH]; [reflexivity|].
  cbn [forallb]. rewrite <- IH. reflexivity.
Qed.

Lemma floats_ascii_object l :
  floats_ascii (JObject l) = forallb (fun kv => floats_ascii (snd kv)) l.
Proof.
  induction l as [|[k x] l IH]; [reflexivity|].
  cbn [forallb snd]. rewrite <- IH. reflexivity.
Qed.

Lemma is_ascii_encode indent v :
  is_ascii indent = true -> floats_ascii v = true ->
  forall level, is_ascii (Json.encode indent level v) = true.
Proof.
  intros Hi. induction v as [|b|z|repr|s|items IH|members IH] using json_induction;
    intros Hf level.
  - reflexivity.
  - now destruct b.
  - apply is_ascii_of_Z.
  - exact Hf.
  - apply is_ascii_encode_string.
  - destruct items as [|x items]; [reflexivity|].
    rewrite encode_array, !is_ascii_app.
    rewrite !is_ascii_repeat by assumption.
    rewrite is_ascii_join.
    + reflexivity.
    + rewrite !is_ascii_app, is_ascii_repeat by assumption. reflexivity.
    + rewrite floats_ascii_array in Hf.
      rewrite forallb_forall in Hf. rewrite Forall_forall in IH.
      apply Forall_map. apply Forall_forall. intros y Hy. auto.
  - destruct members as [|kx members]; [reflexivity|].
    rewrite encode_object, !is_ascii_app.
    rewrite !is_ascii_repeat by assumption.
    rewrite is_ascii_join.
    + reflexivity.
    + rewrite !is_ascii_app, is_ascii_repeat by assumption. reflexivity.
    + rewrite floats_ascii_object in Hf.
      rewrite forallb_forall in Hf. rewrite Forall_forall in IH.
      apply Forall_map. apply Forall_forall. intros y Hy.
      unfold Json.member_text.
      rewrite !is_ascii_app, is_ascii_encode_string. cbn [andb is_ascii].
      rewrite IH; auto.
Qed.

Lemma floats_ascii_set k v d :
  floats_ascii v = true -> floats_ascii (JObject d) = true ->
  floats_ascii (JObject (Dict.set k v d)) = true.
Proof.
  intros Hv. rewrite !floats_ascii_object.
  induction d as [|[k' x] d IH]; intros H.
  - cbn. now rewrite Hv.
  - cbn [forallb snd] in H. apply andb_true_iff in H. destruct H as [H1 H2].
    cbn [Dict.set]. destruct (String.eqb k' k); cbn [forallb snd].
    + now rewrite Hv.
    + rewrite H1. now apply IH.
Qed.

Section Ascii.

Variable cwd : location.
Variable runaway : node -> Path -> Path -> exn * node.
Variable script_dir : Path.
Variable json_loads : string -> json + string.

(** X16.  [json.dump] is called with [ensure_ascii] left on: whatever
    bytes the directory name and the strings and keys of the template's
    course.json hold, the rewritten course.json is plain ASCII. *)
Theorem rewritten_course_json_is_ascii output_dir w w1 m d :
  FS.exists_ (fs w) (target cwd output_dir) = false ->
  FS.exists_ (fs w) (template cwd script_dir) = true ->
  copytree cwd runaway (script_dir // "canvas-course-template")
    (P.of_string output_dir) w = (Ok tt, w1) ->
  rewritable json_loads
    (FS.stat (fs w) (template cwd script_dir ++ ["course.json"])) = Some (m, d) ->
  floats_ascii (JObject d) = true ->
  exists text,
    FS.stat (fs (snd (create_template cwd runaway script_dir json_loads output_dir w)))
      (target cwd output_dir ++ ["course.json"]) = Some (EFile m text)
    /\ is_ascii text = true.
Proof.
  intros E1 E2 C R F. eexists. split.
  - apply (course_json_final cwd runaway script_dir json_loads output_dir w w1 m d);
      assumption.
  - unfold Json.dumps. apply is_ascii_encode.
    + apply is_ascii_repeat. reflexivity.
    + unfold updated_members. apply floats_ascii_set; [reflexivity|].
      apply floats_ascii_set; [reflexivity|exact F].
Qed.

End Ascii.

(** ** The added theorems on examples *)

(** The run on the full template leaves modules.json of the template as
    it was. *)
Lemma existing_places_kept_witness :
  FS.stat (fs (snd (run "my-course" full_template))) (in_template ["modules.json"])
  = Some (EFile default_mode "[]").
Proof.
  apply (existing_places_kept cwd runaway script_dir RefJson.loads "my-course" good);
    vm_compute; reflexivity.
Defined.

(** A second run after the run on the full template. *)
Lemma second_run_refused_witness :
  fst (create_template cwd runaway script_dir RefJson.loads "my-course"
         (snd (run "my-course" full_template)))
  = Ok false.
Proof.
  assert (H : fst (create_template cwd runaway script_dir RefJson.loads "my-course" good)
              <> Ok false)
    by (vm_compute; discriminate).
  pose proof (second_run_refused cwd runaway script_dir RefJson.loads "my-course" good H)
    as R.
  cbv zeta in R. unfold run. fold good. rewrite R. reflexivity.
Defined.

(** A second run after the copy of a template with an unreadable file. *)
Lemma partial_copy_blocks_rerun_witness :
  FS.stat (fs (snd (run "my-course" unreadable_template))) (target cwd "my-course")
  = Some EDir
  /\ fst (create_template cwd runaway script_dir RefJson.loads "my-course"
            (snd (run "my-course" unreadable_template)))
     = Ok false.
Proof.
  pose (w := world_with unreadable_template).
  pose (c := copytree cwd runaway tpl (P.of_string "my-course") w).
  assert (H1 : FS.exists_ (fs w) (target cwd "my-course") = false)
    by (vm_compute; reflexivity).
  assert (H2 : FS.exists_ (fs w) (template cwd script_dir) = true)
    by (vm_compute; reflexivity).
  assert (H3 : FS.strip_prefix (template cwd script_dir) (target cwd "my-course") = None)
    by (vm_compute; reflexivity).
  assert (H4 : fst (copytree cwd runaway tpl (P.of_string "my-course") w)
               = Raise (ShutilError
                          [("/home/teacher/imscc-tools/canvas-course-template/secret.txt",
                            "my-course/secret.txt",
                            "[Errno 13] Permission denied: "
                            ++ "'/home/teacher/imscc-tools/canvas-course-template/secret.txt'")]))
    by (vm_compute; reflexivity).
  destruct (partial_copy_blocks_rerun cwd runaway script_dir RefJson.loads "my-course"
              w _ H1 H2 H3 H4) as (_ & D & R).
  split; [exact D|]. unfold run. fold w. rewrite R. reflexivity.
Defined.

(** A name with slashes: the run makes the directory courses on its way
    to the target. *)
Lemma parents_are_made_witness :
  FS.stat (fs (snd (run "courses/2026/my-course" full_template)))
    (cwd ++ ["courses"])%list
  = Some EDir.
Proof.
  apply (parents_are_made cwd runaway script_dir RefJson.loads
           "courses/2026/my-course" good).
  - vm_compute. reflexivity.
  - exists ["2026"; "my-course"]. split; [discriminate|vm_compute; reflexivity].
Defined.

(** A target below the script, which is a regular file. *)
Lemma target_below_file_witness :
  fst (run "create_template.py/my-course" full_template) = Ok false
  /\ fs (snd (run "create_template.py/my-course" full_template)) = fs good.
Proof.
  apply (target_below_file cwd runaway script_dir RefJson.loads
           "create_template.py/my-course" good
           (cwd ++ ["create_template.py"])%list default_mode "#!/usr/bin/env python3").
  - exists ["my-course"]. split; [discriminate|vm_compute; reflexivity].
  - vm_compute. reflexivity.
  - vm_compute. reflexivity.
Defined.

(** A regular file where the template should be. *)
Lemma template_not_a_directory_witness :
  fst (run "my-course" (File default_mode "not a directory")) = Ok false
  /\ fs (snd (run "my-course" (File default_mode "not a directory")))
     = fs (world_with (File default_mode "not a directory")).
Proof.
  unfold run.
  rewrite (template_not_a_directory cwd runaway script_dir RefJson.loads "my-course"
             (world_with (File default_mode "not a directory"))
             default_mode "not a directory");
    [split; reflexivity|vm_compute; reflexivity|vm_compute; reflexivity].
Defined.

(** The name that is one dot. *)
Lemma name_without_parts_witness :
  fst (run "." full_template) = Ok false
  /\ fs (snd (run "." full_template)) = fs good.
Proof.
  unfold run. fold good.
  rewrite (name_without_parts cwd runaway script_dir RefJson.loads "." good);
    [split; reflexivity|vm_compute; reflexivity|vm_compute; reflexivity].
Defined.

(** The template with an unreadable file makes the run return [False]. *)
Lemma copy_fails_iff_unreadable_witness :
  fst (run "my-course" unreadable_template) = Ok false.
Proof.
  apply (copy_fails_iff_unreadable cwd runaway script_dir RefJson.loads "my-course"
           (world_with unreadable_template) (Cases.entries_of unreadable_template)).
  - vm_compute. reflexivity.
  - intros q m data (rest & Hne & Heq) Hs.
    vm_compute in Heq.
    destruct q as [|a [|b [|c [|d q]]]]; cbn [app] in Heq;
      inversion Heq; subst; vm_compute in Hs; discriminate.
  - vm_compute. reflexivity.
  - vm_compute. reflexivity.
  - vm_compute. reflexivity.
Defined.

(** After the copy of the template with an unreadable file: the readable
    file is in the target, the unreadable one is not. *)
Lemma partial_copy_content_witness :
  FS.stat (fs (snd (run "my-course" unreadable_template))) (in_target "my-course" ["b.txt"])
  = Some (EFile default_mode "B")
  /\ FS.stat (fs (snd (run "my-course" unreadable_template)))
       (in_target "my-course" ["secret.txt"])
     = None.
Proof.
  pose (w := world_with unreadable_template).
  assert (H1 : FS.exists_ (fs w) (target cwd "my-course") = false)
    by (vm_compute; reflexivity).
  assert (H2 : FS.lookup (fs w) (template cwd script_dir)
               = Some (Dir (Cases.entries_of unreadable_template)))
    by (vm_compute; reflexivity).
  assert (H3 : Tree.well_formed (Dir (Cases.entries_of unreadable_template)) = true)
    by (vm_compute; reflexivity).
  assert (H4 : FS.strip_prefix (template cwd script_dir) (target cwd "my-course") = None)
    by (vm_compute; reflexivity).
  assert (H5 : fst (copytree cwd runaway tpl (P.of_string "my-course") w)
               = Raise (ShutilError
                          [("/home/teacher/imscc-tools/canvas-course-template/secret.txt",
                            "my-course/secret.txt",
                            "[Errno 13] Permission denied: "
                            ++ "'/home/teacher/imscc-tools/canvas-course-template/secret.txt'")]))
    by (vm_compute; reflexivity).
  pose proof (partial_copy_content cwd runaway script_dir RefJson.loads "my-course"
                w _ _ H1 H2 H3 H4 H5) as C.
  unfold run, in_target. fold w. split.
  - rewrite (C ["b.txt"]). vm_compute. reflexivity.
  - rewrite (C ["secret.txt"]). vm_compute. reflexivity.
Defined.

(** The name my-course with a slash behind it. *)
Lemma trailing_slash_witness :
  target cwd "my-course/" = target cwd "my-course"
  /\ display_title "my-course/" = "My Course/"
  /\ Str.upper "my-course/" = "MY-COURSE/".
Proof.
  assert (A : is_ascii "my-course" = true) by reflexivity.
  assert (H : "my-course" <> "") by discriminate.
  destruct (trailing_slash cwd "my-course" A H) as (T & D & U).
  split; [exact T|split].
  - etransitivity; [exact D|]. vm_compute. reflexivity.
  - etransitivity; [exact U|]. vm_compute. reflexivity.
Defined.

(** The run on a template whose course.json already names my-course. *)
Lemma settled_course_json_is_kept_witness :
  FS.stat (fs (snd (run "my-course" Cases.settled_template)))
    (in_target "my-course" ["course.json"])
  = FS.stat (fs (world_with Cases.settled_template)) (in_template ["course.json"]).
Proof.
  pose (w := world_with Cases.settled_template).
  assert (H1 : FS.exists_ (fs w) (target cwd "my-course") = false)
    by (vm_compute; reflexivity).
  assert (H2 : FS.exists_ (fs w) (template cwd script_dir) = true)
    by (vm_compute; reflexivity).
  assert (H3 : copytree cwd runaway tpl (P.of_string "my-course") w
               = (Ok tt, snd (copytree cwd runaway tpl (P.of_string "my-course") w)))
    by (vm_compute; reflexivity).
  assert (H4 : FS.stat (fs w) (template cwd script_dir ++ ["course.json"])
               = Some (EFile default_mode
                         (Json.dumps 2 (JObject Cases.settled_members))))
    by (vm_compute; reflexivity).
  assert (H5 : writable default_mode = true) by reflexivity.
  assert (H6 : RefJson.loads (Json.dumps 2 (JObject Cases.settled_members))
               = inl (JObject Cases.settled_members))
    by (vm_compute; reflexivity).
  assert (H7 : Dict.get "title" Cases.settled_members
               = Some (JString (display_title "my-course")))
    by (vm_compute; reflexivity).
  assert (H8 : Dict.get "course_code" Cases.settled_members
               = Some (JString (Str.upper "my-course")))
    by (vm_compute; reflexivity).
  exact (proj1 (settled_course_json_is_kept cwd runaway script_dir RefJson.loads
                  "my-course" w _ _ _ H1 H2 H3 H4 H5 H6 H7 H8)).
Defined.

(** The listing of a template whose entries are given out of order. *)
Lemma listing_in_name_order_witness :
  list_copied cwd tpl (world_with Cases.listed_template)
  = (Ok tt,
     World (fs (world_with Cases.listed_template))
       [ Str.nl ++ "✅ Copied structure:";
         "   ✓ README.md";
         "   ✓ course.json";
         "   ✓ css/ (1 files)";
         "   ✓ wiki_content/ (1 files)" ]).
Proof.
  assert (H : FS.lookup (fs (world_with Cases.listed_template)) (resolve cwd tpl)
              = Some (Dir (Cases.entries_of Cases.listed_template)))
    by (vm_compute; reflexivity).
  destruct (listing_in_name_order cwd tpl (world_with Cases.listed_template) _ H)
    as (L & _).
  etransitivity; [exact L|]. vm_compute. reflexivity.
Defined.

(** The script called with the name of the template, which is there. *)
Lemma main_hides_refusal_witness :
  fst (main cwd runaway script_dir RefJson.loads Cases.parse_args
         ["create_template.py"; "canvas-course-template"] good)
  = Returns.
Proof.
  apply (main_hides_refusal cwd runaway script_dir RefJson.loads Cases.parse_args
           ["create_template.py"; "canvas-course-template"] good
           [] "canvas-course-template").
  - reflexivity.
  - left. vm_compute. reflexivity.
Defined.

(** The run on the full template writes a course.json in ASCII. *)
Lemma rewritten_course_json_is_ascii_witness :
  exists text,
    FS.stat (fs (snd (run "my-course" full_template)))
      (in_target "my-course" ["course.json"]) = Some (EFile default_mode text)
    /\ is_ascii text = true.
Proof.
  apply (rewritten_course_json_is_ascii cwd runaway script_dir RefJson.loads
           "my-course" good
           (snd (copytree cwd runaway tpl (P.of_string "my-course") good))
           default_mode full_members);
    vm_compute; reflexivity.
Defined.

(** The run on the full template makes no directory beside the target. *)
Lemma nothing_else_made_witness :
  FS.stat (fs (snd (run "my-course" full_template))) (cwd ++ ["other-course"])%list
  = None.
Proof.
  apply (nothing_else_made cwd runaway script_dir RefJson.loads "my-course" good);
    vm_compute; reflexivity.
Defined.

(** The display title of year9-programming is settled. *)
Lemma display_title_settled_witness :
  display_title (display_title "year9-programming") = "Year9 Programming".
Proof.
  assert (A : is_ascii "year9-programming" = true) by reflexivity.
  etransitivity; [exact (proj1 (display_title_settled "year9-programming" A))|].
  vm_compute. reflexivity.
Defined.

(** The code BIOLOGY_101 and the title Biology 101. *)
Lemma course_code_matches_title_witness :
  Str.upper (display_title "biology_101") = "BIOLOGY 101".
Proof.
  assert (A : is_ascii "biology_101" = true) by reflexivity.
  etransitivity; [exact (proj1 (course_code_matches_title "biology_101" A))|].
  vm_compute. reflexivity.
Defined.
